(** * API performance-testing configuration layer: formal model

    The repository is a set of k6 scripts (JavaScript) and shell wrappers.
    This development embeds the configuration modules
    ([config/endpoints.js], [config/test-suites.js]), the batch runner
    ([scripts/batch-test-runner.js]) and the argument validation of the
    shell wrappers, and states the properties of the specification over
    that embedding.

    JavaScript objects live in a store and are passed by reference; the
    functions of the scripts are written in a small state-and-exception
    monad over that store and over the trace of calls made to the load
    engine (console, http, check, sleep). *)

From Stdlib Require Import ZArith QArith Lia Ascii String.
From stdpp Require Import base decidable numbers option list strings pretty.

Set Warnings "-register-all".

Open Scope string_scope.
Open Scope Z_scope.
Open Scope list_scope.

(** ** JavaScript values, objects and the store *)

Module JS.

Abbreviation loc := nat (only parsing).

(** Numbers the scripts handle: integers (exact up to [2^53]), [NaN], and
    [Big z] for the double that the engine picks for an integer [z] beyond
    [2^53] (the language leaves its low-order digits to the engine). *)
Inductive number :=
| NaN
| Int (z : Z)
| Big (z : Z).

(** [VBuiltin p] is a member of the standard library reached through the
    prototype chain (a method such as [Object.prototype.toString], a
    constructor, a prototype object); it is named by its path and never
    called by the scripts. *)
Inductive value :=
| VUndefined
| VNull
| VBool (b : bool)
| VNum (n : number)
| VStr (s : string)
| VRef (l : loc)
| VBuiltin (path : string).

(** A plain object keeps its own enumerable properties in the order
    [Object.keys] reports them; an array keeps its elements. *)
Inductive object :=
| Obj (props : list (string * value))
| Arr (elems : list value).

Abbreviation heap := (list object) (only parsing).

#[global] Instance number_eq_dec : EqDecision number.
Proof. solve_decision. Defined.
#[global] Instance value_eq_dec : EqDecision value.
Proof. solve_decision. Defined.
#[global] Instance object_eq_dec : EqDecision object.
Proof. solve_decision. Defined.

(** Exceptions: [Error] is thrown by the scripts, [TypeError] by the
    engine (a property read on [undefined] or [null], a call of something
    that is not a function). *)
Inductive exn :=
| Error (message : string)
| TypeError (message : string).

Inductive outcome (A : Type) :=
| Ret (a : A)
| Throw (e : exn).
Arguments Ret {A} a.
Arguments Throw {A} e.

(** *** The load engine seen from a script

    What a script does to the outside world is the sequence of its calls
    to the engine. Console lines are kept as the parts of their template
    literal; a request body produced by [generateTestData] is kept as the
    template it was built from (its fields hold clock and random values). *)
Inductive payload :=
| UserRecord | OrderRecord | GenericRecord
| UserPatch | OrderPatch | GenericPatch
| EmptyRecord.

Inductive part :=
| Text (s : string)
| Val (v : value)
| Millis (q : Q).

Inductive event :=
| ConsoleLog (line : list part)
| ConsoleWarn (line : list part)
| ConsoleError (line : list part)
| HttpRequest (verb : string) (url : value) (body : option payload)
    (headers : list (string * value))
| CheckResult (name : list part) (passed : bool)
| SleepFor (seconds : value).

#[global] Instance Q_eq_dec : EqDecision Q.
Proof. solve_decision. Defined.
#[global] Instance payload_eq_dec : EqDecision payload.
Proof. solve_decision. Defined.
#[global] Instance part_eq_dec : EqDecision part.
Proof. solve_decision. Defined.
#[global] Instance event_eq_dec : EqDecision event.
Proof. solve_decision. Defined.

Definition is_http (e : event) : bool :=
  match e with HttpRequest _ _ _ _ => true | _ => false end.

Record response := {
  status : Z;
  duration : Q;
  resp_headers : list (string * string)
}.

Record state := {
  st_heap : heap;
  st_trace : list event
}.

(** *** The monad of scripts *)
Definition M (A : Type) : Type := state -> outcome A * state.

Definition ret {A} (a : A) : M A := fun st => (Ret a, st).
Definition throw {A} (e : exn) : M A := fun st => (Throw e, st).
Definition bind {A B} (c : M A) (k : A -> M B) : M B :=
  fun st => match c st with
            | (Ret a, st') => k a st'
            | (Throw e, st') => (Throw e, st')
            end.
Definition try_catch {A} (c : M A) (handler : exn -> M A) : M A :=
  fun st => match c st with
            | (Ret a, st') => (Ret a, st')
            | (Throw e, st') => handler e st'
            end.

Notation "'let*' x ':=' c 'in' k" := (bind c (fun x => k))
  (at level 10, x name, c at level 100, k at level 200).

Definition lift {A} (o : outcome A) : M A := fun st => (o, st).
Definition read {A} (f : heap -> A) : M A := fun st => (Ret (f (st_heap st)), st).
Definition alloc (o : object) : M value :=
  fun st => (Ret (VRef (List.length (st_heap st))),
             {| st_heap := st_heap st ++ [o]; st_trace := st_trace st |}).
Definition emit (e : event) : M unit :=
  fun st => (Ret tt, {| st_heap := st_heap st; st_trace := st_trace st ++ [e] |}).

(** *** Own properties and their order *)

Fixpoint assoc (k : string) (props : list (string * value)) : option value :=
  match props with
  | [] => None
  | (k', v) :: rest => if decide (k = k') then Some v else assoc k rest
  end.

Definition keys (props : list (string * value)) : list string := props.*1.

Definition digit (a : ascii) : option Z :=
  let n := Z.of_N (N_of_ascii a) in
  if (48 <=? n) && (n <=? 57) then Some (n - 48) else None.

Fixpoint digits_value (acc : Z) (s : string) : option Z :=
  match s with
  | EmptyString => Some acc
  | String a rest =>
      match digit a with
      | Some d => digits_value (10 * acc + d) rest
      | None => None
      end
  end.

(** A key is an array index when it is the canonical decimal form of an
    integer below [2^32 - 1]. Such keys come first, in ascending order, in
    the enumeration of an object; the other keys follow in creation order. *)
Definition array_index (k : string) : option Z :=
  match k with
  | EmptyString => None
  | String a rest =>
      if bool_decide (a = "0"%char) && negb (bool_decide (rest = EmptyString))
      then None
      else match digits_value 0 k with
           | Some n => if n <? 2 ^ 32 - 1 then Some n else None
           | None => None
           end
  end.

Fixpoint obj_replace (k : string) (v : value) (props : list (string * value)) :=
  match props with
  | [] => []
  | (k', v') :: rest =>
      if decide (k = k') then (k, v) :: rest else (k', v') :: obj_replace k v rest
  end.

Fixpoint obj_insert (k : string) (v : value) (props : list (string * value)) :=
  match props with
  | [] => [(k, v)]
  | (k', v') :: rest =>
      match array_index k, array_index k' with
      | Some i, Some j =>
          if i <? j then (k, v) :: props else (k', v') :: obj_insert k v rest
      | Some _, None => (k, v) :: props
      | None, _ => (k', v') :: obj_insert k v rest
      end
  end.

(** [target[k] = v] on the own properties of a plain object. *)
Definition obj_set (k : string) (v : value) (props : list (string * value)) :=
  match assoc k props with
  | Some _ => obj_replace k v props
  | None => obj_insert k v props
  end.

(** *** The prototype chain *)

Record proto := {
  proto_name : string;
  members : list string
}.

Definition Object_prototype : proto := {|
  proto_name := "Object";
  members := ["constructor"; "hasOwnProperty"; "isPrototypeOf";
              "propertyIsEnumerable"; "toLocaleString"; "toString"; "valueOf";
              "__proto__"; "__defineGetter__"; "__defineSetter__";
              "__lookupGetter__"; "__lookupSetter__"]
|}.

Definition Array_prototype : proto := {|
  proto_name := "Array";
  members := ["constructor"; "at"; "concat"; "copyWithin"; "entries"; "every";
              "fill"; "filter"; "find"; "findIndex"; "findLast";
              "findLastIndex"; "flat"; "flatMap"; "forEach"; "includes";
              "indexOf"; "join"; "keys"; "lastIndexOf"; "map"; "pop"; "push";
              "reduce"; "reduceRight"; "reverse"; "shift"; "slice"; "some";
              "sort"; "splice"; "toLocaleString"; "toReversed"; "toSorted";
              "toSpliced"; "toString"; "unshift"; "values"; "with"]
|}.

Definition String_prototype : proto := {|
  proto_name := "String";
  members := ["constructor"; "anchor"; "at"; "big"; "blink"; "bold"; "charAt";
              "charCodeAt"; "codePointAt"; "concat"; "endsWith"; "fixed";
              "fontcolor"; "fontsize"; "includes"; "indexOf"; "isWellFormed";
              "italics"; "lastIndexOf"; "link"; "localeCompare"; "match";
              "matchAll"; "normalize"; "padEnd"; "padStart"; "repeat";
              "replace"; "replaceAll"; "search"; "slice"; "small"; "split";
              "startsWith"; "strike"; "sub"; "substr"; "substring"; "sup";
              "toLocaleLowerCase"; "toLocaleUpperCase"; "toLowerCase";
              "toString"; "toUpperCase"; "toWellFormed"; "trim"; "trimEnd";
              "trimLeft"; "trimRight"; "trimStart"; "valueOf"]
|}.

Definition Number_prototype : proto := {|
  proto_name := "Number";
  members := ["constructor"; "toExponential"; "toFixed"; "toLocaleString";
              "toPrecision"; "toString"; "valueOf"]
|}.

Definition Boolean_prototype : proto := {|
  proto_name := "Boolean";
  members := ["constructor"; "toString"; "valueOf"]
|}.

Definition Function_prototype : proto := {|
  proto_name := "Function";
  members := ["constructor"; "apply"; "arguments"; "bind"; "call"; "caller";
              "length"; "name"; "toString"]
|}.

Definition member_value (p : proto) (k : string) : value :=
  if decide (k = "constructor") then VBuiltin (proto_name p)
  else VBuiltin (proto_name p +:+ ".prototype." +:+ k).

(** The lookup of [k] along a chain of prototypes; [__proto__] answers
    with the first prototype of the chain. *)
Definition inherited (chain : list proto) (k : string) : value :=
  if decide (k = "__proto__") then
    match chain with
    | p :: _ => VBuiltin (proto_name p +:+ ".prototype")
    | [] => VUndefined
    end
  else
    match List.find (fun p => bool_decide (k ∈ members p)) chain with
    | Some p => member_value p k
    | None => VUndefined
    end.

(** Every name that a member of the standard library answers to, as an own
    or an inherited property. A built-in read at such a name stays a
    built-in here; at any other name it is [undefined]. *)
Definition builtin_names : list string :=
  members Object_prototype ++ members Array_prototype ++
  members String_prototype ++ members Number_prototype ++
  members Boolean_prototype ++ members Function_prototype ++
  ["prototype"; "assign"; "create"; "defineProperties"; "defineProperty";
   "freeze"; "fromEntries"; "getOwnPropertyDescriptor";
   "getOwnPropertyDescriptors"; "getOwnPropertyNames";
   "getOwnPropertySymbols"; "getPrototypeOf"; "groupBy"; "hasOwn"; "is";
   "isExtensible"; "isFrozen"; "isSealed"; "preventExtensions"; "seal";
   "setPrototypeOf"; "from"; "fromAsync"; "isArray"; "of"; "fromCharCode";
   "fromCodePoint"; "raw"; "EPSILON"; "MAX_SAFE_INTEGER"; "MAX_VALUE";
   "MIN_SAFE_INTEGER"; "MIN_VALUE"; "NEGATIVE_INFINITY"; "NaN";
   "POSITIVE_INFINITY"; "isFinite"; "isInteger"; "isNaN"; "isSafeInteger";
   "parseFloat"; "parseInt"].

Definition builtin_get (path k : string) : value :=
  if bool_decide (k ∈ builtin_names) then VBuiltin (path +:+ "." +:+ k)
  else VUndefined.

Definition chars (s : string) : list value :=
  (fun c => VStr (String c EmptyString)) <$> list_ascii_of_string s.

Definition index_key (i : nat) : string := pretty (Z.of_nat i).

Definition elem_at (elems : list value) (i : Z) : option value :=
  elems !! Z.to_nat i.

(** A property read on a plain object, on an array and on a string: the
    own property if there is one, else the prototype chain. *)
Definition obj_get (props : list (string * value)) (k : string) : value :=
  match assoc k props with
  | Some x => x
  | None => inherited [Object_prototype] k
  end.

Definition arr_get (elems : list value) (k : string) : value :=
  if decide (k = "length") then VNum (Int (Z.of_nat (List.length elems)))
  else match array_index k ≫= elem_at elems with
       | Some x => x
       | None => inherited [Array_prototype; Object_prototype] k
       end.

Definition str_get (s : string) (k : string) : value :=
  if decide (k = "length") then VNum (Int (Z.of_nat (String.length s)))
  else match array_index k ≫= elem_at (chars s) with
       | Some c => c
       | None => inherited [String_prototype; Object_prototype] k
       end.

(** [v[k]] and [v.k]; a read on [undefined] or [null] throws. A location
    outside the store holds nothing. *)
Definition get_prop (h : heap) (v : value) (k : string) : outcome value :=
  match v with
  | VUndefined =>
      Throw (TypeError ("Cannot read property '" +:+ k +:+ "' of undefined"))
  | VNull =>
      Throw (TypeError ("Cannot read property '" +:+ k +:+ "' of null"))
  | VBool _ => Ret (inherited [Boolean_prototype; Object_prototype] k)
  | VNum _ => Ret (inherited [Number_prototype; Object_prototype] k)
  | VStr s => Ret (str_get s k)
  | VBuiltin path => Ret (builtin_get path k)
  | VRef l =>
      Ret (match h !! l with
           | Some (Obj props) => obj_get props k
           | Some (Arr elems) => arr_get elems k
           | None => VUndefined
           end)
  end.

(** The own enumerable string-keyed properties of a value, in enumeration
    order: what [Object.keys], [Object.entries] and the spread [{...v}]
    see. Primitives other than strings, built-ins, [undefined] and [null]
    have none. *)
Definition own_entries (h : heap) (v : value) : list (string * value) :=
  match v with
  | VRef l =>
      match h !! l with
      | Some (Obj props) => props
      | Some (Arr elems) => imap (fun i e => (index_key i, e)) elems
      | None => []
      end
  | VStr s => imap (fun i c => (index_key i, c)) (chars s)
  | _ => []
  end.

(** [{...target, ...v}]: every own enumerable property of [v] is set on the
    target, in order. *)
Definition assign (target src : list (string * value)) : list (string * value) :=
  fold_left (fun acc kv => obj_set kv.1 kv.2 acc) src target.

Definition spread (h : heap) (target : list (string * value)) (v : value) :=
  assign target (own_entries h v).

(** *** Conversions and operators *)

Definition truthy (v : value) : bool :=
  match v with
  | VUndefined | VNull => false
  | VBool b => b
  | VNum NaN => false
  | VNum (Int z) => negb (z =? 0)
  | VNum (Big _) => true
  | VStr s => negb (bool_decide (s = EmptyString))
  | VRef _ | VBuiltin _ => true
  end.

Definition nullish (v : value) : bool :=
  match v with VUndefined | VNull => true | _ => false end.

(** [a === b] *)
Definition strict_eq (a b : value) : bool :=
  match a, b with
  | VNum NaN, _ | _, VNum NaN => false
  | _, _ => bool_decide (a = b)
  end.

Definition to_number (v : value) : number :=
  match v with
  | VNum n => n
  | VNull => Int 0
  | VBool b => Int (if b then 1 else 0)
  | _ => NaN
  end.

Definition number_of_Z (z : Z) : number :=
  if Z.abs z <=? 2 ^ 53 then Int z else Big z.

Definition join_strings (sep : string) (parts : list string) : string :=
  match parts with
  | [] => EmptyString
  | p :: rest => fold_left (fun acc q => acc +:+ sep +:+ q) rest p
  end.

(** [String(v)] as used by template literals, [+] and property keys. An
    array prints its elements joined by commas, a plain object prints
    [[object Object]] (no script here redefines [toString]). *)
Fixpoint to_string (fuel : nat) (h : heap) (v : value) : string :=
  match v with
  | VUndefined => "undefined"
  | VNull => "null"
  | VBool b => if b then "true" else "false"
  | VNum NaN => "NaN"
  | VNum (Int z) | VNum (Big z) => pretty z
  | VStr s => s
  | VBuiltin path => "function " +:+ path +:+ "() { [native code] }"
  | VRef l =>
      match h !! l with
      | Some (Arr elems) =>
          match fuel with
          | O => EmptyString
          | S n =>
              join_strings ","
                ((fun e => if nullish e then EmptyString else to_string n h e)
                   <$> elems)
          end
      | _ => "[object Object]"
      end
  end.

Definition String_of (h : heap) (v : value) : string :=
  to_string (List.length h) h v.

(** [a + b] *)
Definition js_add (h : heap) (a b : value) : value :=
  let stringy v :=
    match v with VStr _ | VRef _ | VBuiltin _ => true | _ => false end in
  if stringy a || stringy b then VStr (String_of h a +:+ String_of h b)
  else match to_number a, to_number b with
       | Int x, Int y => VNum (number_of_Z (x + y))
       | NaN, _ | _, NaN => VNum NaN
       | Big x, Int y | Int x, Big y | Big x, Big y => VNum (Big (x + y))
       end.

(** *** String methods *)

Fixpoint skip (n : nat) (s : string) : string :=
  match n, s with
  | S m, String _ rest => skip m rest
  | _, _ => s
  end.

(** The first occurrence of [pat] in [s]: the text before it and the text
    after it. *)
Fixpoint find_first (pat s : string) : option (string * string) :=
  if String.prefix pat s then Some (EmptyString, skip (String.length pat) s)
  else match s with
       | EmptyString => None
       | String c rest =>
           match find_first pat rest with
           | Some (before, after) => Some (String c before, after)
           | None => None
           end
       end.

Definition includes (s needle : string) : bool :=
  match find_first needle s with Some _ => true | None => false end.

(** The replacement text of [String.prototype.replace] for a string
    pattern: [$$], [$&], [$`] and [$'] are expanded; there are no capture
    groups, so [$1] and the like stay as they are. *)
Fixpoint substitution (matched before after repl : string) : string :=
  match repl with
  | EmptyString => EmptyString
  | String a rest =>
      if bool_decide (a = "$"%char) then
        match rest with
        | EmptyString => String a EmptyString
        | String c rest' =>
            if bool_decide (c = "$"%char) then
              String "$" (substitution matched before after rest')
            else if bool_decide (c = "&"%char) then
              matched +:+ substitution matched before after rest'
            else if bool_decide (c = "`"%char) then
              before +:+ substitution matched before after rest'
            else if bool_decide (c = "'"%char) then
              after +:+ substitution matched before after rest'
            else String a (String c (substitution matched before after rest'))
        end
      else String a (substitution matched before after rest)
  end.

(** [s.replace(pat, repl)] with a string pattern: the first occurrence only. *)
Definition replace (s pat repl : string) : string :=
  match find_first pat s with
  | None => s
  | Some (before, after) =>
      before +:+ substitution pat before after repl +:+ after
  end.

(** [s.split(sep)] for a separator that is not empty. *)
Fixpoint split_fuel (fuel : nat) (sep s : string) : list string :=
  match fuel with
  | O => [s]
  | S n =>
      match find_first sep s with
      | None => [s]
      | Some (before, after) => before :: split_fuel n sep after
      end
  end.

Definition split (s sep : string) : list string :=
  split_fuel (String.length s) sep s.

Definition upper (a : ascii) : ascii :=
  let n := N_of_ascii a in
  if ((97 <=? n) && (n <=? 122))%N then ascii_of_N (n - 32) else a.

(** [s.toUpperCase()] on the ASCII letters (the scripts call it on HTTP
    verbs only). *)
Fixpoint toUpperCase (s : string) : string :=
  match s with
  | EmptyString => EmptyString
  | String a rest => String (upper a) (toUpperCase rest)
  end.

(** *** [parseInt] *)

Definition ascii_space (a : ascii) : bool :=
  let n := N_of_ascii a in
  (((9 <=? n) && (n <=? 13)) || (n =? 32))%N.

(** White space outside ASCII, in its UTF-8 encoding: U+00A0, U+1680,
    U+2000..U+200A, U+2028, U+2029, U+202F, U+205F, U+3000, U+FEFF. *)
Definition space2 (a b : ascii) : bool :=
  ((N_of_ascii a =? 194) && (N_of_ascii b =? 160))%N.

Definition space3 (a b c : ascii) : bool :=
  let x := N_of_ascii a in
  let y := N_of_ascii b in
  let z := N_of_ascii c in
  (((x =? 225) && (y =? 154) && (z =? 128))
   || ((x =? 226) && (y =? 128)
       && (((128 <=? z) && (z <=? 138)) || (z =? 168) || (z =? 169) || (z =? 175)))
   || ((x =? 226) && (y =? 129) && (z =? 159))
   || ((x =? 227) && (y =? 128) && (z =? 128))
   || ((x =? 239) && (y =? 187) && (z =? 191)))%N.

Fixpoint trim_start (s : string) : string :=
  match s with
  | EmptyString => EmptyString
  | String a rest =>
      if ascii_space a then trim_start rest
      else match rest with
           | EmptyString => s
           | String b rest2 =>
               if space2 a b then trim_start rest2
               else match rest2 with
                    | EmptyString => s
                    | String c rest3 =>
                        if space3 a b c then trim_start rest3 else s
                    end
           end
  end.

Definition digit_in (radix : Z) (a : ascii) : option Z :=
  let n := Z.of_N (N_of_ascii a) in
  let d := if (48 <=? n) && (n <=? 57) then n - 48
           else if (97 <=? n) && (n <=? 122) then n - 87
           else if (65 <=? n) && (n <=? 90) then n - 55
           else radix in
  if d <? radix then Some d else None.

(** The value of the longest prefix of digits, if it is not empty. *)
Fixpoint leading_digits (radix : Z) (acc : option Z) (s : string) : option Z :=
  match s with
  | EmptyString => acc
  | String a rest =>
      match digit_in radix a with
      | Some d => leading_digits radix (Some (radix * default 0 acc + d)) rest
      | None => acc
      end
  end.

Definition strip_sign (s : string) : Z * string :=
  match s with
  | String a rest =>
      if bool_decide (a = "-"%char) then (-1, rest)
      else if bool_decide (a = "+"%char) then (1, rest)
      else (1, s)
  | EmptyString => (1, s)
  end.

Definition strip_radix (s : string) : Z * string :=
  match s with
  | String a (String b rest) =>
      if bool_decide (a = "0"%char)
         && (bool_decide (b = "x"%char) || bool_decide (b = "X"%char))
      then (16, rest) else (10, s)
  | _ => (10, s)
  end.

(** [parseInt(s)] with no radix argument. *)
Definition parseInt (s : string) : number :=
  let (sign, s1) := strip_sign (trim_start s) in
  let (radix, s2) := strip_radix s1 in
  match leading_digits radix None s2 with
  | Some n => number_of_Z (sign * n)
  | None => NaN
  end.

(** *** Object literals and deep structure

    A [tree] is a value written out in full: the literals of the
    configuration files are trees, and [deep] reads the tree below a value
    back from the store. Two values are deep-equal when their trees are. *)
Inductive tree :=
| TUndefined
| TNull
| TBool (b : bool)
| TNum (n : number)
| TStr (s : string)
| TBuiltin (path : string)
| TArr (items : list tree)
| TObj (fields : list (string * tree))
| TCut.

Fixpoint literal (t : tree) : M value :=
  match t with
  | TUndefined | TCut => ret VUndefined
  | TNull => ret VNull
  | TBool b => ret (VBool b)
  | TNum n => ret (VNum n)
  | TStr s => ret (VStr s)
  | TBuiltin path => ret (VBuiltin path)
  | TArr items =>
      let* elems :=
        (fix go (ts : list tree) : M (list value) :=
           match ts with
           | [] => ret []
           | t :: ts' =>
               let* v := literal t in
               let* vs := go ts' in
               ret (v :: vs)
           end) items in
      alloc (Arr elems)
  | TObj fields =>
      let* props :=
        (fix go (fs : list (string * tree)) (acc : list (string * value)) :=
           match fs with
           | [] => ret acc
           | (k, t) :: fs' =>
               let* v := literal t in
               go fs' (obj_set k v acc)
           end) fields [] in
      alloc (Obj props)
  end.

Fixpoint deep (fuel : nat) (h : heap) (v : value) : tree :=
  match v with
  | VUndefined => TUndefined
  | VNull => TNull
  | VBool b => TBool b
  | VNum n => TNum n
  | VStr s => TStr s
  | VBuiltin path => TBuiltin path
  | VRef l =>
      match fuel with
      | O => TCut
      | S n =>
          match h !! l with
          | Some (Obj props) => TObj ((fun kv => (kv.1, deep n h kv.2)) <$> props)
          | Some (Arr elems) => TArr (deep n h <$> elems)
          | None => TUndefined
          end
      end
  end.

(** *** Library functions used by the scripts *)

(** [Object.keys(v)]: a new array of the own enumerable keys. *)
Definition Object_keys (v : value) : M value :=
  if nullish v
  then throw (TypeError "Cannot convert undefined or null to object")
  else let* ks := read (fun h => keys (own_entries h v)) in
       alloc (Arr (VStr <$> ks)).

(** [v.join(sep)] on an array. *)
Definition Array_join (v : value) (sep : string) : M string :=
  match v with
  | VRef l =>
      let* o := read (fun h => h !! l) in
      match o with
      | Some (Arr elems) =>
          read (fun h =>
                  join_strings sep
                    ((fun e => if nullish e then EmptyString else String_of h e)
                       <$> elems))
      | _ => throw (TypeError "join is not a function")
      end
  | _ => throw (TypeError "join is not a function")
  end.

Definition get (v : value) (k : string) : M value :=
  fun st => (get_prop (st_heap st) v k, st).

(** [v?.[k]] *)
Definition get_optional (v : value) (k : string) : M value :=
  if nullish v then ret VUndefined else get v k.

(** The process environment [__ENV]: a variable that is not set reads as
    [undefined]. *)
Definition environment := string -> option string.

Definition env_get (env : environment) (name : string) : value :=
  match env name with
  | Some s => VStr s
  | None => VUndefined
  end.

Definition empty_state : state := {| st_heap := []; st_trace := [] |}.

(** [target[k] = v]. The scripts assign to properties of plain objects
    only; module code is strict, so an assignment to anything else throws. *)
Definition set_prop (target : value) (k : string) (v : value) : M unit :=
  fun st =>
    match target with
    | VRef l =>
        match st_heap st !! l with
        | Some (Obj props) =>
            (Ret tt, {| st_heap := <[l := Obj (obj_set k v props)]> (st_heap st);
                        st_trace := st_trace st |})
        | _ => (Throw (TypeError ("Cannot assign to property '" +:+ k +:+ "'")), st)
        end
    | _ => (Throw (TypeError ("Cannot assign to property '" +:+ k +:+ "'")), st)
    end.

(** [items.forEach((x, i) => body)] over the elements handed over. *)
Fixpoint for_each_from {A} (i : nat) (items : list A) (body : A -> nat -> M unit)
  : M unit :=
  match items with
  | [] => ret tt
  | x :: rest => let* _ := body x i in for_each_from (S i) rest body
  end.

Definition for_each {A} (items : list A) (body : A -> nat -> M unit) : M unit :=
  for_each_from 0 items body.

(** [x || d] *)
Definition or_else (x d : value) : value := if truthy x then x else d.

(** [a < b] on numbers; a comparison with [NaN] is false. *)
Definition number_lt (a b : number) : bool :=
  match a, b with
  | NaN, _ | _, NaN => false
  | Int x, Int y | Int x, Big y | Big x, Int y | Big x, Big y => x <? y
  end.

(** [a - b] *)
Definition js_sub (a b : value) : number :=
  match to_number a, to_number b with
  | NaN, _ | _, NaN => NaN
  | Int x, Int y => number_of_Z (x - y)
  | Int x, Big y | Big x, Int y | Big x, Big y => Big (x - y)
  end.

(** [arr.forEach((x, i) => body)] *)
Definition Array_forEach (arr : value) (body : value -> nat -> M unit) : M unit :=
  match arr with
  | VRef l =>
      let* o := read (fun h => h !! l) in
      match o with
      | Some (Arr elems) => for_each elems body
      | _ => throw (TypeError "forEach is not a function")
      end
  | VUndefined | VNull =>
      throw (TypeError "Cannot read property 'forEach' of undefined")
  | _ => throw (TypeError "forEach is not a function")
  end.

Definition message (e : exn) : string :=
  match e with Error m | TypeError m => m end.

End JS.

Import JS.

Definition num (z : Z) : tree := TNum (Int z).
Definition strs (l : list string) : tree := TArr (TStr <$> l).

(** ** config/endpoints.js *)

Module Endpoints.

(** The object literal bound to [endpoints]. *)
Definition endpoints_source : tree :=
  TObj [
    ("users-me", TObj [
       ("name", TStr "Get Current User");
       ("method", TStr "GET");
       ("path", TStr "/platform-services/v2/users/me");
       ("baseUrl", TStr "https://dev-api.acexr.com");
       ("requiresAuth", TBool true);
       ("testConfig", TObj [
          ("loadTest", TObj [
             ("vus", num 100);
             ("duration", TStr "1m");
             ("thresholds", TObj [
                ("http_req_duration", strs ["p(95)<100"]);
                ("http_req_failed", strs ["rate<0.01"])])]);
          ("smokeTest", TObj [
             ("vus", num 1);
             ("duration", TStr "10s")])]);
       ("validation", TObj [
          ("expectedStatus", num 200);
          ("responseTime", num 500);
          ("requiredHeaders", strs ["Content-Type"])])]);
    ("client-configs", TObj [
       ("name", TStr "Get Client Configurations");
       ("method", TStr "GET");
       ("path", TStr "/platform-services/v2/client-configs");
       ("baseUrl", TStr "https://dev-api.acexr.com");
       ("requiresAuth", TBool false);
       ("testConfig", TObj [
          ("loadTest", TObj [
             ("vus", num 50);
             ("duration", TStr "2m");
             ("thresholds", TObj [
                ("http_req_duration", strs ["p(95)<200"]);
                ("http_req_failed", strs ["rate<0.01"])])]);
          ("smokeTest", TObj [
             ("vus", num 1);
             ("duration", TStr "10s")])]);
       ("validation", TObj [
          ("expectedStatus", num 200);
          ("responseTime", num 1000);
          ("requiredHeaders", strs ["Content-Type"])])]);
    ("health-check", TObj [
       ("name", TStr "Health Check");
       ("method", TStr "GET");
       ("path", TStr "/platform-services/v2/health");
       ("baseUrl", TStr "https://dev-api.acexr.com");
       ("requiresAuth", TBool false);
       ("testConfig", TObj [
          ("loadTest", TObj [
             ("vus", num 200);
             ("duration", TStr "5m");
             ("thresholds", TObj [
                ("http_req_duration", strs ["p(95)<50"]);
                ("http_req_failed", strs ["rate<0.001"])])]);
          ("smokeTest", TObj [
             ("vus", num 1);
             ("duration", TStr "10s")])]);
       ("validation", TObj [
          ("expectedStatus", num 200);
          ("responseTime", num 100);
          ("requiredHeaders", strs ["Content-Type"])])]);
    ("create-user", TObj [
       ("name", TStr "Create User");
       ("method", TStr "POST");
       ("path", TStr "/platform-services/v2/users");
       ("baseUrl", TStr "https://dev-api.acexr.com");
       ("requiresAuth", TBool true);
       ("testConfig", TObj [
          ("loadTest", TObj [
             ("vus", num 30);
             ("duration", TStr "1m");
             ("thresholds", TObj [
                ("http_req_duration", strs ["p(95)<300"]);
                ("http_req_failed", strs ["rate<0.05"])])]);
          ("smokeTest", TObj [
             ("vus", num 1);
             ("duration", TStr "10s")])]);
       ("validation", TObj [
          ("expectedStatus", num 201);
          ("responseTime", num 1000);
          ("requiredHeaders", strs ["Content-Type"; "Location"])])]);
    ("update-user", TObj [
       ("name", TStr "Update User");
       ("method", TStr "PATCH");
       ("path", TStr "/platform-services/v2/users/{id}");
       ("baseUrl", TStr "https://dev-api.acexr.com");
       ("requiresAuth", TBool true);
       ("testConfig", TObj [
          ("loadTest", TObj [
             ("vus", num 20);
             ("duration", TStr "1m");
             ("thresholds", TObj [
                ("http_req_duration", strs ["p(95)<250"]);
                ("http_req_failed", strs ["rate<0.03"])])]);
          ("smokeTest", TObj [
             ("vus", num 1);
             ("duration", TStr "10s")])]);
       ("validation", TObj [
          ("expectedStatus", num 200);
          ("responseTime", num 800);
          ("requiredHeaders", strs ["Content-Type"])])]);
    ("auth/signin", TObj [
       ("name", TStr "Sign In");
       ("method", TStr "POST");
       ("path", TStr "/platform-services/v2/auth/signin");
       ("baseUrl", TStr "https://dev-api.acexr.com");
       ("requiresAuth", TBool true);
       ("testConfig", TObj [
          ("loadTest", TObj [
             ("vus", num 20);
             ("duration", TStr "1m");
             ("thresholds", TObj [
                ("http_req_duration", strs ["p95<250"]);
                ("http_req_failed", strs ["rate<0.03"])])]);
          ("smokeTest", TObj [
             ("vus", num 1);
             ("duration", TStr "10s")])]);
       ("validation", TObj [
          ("expectedStatus", num 200);
          ("responseTime", num 800);
          ("requiredHeaders", strs ["Content-Type"])])])].

Section Functions.

(** The module's binding of [endpoints]. *)
Variable endpoints : value.

Definition getEndpoint (key : string) : M value :=
  get endpoints key.

Definition getAllEndpoints : M value :=
  Object_keys endpoints.

(** [Object.entries(v)] as the list the chained [filter] and [reduce]
    walk through. *)
Definition Object_entries (v : value) : M (list (string * value)) :=
  if nullish v
  then throw (TypeError "Cannot convert undefined or null to object")
  else read (fun h => own_entries h v).

Fixpoint filterM (p : string * value -> M bool) (l : list (string * value))
  : M (list (string * value)) :=
  match l with
  | [] => ret []
  | x :: rest =>
      let* keep := p x in
      let* rest' := filterM p rest in
      ret (if keep then x :: rest' else rest')
  end.

(** The [reduce] that rebuilds an object from entries, assigning into the
    accumulator. *)
Definition collect (entries : list (string * value)) : M value :=
  let* acc := alloc (Obj []) in
  let* _ := for_each entries (fun kv _ => set_prop acc kv.1 kv.2) in
  ret acc.

Definition getEndpointsByMethod (method : string) : M value :=
  let* entries := Object_entries endpoints in
  let* kept :=
    filterM (fun kv =>
               let* m := get kv.2 "method" in
               ret (strict_eq m (VStr (toUpperCase method)))) entries in
  collect kept.

Definition getAuthenticatedEndpoints : M value :=
  let* entries := Object_entries endpoints in
  let* kept :=
    filterM (fun kv =>
               let* a := get kv.2 "requiresAuth" in
               ret (truthy a)) entries in
  collect kept.

(** [url.replace(pat, v)]: [url] has to be a string to have the method;
    the replacement is converted to a string. *)
Definition String_replace (url : value) (pat : string) (v : value) : M value :=
  match url with
  | VStr s => let* r := read (fun h => String_of h v) in ret (VStr (replace s pat r))
  | VUndefined | VNull =>
      throw (TypeError "Cannot read property 'replace' of undefined")
  | _ => throw (TypeError "url.replace is not a function")
  end.

Fixpoint replace_all_params (url : value) (params : list (string * value))
  : M value :=
  match params with
  | [] => ret url
  | (key, v) :: rest =>
      let* url' := String_replace url ("{" +:+ key +:+ "}") v in
      replace_all_params url' rest
  end.

(** [buildUrl(endpointKey, params = {})]: [params] is the object passed, or
    [undefined] when the argument is left out. *)
Definition buildUrl (endpointKey : string) (params : value) : M value :=
  let* endpoint := get endpoints endpointKey in
  if negb (truthy endpoint) then
    throw (Error ("Endpoint '" +:+ endpointKey +:+ "' not found"))
  else
    let* params := match params with
                   | VUndefined => alloc (Obj [])
                   | _ => ret params
                   end in
    let* baseUrl := get endpoint "baseUrl" in
    let* path := get endpoint "path" in
    let* url := read (fun h => js_add h baseUrl path) in
    let* entries := Object_entries params in
    replace_all_params url entries.

End Functions.

End Endpoints.

(** ** config/test-suites.js *)

Module TestSuites.

(** The object literal bound to [testSuites]. *)
Definition testSuites_source : tree :=
  TObj [
    ("smoke", TObj [
       ("name", TStr "Smoke Test");
       ("description", TStr "Quick validation with minimal load");
       ("config", TObj [
          ("vus", num 1);
          ("duration", TStr "10s");
          ("thresholds", TObj [
             ("http_req_failed", strs ["rate<0.01"])])])]);
    ("load", TObj [
       ("name", TStr "Load Test");
       ("description", TStr "Test under normal expected load");
       ("config", TObj [
          ("vus", num 50);
          ("duration", TStr "2m");
          ("thresholds", TObj [
             ("http_req_duration", strs ["p(95)<500"]);
             ("http_req_failed", strs ["rate<0.01"])])])]);
    ("stress", TObj [
       ("name", TStr "Stress Test");
       ("description", TStr "Find the breaking point of the system");
       ("config", TObj [
          ("stages", TArr [
             TObj [("duration", TStr "2m"); ("target", num 50)];
             TObj [("duration", TStr "5m"); ("target", num 50)];
             TObj [("duration", TStr "2m"); ("target", num 100)];
             TObj [("duration", TStr "5m"); ("target", num 100)];
             TObj [("duration", TStr "2m"); ("target", num 200)];
             TObj [("duration", TStr "5m"); ("target", num 200)];
             TObj [("duration", TStr "2m"); ("target", num 0)]]);
          ("thresholds", TObj [
             ("http_req_duration", strs ["p(95)<1000"]);
             ("http_req_failed", strs ["rate<0.05"])])])]);
    ("spike", TObj [
       ("name", TStr "Spike Test");
       ("description", TStr "Test system behavior under sudden load spikes");
       ("config", TObj [
          ("stages", TArr [
             TObj [("duration", TStr "1m"); ("target", num 10)];
             TObj [("duration", TStr "1m"); ("target", num 100)];
             TObj [("duration", TStr "1m"); ("target", num 10)];
             TObj [("duration", TStr "1m"); ("target", num 200)];
             TObj [("duration", TStr "1m"); ("target", num 10)]]);
          ("thresholds", TObj [
             ("http_req_duration", strs ["p(95)<2000"]);
             ("http_req_failed", strs ["rate<0.10"])])])]);
    ("endurance", TObj [
       ("name", TStr "Endurance Test");
       ("description", TStr "Test system stability over long periods");
       ("config", TObj [
          ("vus", num 25);
          ("duration", TStr "30m");
          ("thresholds", TObj [
             ("http_req_duration", strs ["p(95)<500"]);
             ("http_req_failed", strs ["rate<0.01"])])])]);
    ("soak", TObj [
       ("name", TStr "Soak Test");
       ("description", TStr "Extended testing under sustained load");
       ("config", TObj [
          ("vus", num 10);
          ("duration", TStr "2h");
          ("thresholds", TObj [
             ("http_req_duration", strs ["p(95)<300"]);
             ("http_req_failed", strs ["rate<0.005"])])])])].

Section Functions.

(** The module's binding of [testSuites]. *)
Variable testSuites : value.

Definition getTestSuite (name : string) : M value :=
  get testSuites name.

Definition getAllTestSuiteNames : M value :=
  Object_keys testSuites.

Definition UnknownSuite (testSuiteName : string) : exn :=
  Error ("Test suite '" +:+ testSuiteName +:+ "' not found").

(** [mergeConfigs(endpoint, testSuiteName)]. The object literal it returns
    is built from its spreads and its [thresholds] property, then
    allocated. *)
Definition mergeConfigs (endpoint : value) (testSuiteName : string) : M value :=
  let* testSuite := get testSuites testSuiteName in
  if negb (truthy testSuite) then throw (UnknownSuite testSuiteName)
  else
    let* testConfig := get endpoint "testConfig" in
    let* override := get_optional testConfig testSuiteName in
    let* endpointConfig :=
      if truthy override then ret override else alloc (Obj []) in
    let* config := get testSuite "config" in
    let* merged := read (fun h => spread h (spread h [] config) endpointConfig) in
    let* config' := get testSuite "config" in
    let* suiteThresholds := get config' "thresholds" in
    let* endpointThresholds := get endpointConfig "thresholds" in
    let* thresholds :=
      read (fun h => spread h (spread h [] suiteThresholds) endpointThresholds) in
    let* thresholdsObject := alloc (Obj thresholds) in
    alloc (Obj (obj_set "thresholds" thresholdsObject merged)).

End Functions.

End TestSuites.

(** ** Loading the configuration modules

    Both scripts import [config/endpoints.js] first and
    [config/test-suites.js] second; [boot] is the store once the two
    literals are evaluated. *)

Module Program.

Definition load : M (value * value) :=
  let* e := literal Endpoints.endpoints_source in
  let* t := literal TestSuites.testSuites_source in
  ret (e, t).

Definition boot : state := Eval vm_compute in (load empty_state).2.

Definition endpoints : value :=
  Eval vm_compute in
    match (load empty_state).1 with Ret (e, _) => e | Throw _ => VUndefined end.

Definition testSuites : value :=
  Eval vm_compute in
    match (load empty_state).1 with Ret (_, t) => t | Throw _ => VUndefined end.

End Program.

(** ** scripts/test-data.js *)

Module TestData.

(** [path.includes(needle)] *)
Definition path_includes (path : value) (needle : string) : M bool :=
  match path with
  | VStr s => ret (includes s needle)
  | VRef l =>
      let* o := read (fun h => h !! l) in
      match o with
      | Some (Arr elems) => ret (existsb (strict_eq (VStr needle)) elems)
      | _ => throw (TypeError "path.includes is not a function")
      end
  | VUndefined | VNull =>
      throw (TypeError "Cannot read property 'includes' of undefined")
  | _ => throw (TypeError "path.includes is not a function")
  end.

Definition generatePostData (path : value) : M payload :=
  let* users := path_includes path "users" in
  if users then ret UserRecord
  else
    let* orders := path_includes path "orders" in
    if orders then ret OrderRecord else ret GenericRecord.

Definition generatePatchData (path : value) : M payload :=
  let* users := path_includes path "users" in
  if users then ret UserPatch
  else
    let* orders := path_includes path "orders" in
    if orders then ret OrderPatch else ret GenericPatch.

Definition generatePutData (path : value) : M payload :=
  generatePostData path.

Definition generateTestData (endpoint : value) : M payload :=
  let* method := get endpoint "method" in
  if strict_eq method (VStr "POST") then
    let* path := get endpoint "path" in generatePostData path
  else if strict_eq method (VStr "PATCH") then
    let* path := get endpoint "path" in generatePatchData path
  else if strict_eq method (VStr "PUT") then
    let* path := get endpoint "path" in generatePutData path
  else ret EmptyRecord.

End TestData.

(** ** scripts/batch-test-runner.js *)

Module BatchRunner.

Section Script.

(** The module bindings of the imports, the process environment, and the
    load engine: [respond] gives the response to the request that ends the
    trace, or nothing when the call throws. *)
Variable endpoints : value.
Variable testSuites : value.
Variable env : environment.
Variable respond : list event -> option response.

Definition smoke_batch : M value :=
  let* keys := Endpoints.getAllEndpoints endpoints in
  alloc (Obj [("name", VStr "Smoke Test All Endpoints");
              ("description", VStr "Quick validation of all endpoints");
              ("endpoints", keys);
              ("testSuite", VStr "smoke");
              ("parallel", VBool false);
              ("delayBetweenEndpoints", VNum (Int 5))]).

Definition getEndpointsLoad_batch : M value :=
  let* selected := Endpoints.getEndpointsByMethod endpoints "GET" in
  let* keys := Object_keys selected in
  alloc (Obj [("name", VStr "Load Test All GET Endpoints");
              ("description", VStr "Load test all GET endpoints");
              ("endpoints", keys);
              ("testSuite", VStr "load");
              ("parallel", VBool true);
              ("maxConcurrent", VNum (Int 3))]).

Definition postEndpointsStress_batch : M value :=
  let* selected := Endpoints.getEndpointsByMethod endpoints "POST" in
  let* keys := Object_keys selected in
  alloc (Obj [("name", VStr "Stress Test All POST Endpoints");
              ("description", VStr "Stress test all POST endpoints");
              ("endpoints", keys);
              ("testSuite", VStr "stress");
              ("parallel", VBool false);
              ("delayBetweenEndpoints", VNum (Int 10))]).

(** [s.split(',')] on the value of an environment variable. *)
Definition String_split (v : value) (sep : string) : M value :=
  let* s := read (fun h => String_of h v) in
  alloc (Arr (VStr <$> split s sep)).

Definition parseInt_of (v : value) : M value :=
  let* s := read (fun h => String_of h v) in
  ret (VNum (parseInt s)).

Definition custom_batch : M value :=
  let* keys :=
    if truthy (env_get env "BATCH_ENDPOINTS")
    then String_split (env_get env "BATCH_ENDPOINTS") ","
    else alloc (Arr [VStr "users-me"; VStr "health-check"]) in
  let* maxConcurrent :=
    parseInt_of (or_else (env_get env "BATCH_MAX_CONCURRENT") (VStr "2")) in
  let* delay :=
    parseInt_of (or_else (env_get env "BATCH_DELAY") (VStr "5")) in
  alloc (Obj [("name", VStr "Custom Batch Test");
              ("description", VStr "Custom endpoint and test suite combination");
              ("endpoints", keys);
              ("testSuite", or_else (env_get env "BATCH_TEST_SUITE") (VStr "load"));
              ("parallel",
               VBool (strict_eq (env_get env "BATCH_PARALLEL") (VStr "true")));
              ("maxConcurrent", maxConcurrent);
              ("delayBetweenEndpoints", delay)]).

(** The object literal bound to [batchConfig]: its four entries are
    evaluated in order, whichever batch is selected afterwards. *)
Definition batchConfig : M value :=
  let* smoke := smoke_batch in
  let* getEndpointsLoad := getEndpointsLoad_batch in
  let* postEndpointsStress := postEndpointsStress_batch in
  let* custom := custom_batch in
  alloc (Obj [("smoke", smoke);
              ("getEndpointsLoad", getEndpointsLoad);
              ("postEndpointsStress", postEndpointsStress);
              ("custom", custom)]).

Definition batchKey : value := or_else (env_get env "BATCH_CONFIG") (VStr "smoke").

Definition UnknownBatch (key available : string) : exn :=
  Error ("Batch configuration '" +:+ key +:+ "' not found. Available: " +:+ available).

(** The binding of [batch]: the selected entry of [batchConfig], or the
    error thrown at load. *)
Definition batch : M value :=
  let* config := batchConfig in
  let* key := read (fun h => String_of h batchKey) in
  let* selected := get config key in
  if negb (truthy selected) then
    let* names := Object_keys config in
    let* available := Array_join names ", " in
    throw (UnknownBatch key available)
  else ret selected.

Definition metadata (batch : value) : M value :=
  let* name := get batch "name" in
  let* description := get batch "description" in
  let* keys := get batch "endpoints" in
  let* testSuite := get batch "testSuite" in
  let* parallel := get batch "parallel" in
  let* maxConcurrent := get batch "maxConcurrent" in
  let* delay := get batch "delayBetweenEndpoints" in
  alloc (Obj [("batchName", name);
              ("batchDescription", description);
              ("endpoints", keys);
              ("testSuite", testSuite);
              ("parallel", parallel);
              ("maxConcurrent", or_else maxConcurrent (VNum (Int 1)));
              ("delayBetweenEndpoints", or_else delay (VNum (Int 0)))]).

Definition suite_of (batch : value) : M value :=
  let* testSuite := get batch "testSuite" in
  let* key := read (fun h => String_of h testSuite) in
  get testSuites key.

Definition options (batch : value) : M value :=
  let* suite := suite_of batch in
  let* config := get suite "config" in
  let* merged := read (fun h => spread h [] config) in
  let* suite' := suite_of batch in
  let* config' := get suite' "config" in
  let* suiteThresholds := get config' "thresholds" in
  let* copied := read (fun h => spread h [] suiteThresholds) in
  let* duration := alloc (Arr [VStr "p95<1000"]) in
  let* failed := alloc (Arr [VStr "rate<0.05"]) in
  let* thresholds :=
    alloc (Obj (obj_set "http_req_failed" failed
                  (obj_set "http_req_duration" duration copied))) in
  alloc (Obj (obj_set "thresholds" thresholds merged)).

Record exports := {
  the_batch : value;
  the_metadata : value;
  the_options : value
}.

(** The top level of the module, run once at load. *)
Definition module : M exports :=
  let* b := batch in
  let* m := metadata b in
  let* o := options b in
  ret {| the_batch := b; the_metadata := m; the_options := o |}.

Definition setup (batch : value) : M value :=
  let* name := get batch "name" in
  let* _ := emit (ConsoleLog [Text "Starting batch test: "; Val name]) in
  let* description := get batch "description" in
  let* _ := emit (ConsoleLog [Text "Description: "; Val description]) in
  let* keys := get batch "endpoints" in
  let* joined := Array_join keys ", " in
  let* _ := emit (ConsoleLog [Text "Endpoints: "; Text joined]) in
  let* testSuite := get batch "testSuite" in
  let* _ := emit (ConsoleLog [Text "Test Suite: "; Val testSuite]) in
  let* parallel := get batch "parallel" in
  let* _ := emit (ConsoleLog [Text "Parallel: "; Val parallel]) in
  let* maxConcurrent := get batch "maxConcurrent" in
  let* _ := emit (ConsoleLog [Text "Max Concurrent: ";
                              Val (or_else maxConcurrent (VStr "N/A"))]) in
  let* delay := get batch "delayBetweenEndpoints" in
  let* _ := emit (ConsoleLog [Text "Delay Between Endpoints: "; Val delay; Text "s"]) in
  let* _ := emit (ConsoleLog [Text ""]) in
  let* keys' := get batch "endpoints" in
  let* testSuite' := get batch "testSuite" in
  alloc (Obj [("batch", batch); ("endpoints", keys'); ("testSuite", testSuite')]).

(** The answer of the engine to the request just sent, or its failure. *)
Definition receive : M response :=
  fun st =>
    match respond (st_trace st) with
    | Some r => (Ret r, st)
    | None => (Throw (Error "request failed"), st)
    end.

(** A call of [http.get], [http.post], ...: the request is handed to the
    engine with the headers of [requestOptions] as they are at the call. *)
Definition http_call (verb : string) (url : value) (body : option payload)
    (requestOptions : value) : M response :=
  let* headers := get requestOptions "headers" in
  let* sent := read (fun h => own_entries h headers) in
  let* _ := emit (HttpRequest verb url body sent) in
  receive.

Definition has_header (r : response) (name : string) : bool :=
  match List.find (fun kv => bool_decide (kv.1 = name)) (resp_headers r) with
  | Some _ => true
  | None => negb (bool_decide (inherited [Object_prototype] name = VUndefined))
  end.

(** [requiredHeaders.every(header => r.headers[header] !== undefined)] *)
Definition every_header (requiredHeaders : value) (r : response) : M bool :=
  match requiredHeaders with
  | VRef l =>
      let* o := read (fun h => h !! l) in
      match o with
      | Some (Arr elems) =>
          read (fun h => forallb (fun e => has_header r (String_of h e)) elems)
      | _ => throw (TypeError "requiredHeaders.every is not a function")
      end
  | VUndefined | VNull =>
      throw (TypeError "Cannot read property 'every' of undefined")
  | _ => throw (TypeError "requiredHeaders.every is not a function")
  end.

(** The [checks] object and the call of [check]: the computed keys are
    evaluated first, then each check is run on the response. *)
Definition run_checks (endpointKey endpoint : value) (r : response) : M unit :=
  let* validation := get endpoint "validation" in
  let* expected := get validation "expectedStatus" in
  let* validation := get endpoint "validation" in
  let* limit := get validation "responseTime" in
  let* validation := get endpoint "validation" in
  let* expected' := get validation "expectedStatus" in
  let* _ := emit (CheckResult [Val endpointKey; Text " - status is "; Val expected]
                    (strict_eq (VNum (Int (status r))) expected')) in
  let* validation := get endpoint "validation" in
  let* limit' := get validation "responseTime" in
  let* _ := emit (CheckResult [Val endpointKey; Text " - response time < ";
                               Val limit; Text "ms"]
                    (match to_number limit' with
                     | Int z | Big z => negb (Qle_bool (inject_Z z) (duration r))
                     | NaN => false
                     end)) in
  let* validation := get endpoint "validation" in
  let* requiredHeaders := get validation "requiredHeaders" in
  let* all := every_header requiredHeaders r in
  emit (CheckResult [Val endpointKey; Text " - has required headers"] all).

(** The body of the [try] block: [Some r] after a request, [None] when the
    [default] case of the [switch] returns from the callback. *)
Definition dispatch (endpoint url requestOptions : value) : M (option response) :=
  let* method := get endpoint "method" in
  if strict_eq method (VStr "GET") then
    let* r := http_call "GET" url None requestOptions in ret (Some r)
  else if strict_eq method (VStr "POST") then
    let* postData := TestData.generateTestData endpoint in
    let* r := http_call "POST" url (Some postData) requestOptions in ret (Some r)
  else if strict_eq method (VStr "PUT") then
    let* putData := TestData.generateTestData endpoint in
    let* r := http_call "PUT" url (Some putData) requestOptions in ret (Some r)
  else if strict_eq method (VStr "PATCH") then
    let* patchData := TestData.generateTestData endpoint in
    let* r := http_call "PATCH" url (Some patchData) requestOptions in ret (Some r)
  else if strict_eq method (VStr "DELETE") then
    let* r := http_call "DELETE" url None requestOptions in ret (Some r)
  else
    let* _ := emit (ConsoleWarn [Text "Unsupported HTTP method: "; Val method]) in
    ret None.

(** The callback of [forEach] from the point where [endpoint] is known to
    be truthy: log, request options, authentication, the [try] block and
    the delay. *)
Definition test_endpoint (batch endpoints endpointKey : value) (index : nat)
    (endpoint : value) : M unit :=
  let* total := get endpoints "length" in
  let* name := get endpoint "name" in
  let* _ := emit (ConsoleLog [Text "Testing endpoint ";
                              Val (VNum (Int (Z.of_nat index + 1)));
                              Text "/"; Val total; Text ": "; Val name]) in
  let* baseUrl := get endpoint "baseUrl" in
  let* path := get endpoint "path" in
  let* url := read (fun h => js_add h baseUrl path) in
  let* headers := alloc (Obj [("Content-Type", VStr "application/json");
                              ("User-Agent", VStr "k6-batch-test")]) in
  let* requestOptions := alloc (Obj [("headers", headers)]) in
  let* requiresAuth := get endpoint "requiresAuth" in
  let* _ :=
    if truthy requiresAuth then
      let authToken := env_get env "AUTH_TOKEN" in
      if truthy authToken then
        let* hs := get requestOptions "headers" in
        let* bearer := read (fun h => "Bearer " +:+ String_of h authToken) in
        set_prop hs "Authorization" (VStr bearer)
      else
        emit (ConsoleWarn [Text "Authentication required for "; Val endpointKey;
                           Text " but AUTH_TOKEN not provided"])
    else ret tt in
  let* completed :=
    try_catch
      (let* sent := dispatch endpoint url requestOptions in
       match sent with
       | None => ret false
       | Some r =>
           let* _ := run_checks endpointKey endpoint r in
           let* _ := emit (ConsoleLog [Val endpointKey; Text ": ";
                                       Val (VNum (Int (status r))); Text " (";
                                       Millis (duration r); Text "ms)"]) in
           ret true
       end)
      (fun error =>
         let* _ := emit (ConsoleError [Text "Error testing "; Val endpointKey;
                                       Text ": "; Text (message error)]) in
         ret true) in
  if completed then
    let* parallel := get batch "parallel" in
    let* len := get endpoints "length" in
    if negb (truthy parallel)
       && number_lt (Int (Z.of_nat index)) (js_sub len (VNum (Int 1)))
    then
      let* delay := get batch "delayBetweenEndpoints" in
      emit (SleepFor delay)
    else ret tt
  else ret tt.

(** The callback of [forEach]: the lookup of the key, the guard, and the
    rest. [endpoints] is the array of keys taken from [data]: inside the
    main function it hides the imported registry. *)
Definition callback (batch endpoints endpointKey : value) (index : nat) : M unit :=
  let* key := read (fun h => String_of h endpointKey) in
  let* endpoint := get endpoints key in
  if negb (truthy endpoint) then
    emit (ConsoleWarn [Text "Endpoint '"; Val endpointKey;
                       Text "' not found, skipping..."])
  else test_endpoint batch endpoints endpointKey index endpoint.

(** The main test function. *)
Definition default (data : value) : M unit :=
  let* batch := get data "batch" in
  let* endpoints := get data "endpoints" in
  let* testSuite := get data "testSuite" in
  Array_forEach endpoints (callback batch endpoints).

(** A whole run: load, [setup], one iteration of the main function. *)
Definition run : M unit :=
  let* m := module in
  let* data := setup (the_batch m) in
  default data.

End Script.

End BatchRunner.

(** ** The shell wrappers: argument validation *)

Module Shell.

Inductive status := Returns (code : Z) | Exits (code : Z).

(** [validate_batch_config] of [scripts/run-batch-test.sh], as a function
    of its argument: what it prints and how it ends. *)
Definition validate_batch_config (batch_config : string) : list string * status :=
  if bool_decide (batch_config ∈ ["smoke"; "getEndpointsLoad";
                                  "postEndpointsStress"; "custom"])
  then ([], Returns 0)
  else (["[ERROR] Invalid batch configuration: " +:+ batch_config;
         "";
         "Available batch configurations:";
         "  smoke              - Smoke test all endpoints";
         "  getEndpointsLoad   - Load test all GET endpoints";
         "  postEndpointsStress - Stress test all POST endpoints";
         "  custom             - Custom configuration"],
        Exits 1).

(** [validate_test_suite] of [scripts/run-endpoint-test.sh]. *)
Definition validate_test_suite (test_suite : string) : list string * status :=
  if bool_decide (test_suite ∈ ["smoke"; "load"; "stress"; "spike";
                                "endurance"; "soak"])
  then ([], Returns 0)
  else (["[ERROR] Invalid test suite: " +:+ test_suite;
         "[INFO] Available test suites:";
         "  smoke      - Quick validation (1 user, 10s)";
         "  load       - Normal load (50 users, 2m)";
         "  stress     - Find breaking points (ramp up to 200 users)";
         "  spike      - Sudden load spikes";
         "  endurance  - Long duration (25 users, 30m)";
         "  soak       - Extended testing (10 users, 2h)";
         ""],
        Exits 1).

End Shell.


(** ** Vocabulary of the statements *)

(** The environment in which the variables listed are set. *)
Definition env_of (vars : list (string * string)) : environment :=
  fun name => snd <$> List.find (fun kv => bool_decide (kv.1 = name)) vars.

(** [plan(batchName, env)] of the specification runs the batch runner with
    [BATCH_CONFIG] set to the batch name on top of the overrides. *)
Definition plan_env (batchName : string) (env : environment) : environment :=
  fun name => if decide (name = "BATCH_CONFIG") then Some batchName else env name.

(** A state that extends the store of the loaded configuration: the
    registries are in place as the literals define them. *)
Definition loaded (h : heap) : Prop := st_heap Program.boot `prefix_of` h.

(** No object has the same key twice. *)
Definition objects_wf (h : heap) : Prop :=
  Forall (fun o => match o with
                   | Obj props => NoDup (keys props)
                   | Arr _ => True
                   end) h.

(** References point into the store. *)
Definition closed (h : heap) (v : value) : Prop :=
  match v with
  | VRef l => (l < List.length h)%nat
  | _ => True
  end.

Definition heap_closed (h : heap) : Prop :=
  Forall (fun o => match o with
                   | Obj props => Forall (fun kv => closed h kv.2) props
                   | Arr elems => Forall (closed h) elems
                   end) h.

(** [v?.[k]] read off a store. *)
Definition peek (h : heap) (v : value) (k : string) : value :=
  if nullish v then VUndefined
  else match get_prop h v k with Ret x => x | Throw _ => VUndefined end.

(** The thresholds a suite defines, and the thresholds an endpoint
    overrides for a suite. *)
Definition suite_thresholds (h : heap) (testSuites : value) (name : string) :=
  own_entries h (peek h (peek h (peek h testSuites name) "config") "thresholds").

Definition override_thresholds (h : heap) (endpoint : value) (name : string) :=
  own_entries h
    (peek h (or_else (peek h (peek h endpoint "testConfig") name) VUndefined)
       "thresholds").

(** The requests a trace holds. *)
Definition requests (trace : list event) : list event :=
  List.filter is_http trace.

(** The suites of the registry. *)
Definition registered (name : string) : Prop :=
  name ∈ keys (own_entries (st_heap Program.boot) Program.testSuites).

#[global] Instance object_wf_dec (o : object) :
  Decision (match o with
            | Obj props => NoDup (keys props)
            | Arr _ => True
            end).
Proof. destruct o; apply _. Defined.

#[global] Instance objects_wf_dec (h : heap) : Decision (objects_wf h).
Proof. unfold objects_wf. apply _. Defined.

#[global] Instance closed_dec (h : heap) (v : value) : Decision (closed h v).
Proof. destruct v; simpl; apply _. Defined.

#[global] Instance object_closed_dec (h : heap) (o : object) :
  Decision (match o with
            | Obj props => Forall (fun kv => closed h kv.2) props
            | Arr elems => Forall (closed h) elems
            end).
Proof. destruct o; apply _. Defined.

#[global] Instance heap_closed_dec (h : heap) : Decision (heap_closed h).
Proof. unfold heap_closed. apply _. Defined.

(** An endpoint that overrides the thresholds of the [load] suite, for
    the examples: one key of the suite is redefined, one key is new. *)
Definition tuned_endpoint : tree :=
  TObj [("name", TStr "Tuned");
        ("method", TStr "GET");
        ("path", TStr "/platform-services/v2/health");
        ("baseUrl", TStr "https://dev-api.acexr.com");
        ("requiresAuth", TBool true);
        ("testConfig", TObj [
           ("load", TObj [
              ("vus", num 100);
              ("thresholds", TObj [
                 ("http_req_duration", strs ["p(95)<100"]);
                 ("checks", strs ["rate>0.99"])])])])].

Definition tuned_state : state :=
  Eval vm_compute in (literal tuned_endpoint Program.boot).2.

Definition tuned : value :=
  Eval vm_compute in
    match (literal tuned_endpoint Program.boot).1 with
    | Ret v => v
    | Throw _ => VUndefined
    end.

(** The endpoints of the registry, by key. *)
Definition endpoint_keys : list string :=
  keys (own_entries (st_heap Program.boot) Program.endpoints).

Definition endpoint_of (key : string) : value :=
  peek (st_heap Program.boot) Program.endpoints key.

(** The tree below a value, read with enough fuel for any store without
    cycles. *)
Definition tree_of (h : heap) (v : value) : tree :=
  deep (S (List.length h)) h v.

(** The configuration a suite defines. *)
Definition suite_config (h : heap) (testSuites : value) (name : string) : value :=
  peek h (peek h testSuites name) "config".

(** The override an endpoint defines for a suite. *)
Definition override_of (h : heap) (endpoint : value) (name : string) : value :=
  peek h (peek h endpoint "testConfig") name.

(** The value of an override: the variable if it is set and not empty,
    else the default. *)
Definition override_or (env : environment) (name default : string) : string :=
  match env name with
  | Some s => if decide (s = EmptyString) then default else s
  | None => default
  end.

(** The three batches that do not depend on the environment, built on the
    loaded configuration. *)
Definition fixed_batches : M (value * value * value) :=
  let* smoke := BatchRunner.smoke_batch Program.endpoints in
  let* getEndpointsLoad := BatchRunner.getEndpointsLoad_batch Program.endpoints in
  let* postEndpointsStress := BatchRunner.postEndpointsStress_batch Program.endpoints in
  ret (smoke, getEndpointsLoad, postEndpointsStress).

Definition fixed_state : state :=
  Eval vm_compute in (fixed_batches Program.boot).2.

Definition fixed_refs : value * value * value :=
  Eval vm_compute in
    match (fixed_batches Program.boot).1 with
    | Ret r => r
    | Throw _ => (VUndefined, VUndefined, VUndefined)
    end.

(** The names [batchConfig] defines. *)
Definition batch_names : list string :=
  ["smoke"; "getEndpointsLoad"; "postEndpointsStress"; "custom"].

(** The store once [batchConfig] is evaluated on the loaded configuration. *)
Definition config_heap (env : environment) : heap :=
  st_heap fixed_state ++
  [Arr (VStr <$> split (override_or env "BATCH_ENDPOINTS" "users-me,health-check") ",");
   Obj [("name", VStr "Custom Batch Test");
        ("description", VStr "Custom endpoint and test suite combination");
        ("endpoints", VRef (List.length (st_heap fixed_state)));
        ("testSuite", VStr (override_or env "BATCH_TEST_SUITE" "load"));
        ("parallel", VBool (bool_decide (env "BATCH_PARALLEL" = Some "true")));
        ("maxConcurrent", VNum (parseInt (override_or env "BATCH_MAX_CONCURRENT" "2")));
        ("delayBetweenEndpoints", VNum (parseInt (override_or env "BATCH_DELAY" "5")))];
   Obj [("smoke", fixed_refs.1.1);
        ("getEndpointsLoad", fixed_refs.1.2);
        ("postEndpointsStress", fixed_refs.2);
        ("custom", VRef (S (List.length (st_heap fixed_state))))]].

(** The entry of [batchConfig] read under a key. *)
Definition config_entry (key : string) : value :=
  obj_get [("smoke", fixed_refs.1.1);
           ("getEndpointsLoad", fixed_refs.1.2);
           ("postEndpointsStress", fixed_refs.2);
           ("custom", VRef (S (List.length (st_heap fixed_state))))] key.

(** A value that is not a reference to an object of the store: a
    primitive or a member of the standard library. *)
Definition atomic (v : value) : Prop :=
  match v with VRef _ => False | _ => True end.

(** The line logged for a key that the main function does not find. *)
Definition not_found (key : string) : event :=
  ConsoleWarn [Text "Endpoint '"; Val (VStr key); Text "' not found, skipping..."].

(** An engine that never answers, for the examples. *)
Definition no_response : list event -> option response := fun _ => None.

(** An engine that answers 200 in 12 ms with a JSON content type. *)
Definition ok_response : list event -> option response :=
  fun _ => Some {| status := 200; duration := 12 # 1;
                   resp_headers := [("Content-Type", "application/json")] |}.

(** The state and the data handed to the main function once the runner is
    loaded with no variable set and [setup] has run. *)
Definition smoke_setup : M value :=
  let* m := BatchRunner.module Program.endpoints Program.testSuites (env_of []) in
  BatchRunner.setup (BatchRunner.the_batch m).

Definition smoke_data_state : state :=
  Eval vm_compute in (smoke_setup Program.boot).2.

Definition smoke_data : value :=
  Eval vm_compute in
    match (smoke_setup Program.boot).1 with
    | Ret v => v
    | Throw _ => VUndefined
    end.

Definition smoke_data_batch : value :=
  Eval vm_compute in peek (st_heap smoke_data_state) smoke_data "batch".

Definition smoke_data_keys : loc :=
  Eval vm_compute in
    match peek (st_heap smoke_data_state) smoke_data "endpoints" with
    | VRef l => l
    | _ => 0%nat
    end.

(** Parameter maps for the examples of [buildUrl]. *)
Definition params_with (id : string) : state * value :=
  let run := literal (TObj [("id", TStr id)]) Program.boot in
  (run.2, match run.1 with Ret v => v | Throw _ => VUndefined end).

(** The URL built for a key and a value of [id], as a string. *)
Definition built_url (endpointKey id : string) : outcome value :=
  (Endpoints.buildUrl Program.endpoints endpointKey (params_with id).2
     (params_with id).1).1.

(** A computation that only adds to the trace. *)
Definition grows {A} (c : M A) : Prop :=
  forall st, st_trace st `prefix_of` st_trace (c st).2.

(** The verbs the runner dispatches. *)
Definition supported_verbs : list string :=
  ["GET"; "POST"; "PUT"; "PATCH"; "DELETE"].

(** The token the runner uses, if any: [AUTH_TOKEN] when it is set and
    not empty. *)
Definition auth_token (env : environment) : option string :=
  match env "AUTH_TOKEN" with
  | Some s => if decide (s = EmptyString) then None else Some s
  | None => None
  end.

(** The headers of every request of the runner. *)
Definition plain_headers : list (string * value) :=
  [("Content-Type", VStr "application/json"); ("User-Agent", VStr "k6-batch-test")].

(** The warning logged when a token is required and missing. *)
Definition missing_token (endpointKey : value) : event :=
  ConsoleWarn [Text "Authentication required for "; Val endpointKey;
               Text " but AUTH_TOKEN not provided"].

(** What the runner adds to the trace, after the line that names the
    endpoint, up to the request for an endpoint that requires
    authentication: with a token the request carries it, without one the
    warning comes first and the request goes out with the plain headers. *)
Definition request_events (env : environment) (endpointKey : value)
    (verb : string) (url : value) (body : option payload) : list event :=
  match auth_token env with
  | Some token =>
      [HttpRequest verb url body
         (plain_headers ++ [("Authorization", VStr ("Bearer " +:+ token))])]
  | None =>
      [missing_token endpointKey; HttpRequest verb url body plain_headers]
  end.

(** A computation that returns on every state, and only adds to the
    trace. *)
Definition total {A} (c : M A) : Prop :=
  forall st, exists a st',
    c st = (Ret a, st') /\ st_trace st `prefix_of` st_trace st'.

(** The [users-me] endpoint of the registry, which requires
    authentication: its place in the store and its properties. *)
Definition users_me : nat :=
  Eval vm_compute in
    match endpoint_of "users-me" with
    | VRef l => l
    | _ => 0%nat
    end.

Definition users_me_props : list (string * value) :=
  Eval vm_compute in own_entries (st_heap Program.boot) (VRef users_me).

(** An endpoint that requires authentication and is declared with a verb
    the runner has no case for, added to the store the main function
    runs on. *)
Definition probe_endpoint : tree :=
  TObj [("name", TStr "Probe");
        ("method", TStr "HEAD");
        ("path", TStr "/platform-services/v2/users/me");
        ("baseUrl", TStr "https://dev-api.acexr.com");
        ("requiresAuth", TBool true);
        ("validation", TObj [("expectedStatus", num 200);
                             ("responseTime", num 200);
                             ("requiredHeaders", strs ["content-type"])])].

Definition probe_state : state :=
  Eval vm_compute in (literal probe_endpoint smoke_data_state).2.

Definition probe : value :=
  Eval vm_compute in
    match (literal probe_endpoint smoke_data_state).1 with
    | Ret v => v
    | Throw _ => VUndefined
    end.

(** The callback run on that endpoint with no token set, and on the
    [users-me] endpoint with a given environment. *)
Definition probe_run : outcome unit * state :=
  BatchRunner.test_endpoint (env_of []) ok_response smoke_data_batch
    (VRef smoke_data_keys) (VStr "probe") 0 probe probe_state.

Definition users_me_run (env : environment) : outcome unit * state :=
  BatchRunner.test_endpoint env ok_response smoke_data_batch
    (VRef smoke_data_keys) (VStr "users-me") 0 (VRef users_me) smoke_data_state.

Definition users_me_url : value :=
  VStr "https://dev-api.acexr.com/platform-services/v2/users/me".

(** ** Vocabulary of the further properties *)

(** The order in which an object lists its own keys: the array indices
    first, ascending, then the other keys. *)
Fixpoint own_key_order (ks : list string) : Prop :=
  match ks with
  | [] => True
  | k :: rest =>
      match array_index k with
      | Some i =>
          Forall (fun k' => match array_index k' with
                            | Some j => i < j
                            | None => True
                            end) rest
      | None => Forall (fun k' => array_index k' = None) rest
      end /\ own_key_order rest
  end.

#[global] Instance own_key_order_dec ks : Decision (own_key_order ks).
Proof.
  induction ks as [|k rest IH]; simpl; [apply _|].
  destruct (array_index k); apply and_dec; try exact IH; apply Forall_dec;
    intros k'; destruct (array_index k'); apply _.
Defined.

(** The method and the authentication flag of an entry of a registry. *)
Definition has_method (h : heap) (method : string) (kv : string * value) : bool :=
  strict_eq (peek h kv.2 "method") (VStr (toUpperCase method)).

Definition needs_auth (h : heap) (kv : string * value) : bool :=
  truthy (peek h kv.2 "requiresAuth").

(** The registry of endpoints as the store holds it once the
    configuration is loaded. *)
Definition registry : nat :=
  Eval vm_compute in
    match Program.endpoints with
    | VRef l => l
    | _ => 0%nat
    end.

Definition registry_entries : list (string * value) :=
  Eval vm_compute in own_entries (st_heap Program.boot) Program.endpoints.

(** Text in ASCII: the strings of the model are sequences of bytes, and
    [toUpperCase] maps the ASCII letters. *)
Definition ascii_text (s : string) : Prop :=
  Forall (fun c => (N_of_ascii c < 128)%N) (list_ascii_of_string s).

(** The placeholder of a path parameter. *)
Definition placeholder (key : string) : string := "{" +:+ key +:+ "}".

(** A parameter map [{id: "7"}] in the store of the loaded configuration,
    and the [update-user] endpoint. *)
Definition seven_state : state := Eval vm_compute in (params_with "7").1.

Definition seven : nat :=
  Eval vm_compute in
    match (params_with "7").2 with
    | VRef l => l
    | _ => 0%nat
    end.

Definition update_user : nat :=
  Eval vm_compute in
    match endpoint_of "update-user" with
    | VRef l => l
    | _ => 0%nat
    end.

Definition update_user_props : list (string * value) :=
  Eval vm_compute in own_entries (st_heap Program.boot) (VRef update_user).

(** The fields a suite's configuration defines, and the fields of the
    override [endpoint.testConfig?.[name] || {}]. *)
Definition suite_fields (h : heap) (testSuites : value) (name : string) :=
  own_entries h (suite_config h testSuites name).

Definition override_fields (h : heap) (endpoint : value) (name : string) :=
  own_entries h (or_else (override_of h endpoint name) VUndefined).

(** The lines a script writes with [console.log], [console.warn] and
    [console.error], as opposed to requests, checks and delays. *)
Definition is_console (e : event) : bool :=
  match e with
  | ConsoleLog _ | ConsoleWarn _ | ConsoleError _ => true
  | _ => false
  end.

(** A computation that adds nothing to the trace and only adds objects to
    the store. *)
Definition silent {A} (c : M A) : Prop :=
  forall st,
    st_trace (c st).2 = st_trace st /\ st_heap st `prefix_of` st_heap (c st).2.

(** A computation that only adds console lines to the trace and objects
    to the store. *)
Definition reporting {A} (c : M A) : Prop :=
  forall st,
    st_heap st `prefix_of` st_heap (c st).2 /\
    exists lines,
      st_trace (c st).2 = st_trace st ++ lines /\ forallb is_console lines = true.

(** The configuration of the suite a batch names:
    [testSuites[batch.testSuite].config]. *)
Definition batch_suite_config (h : heap) (testSuites batch : value) : value :=
  peek h (peek h testSuites (String_of h (peek h batch "testSuite"))) "config".

(** The options of the default batch, built on the store of a run with no
    variable set. *)
Definition smoke_options_state : state :=
  Eval vm_compute in
    (BatchRunner.options Program.testSuites smoke_data_batch smoke_data_state).2.

Definition smoke_options : value :=
  Eval vm_compute in
    match (BatchRunner.options Program.testSuites smoke_data_batch smoke_data_state).1 with
    | Ret v => v
    | Throw _ => VUndefined
    end.

(** ** scripts/run-endpoint-test.sh *)

Module EndpointScript.

(** [validate_endpoint], as a function of its argument: what it prints
    (the error, then [list_endpoints]) and how it ends. *)
Definition validate_endpoint (endpoint : string) : list string * Shell.status :=
  if bool_decide (endpoint ∈ ["users-me"; "client-configs"; "health-check";
                              "create-user"; "update-user"])
  then ([], Shell.Returns 0)
  else (["[ERROR] Invalid endpoint: " +:+ endpoint;
         "[INFO] Available endpoints:";
         "  users-me         - Get Current User";
         "  client-configs   - Get Client Configurations";
         "  health-check     - Health Check";
         "  create-user      - Create User";
         "  update-user      - Update User";
         ""],
        Shell.Exits 1).

(** [check_auth_requirements]: [AUTH_TOKEN] is the value of the variable,
    empty when it is not set; [script] is [$0] and [test_suite] the value
    of the variable of that name where the function is called. *)
Definition check_auth_requirements (endpoint AUTH_TOKEN script test_suite : string)
  : list string :=
  if bool_decide (endpoint ∈ ["users-me"; "create-user"; "update-user"]) then
    if bool_decide (AUTH_TOKEN = EmptyString) then
      ["[WARNING] This endpoint requires authentication but AUTH_TOKEN is not set.";
       "Set the AUTH_TOKEN environment variable before running the test:";
       "  export AUTH_TOKEN='your-jwt-token-here'";
       "  " +:+ script +:+ " " +:+ endpoint +:+ " " +:+ test_suite;
       "";
       "[WARNING] Continuing without authentication (test may fail)..."]
    else ["[SUCCESS] Authentication token found"]
  else ["[INFO] No authentication required for this endpoint"].

End EndpointScript.

(** *** The trace of one endpoint of a batch *)

(** The line that names the endpoint. *)
Definition endpoint_line (index count : nat) (name : value) : event :=
  ConsoleLog [Text "Testing endpoint "; Val (VNum (Int (Z.of_nat index + 1)));
              Text "/"; Val (VNum (Int (Z.of_nat count))); Text ": "; Val name].

(** What is logged about authentication, and the headers of the request:
    the plain ones, with the bearer token when the endpoint requires
    authentication and a token is set. *)
Definition auth_lines (env : environment) (endpointKey requiresAuth : value)
  : list event :=
  if truthy requiresAuth then
    match auth_token env with
    | Some _ => []
    | None => [missing_token endpointKey]
    end
  else [].

Definition sent_headers (env : environment) (requiresAuth : value)
  : list (string * value) :=
  if truthy requiresAuth then
    match auth_token env with
    | Some token => plain_headers ++ [("Authorization", VStr ("Bearer " +:+ token))]
    | None => plain_headers
    end
  else plain_headers.

(** The three checks on a response, for a time limit that is a number and
    required headers given by name. *)
Definition check_events (endpointKey : value) (validation : list (string * value))
    (limit : number) (names : list string) (r : response) : list event :=
  let expected := obj_get validation "expectedStatus" in
  [CheckResult [Val endpointKey; Text " - status is "; Val expected]
     (strict_eq (VNum (Int (status r))) expected);
   CheckResult [Val endpointKey; Text " - response time < "; Val (VNum limit); Text "ms"]
     (match limit with
      | Int z | Big z => negb (Qle_bool (inject_Z z) (duration r))
      | NaN => false
      end);
   CheckResult [Val endpointKey; Text " - has required headers"]
     (forallb (BatchRunner.has_header r) names)].

(** What follows the request: the checks and the line with the status
    when the engine answers, the error line when the request fails. *)
Definition answer_events (respond : list event -> option response)
    (endpointKey : value) (validation : list (string * value)) (limit : number)
    (names : list string) (sent : list event) : list event :=
  match respond sent with
  | Some r =>
      check_events endpointKey validation limit names r ++
      [ConsoleLog [Val endpointKey; Text ": "; Val (VNum (Int (status r)));
                   Text " ("; Millis (duration r); Text "ms)"]]
  | None =>
      [ConsoleError [Text "Error testing "; Val endpointKey; Text ": ";
                     Text "request failed"]]
  end.

(** The delay after an endpoint: in a batch that is not parallel, and not
    after the last key. *)
Definition pause_events (batch : list (string * value)) (count index : nat)
  : list event :=
  if negb (truthy (obj_get batch "parallel"))
     && (Z.of_nat index <? Z.of_nat count - 1)
  then [SleepFor (obj_get batch "delayBetweenEndpoints")]
  else [].

(** The default batch, the validation record of [users-me] and its list
    of required headers, as the store of a run with no variable set holds
    them. *)
Definition smoke_at : nat :=
  Eval vm_compute in
    match smoke_data_batch with
    | VRef l => l
    | _ => 0%nat
    end.

Definition smoke_props : list (string * value) :=
  Eval vm_compute in own_entries (st_heap smoke_data_state) smoke_data_batch.

Definition users_me_validation_at : nat :=
  Eval vm_compute in
    match obj_get users_me_props "validation" with
    | VRef l => l
    | _ => 0%nat
    end.

Definition users_me_validation : list (string * value) :=
  Eval vm_compute in
    own_entries (st_heap Program.boot) (VRef users_me_validation_at).

Definition users_me_required_at : nat :=
  Eval vm_compute in
    match obj_get users_me_validation "requiredHeaders" with
    | VRef l => l
    | _ => 0%nat
    end.

(** The probe endpoint in its store. *)
Definition probe_at : nat :=
  Eval vm_compute in
    match probe with
    | VRef l => l
    | _ => 0%nat
    end.

Definition probe_props : list (string * value) :=
  Eval vm_compute in own_entries (st_heap probe_state) probe.

(** ** scripts/endpoint-test.js

    The runner of a single endpoint, as [setup-dashboard.sh] carries it.
    As for the batch runner, the lines of the console are kept without the
    pictograph that leads them. *)

Module EndpointRunner.

Section Script.

Variable endpoints : value.
Variable testSuites : value.
Variable env : environment.
Variable respond : list event -> option response.

Definition endpointKey : value := or_else (env_get env "ENDPOINT") (VStr "users-me").

Definition testSuite : value := or_else (env_get env "TEST_SUITE") (VStr "load").

(** The failure of a reference to a name that no declaration and no import
    of the module binds, with the message of the engine's
    [ReferenceError]. *)
Definition NotDefined (name : string) : exn := Error (name +:+ " is not defined").

(** The binding of [endpoint] and the guard after it. The message of the
    guard's error is a template that reads [endpoints]; the script imports
    [getEndpoint] and [buildUrl] only, so the evaluation of the template
    fails on that name before the error is built. *)
Definition endpoint : M value :=
  let* key := read (fun h => String_of h endpointKey) in
  let* endpoint := Endpoints.getEndpoint endpoints key in
  if negb (truthy endpoint) then throw (NotDefined "endpoints")
  else ret endpoint.

Definition options (endpoint : value) : M value :=
  let* name := read (fun h => String_of h testSuite) in
  TestSuites.mergeConfigs testSuites endpoint name.

Definition metadata (endpoint : value) : M value :=
  let* name := get endpoint "name" in
  let* method := get endpoint "method" in
  let* path := get endpoint "path" in
  let* baseUrl := get endpoint "baseUrl" in
  let* requiresAuth := get endpoint "requiresAuth" in
  alloc (Obj [("endpoint", endpointKey);
              ("endpointName", name);
              ("method", method);
              ("path", path);
              ("baseUrl", baseUrl);
              ("testSuite", testSuite);
              ("requiresAuth", requiresAuth)]).

Record exports := {
  the_endpoint : value;
  the_options : value;
  the_metadata : value
}.

(** The top level of the module, run once at load. *)
Definition module : M exports :=
  let* e := endpoint in
  let* o := options e in
  let* m := metadata e in
  ret {| the_endpoint := e; the_options := o; the_metadata := m |}.

Definition setup (endpoint : value) : M value :=
  let* name := get endpoint "name" in
  let* _ := emit (ConsoleLog [Text "Starting "; Val testSuite;
                              Text " test for endpoint: "; Val name]) in
  let* baseUrl := get endpoint "baseUrl" in
  let* path := get endpoint "path" in
  let* _ := emit (ConsoleLog [Text "URL: "; Val baseUrl; Val path]) in
  let* method := get endpoint "method" in
  let* _ := emit (ConsoleLog [Text "Method: "; Val method]) in
  let* requiresAuth := get endpoint "requiresAuth" in
  let* _ := emit (ConsoleLog [Text "Requires Auth: "; Val requiresAuth]) in
  let* requiresAuth' := get endpoint "requiresAuth" in
  let* _ :=
    if truthy requiresAuth' then
      emit (ConsoleLog [Text ("This endpoint requires authentication. " +:+
                              "Make sure to set AUTH_TOKEN environment variable.")])
    else ret tt in
  alloc (Obj [("endpoint", endpoint); ("testSuite", testSuite)]).

(** The [switch] on the method: the request of the matching case, or the
    error of the [default] case. *)
Definition send (endpoint url requestOptions : value) : M response :=
  let* method := get endpoint "method" in
  if strict_eq method (VStr "GET") then
    BatchRunner.http_call respond "GET" url None requestOptions
  else if strict_eq method (VStr "POST") then
    let* postData := TestData.generateTestData endpoint in
    BatchRunner.http_call respond "POST" url (Some postData) requestOptions
  else if strict_eq method (VStr "PUT") then
    let* putData := TestData.generateTestData endpoint in
    BatchRunner.http_call respond "PUT" url (Some putData) requestOptions
  else if strict_eq method (VStr "PATCH") then
    let* patchData := TestData.generateTestData endpoint in
    BatchRunner.http_call respond "PATCH" url (Some patchData) requestOptions
  else if strict_eq method (VStr "DELETE") then
    BatchRunner.http_call respond "DELETE" url None requestOptions
  else
    let* method' := get endpoint "method" in
    let* shown := read (fun h => String_of h method') in
    throw (Error ("Unsupported HTTP method: " +:+ shown)).

(** The [checks] object and the call of [check]. The computed keys are
    evaluated first, the key of the fourth check under its condition;
    then each check is run on the response. The keys start with the same
    method and path and go on differently, so each is a property of its
    own, in the order they are written. *)
Definition run_checks (endpoint : value) (r : response) : M unit :=
  let* method1 := get endpoint "method" in
  let* path1 := get endpoint "path" in
  let* validation := get endpoint "validation" in
  let* expected := get validation "expectedStatus" in
  let* method2 := get endpoint "method" in
  let* path2 := get endpoint "path" in
  let* validation := get endpoint "validation" in
  let* limit := get validation "responseTime" in
  let* method3 := get endpoint "method" in
  let* path3 := get endpoint "path" in
  let* method := get endpoint "method" in
  let* created :=
    if strict_eq method (VStr "POST") then
      let* validation := get endpoint "validation" in
      let* expected := get validation "expectedStatus" in
      ret (strict_eq expected (VNum (Int 201)))
    else ret false in
  let* location :=
    if created then
      let* method4 := get endpoint "method" in
      let* path4 := get endpoint "path" in
      ret (Some [Val method4; Text " "; Val path4; Text " - has Location header"])
    else ret None in
  let* validation := get endpoint "validation" in
  let* expected' := get validation "expectedStatus" in
  let* _ := emit (CheckResult [Val method1; Text " "; Val path1;
                               Text " - status is "; Val expected]
                    (strict_eq (VNum (Int (status r))) expected')) in
  let* validation := get endpoint "validation" in
  let* limit' := get validation "responseTime" in
  let* _ := emit (CheckResult [Val method2; Text " "; Val path2;
                               Text " - response time < "; Val limit; Text "ms"]
                    (match to_number limit' with
                     | Int z | Big z => negb (Qle_bool (inject_Z z) (duration r))
                     | NaN => false
                     end)) in
  let* validation := get endpoint "validation" in
  let* requiredHeaders := get validation "requiredHeaders" in
  let* all := BatchRunner.every_header requiredHeaders r in
  let* _ := emit (CheckResult [Val method3; Text " "; Val path3;
                               Text " - has required headers"] all) in
  match location with
  | Some name => emit (CheckResult name (BatchRunner.has_header r "Location"))
  | None => ret tt
  end.

(** The main test function. The URL is built from the registry under the
    key of the module, with an empty parameter map; the rest reads the
    endpoint handed over by [setup]. *)
Definition default (data : value) : M unit :=
  let* endpoint := get data "endpoint" in
  let* key := read (fun h => String_of h endpointKey) in
  let* params := alloc (Obj []) in
  let* url := Endpoints.buildUrl endpoints key params in
  let* headers := alloc (Obj [("Content-Type", VStr "application/json");
                              ("User-Agent", VStr "k6-performance-test")]) in
  let* requestOptions := alloc (Obj [("headers", headers)]) in
  let* requiresAuth := get endpoint "requiresAuth" in
  let* _ :=
    if truthy requiresAuth then
      let authToken := env_get env "AUTH_TOKEN" in
      if truthy authToken then
        let* hs := get requestOptions "headers" in
        let* bearer := read (fun h => "Bearer " +:+ String_of h authToken) in
        set_prop hs "Authorization" (VStr bearer)
      else
        emit (ConsoleWarn [Text "Authentication required but AUTH_TOKEN not provided"])
    else ret tt in
  let* response := send endpoint url requestOptions in
  let* _ := run_checks endpoint response in
  emit (SleepFor (VNum (Int 1))).

Definition teardown (endpoint : value) : M unit :=
  let* name := get endpoint "name" in
  emit (ConsoleLog [Text "Completed "; Val testSuite;
                    Text " test for endpoint: "; Val name]).

End Script.

End EndpointRunner.

(** ** Vocabulary for the single-endpoint runner *)

(** The headers of every request of the single-endpoint runner. *)
Definition single_headers : list (string * value) :=
  [("Content-Type", VStr "application/json");
   ("User-Agent", VStr "k6-performance-test")].

(** What an iteration logs before its request: the warning, when the
    endpoint requires authentication and no token is set. *)
Definition single_auth_lines (env : environment) (requiresAuth : value) : list event :=
  if truthy requiresAuth then
    match auth_token env with
    | Some _ => []
    | None => [ConsoleWarn [Text "Authentication required but AUTH_TOKEN not provided"]]
    end
  else [].

Definition single_sent_headers (env : environment) (requiresAuth : value)
  : list (string * value) :=
  if truthy requiresAuth then
    match auth_token env with
    | Some token => single_headers ++ [("Authorization", VStr ("Bearer " +:+ token))]
    | None => single_headers
    end
  else single_headers.

(** The name of a check: the method and the path of the endpoint, then
    what is checked. *)
Definition check_name (props : list (string * value)) (what : list part) : list part :=
  [Val (obj_get props "method"); Text " "; Val (obj_get props "path")] ++ what.

(** The checks of an iteration on a response, for a time limit that is a
    number and required headers given by name: three for every endpoint,
    and the [Location] header for a POST that expects the status 201. *)
Definition single_checks (props validation : list (string * value))
    (limit : number) (names : list string) (r : response) : list event :=
  let expected := obj_get validation "expectedStatus" in
  [CheckResult (check_name props [Text " - status is "; Val expected])
     (strict_eq (VNum (Int (status r))) expected);
   CheckResult (check_name props [Text " - response time < "; Val (VNum limit); Text "ms"])
     (match limit with
      | Int z | Big z => negb (Qle_bool (inject_Z z) (duration r))
      | NaN => false
      end);
   CheckResult (check_name props [Text " - has required headers"])
     (forallb (BatchRunner.has_header r) names)] ++
  (if strict_eq (obj_get props "method") (VStr "POST")
      && strict_eq expected (VNum (Int 201))
   then [CheckResult (check_name props [Text " - has Location header"])
           (BatchRunner.has_header r "Location")]
   else []).

(** The single-endpoint runner loaded with no variable set, after
    [setup]: the state, and the place and the properties of the data
    handed to the main function. *)
Definition single_setup : M value :=
  let* m := EndpointRunner.module Program.endpoints Program.testSuites (env_of []) in
  EndpointRunner.setup (env_of []) (EndpointRunner.the_endpoint m).

Definition single_data_state : state :=
  Eval vm_compute in (single_setup Program.boot).2.

Definition single_data : nat :=
  Eval vm_compute in
    match (single_setup Program.boot).1 with
    | Ret (VRef l) => l
    | _ => 0%nat
    end.

Definition single_data_props : list (string * value) :=
  Eval vm_compute in own_entries (st_heap single_data_state) (VRef single_data).

(** The data of an iteration on the probe endpoint. *)
Definition probe_data_state : state :=
  Eval vm_compute in
    (alloc (Obj [("endpoint", probe); ("testSuite", VStr "load")]) probe_state).2.

Definition probe_data : nat :=
  Eval vm_compute in List.length (st_heap probe_state).

Definition probe_data_props : list (string * value) :=
  Eval vm_compute in own_entries (st_heap probe_data_state) (VRef probe_data).

(** ** Vocabulary for the keys of the main function and for parameter values *)

(** What the main function logs for one key of the array of keys it looks
    the key up in: the not-found warning when the array has no truthy
    property of that name; otherwise the line of an endpoint under test,
    with whatever the value found has for a name, and the warning of the
    [default] case of the [switch], as the value has no method. *)
Definition key_lines (elems : list value) (index : nat) (k : string)
    (lines : list event) : Prop :=
  if truthy (arr_get elems k)
  then exists name,
         lines = [endpoint_line index (List.length elems) name;
                  ConsoleWarn [Text "Unsupported HTTP method: "; Val VUndefined]]
  else lines = [not_found k].

(** The lines of the keys [ks], taken in order from position [index]. *)
Fixpoint keys_lines (elems : list value) (index : nat) (ks : list string)
    (lines : list event) : Prop :=
  match ks with
  | [] => lines = []
  | k :: rest =>
      exists first more,
        lines = first ++ more /\
        key_lines elems index k first /\
        keys_lines elems (S index) rest more
  end.

(** The parameter values whose text in a URL is the one [String_of]
    gives: strings, booleans, [null], [undefined], [NaN] and the integers
    up to [2^53]. A larger number is printed by the engine from the
    double that holds it, and a function given to [replace] is called
    rather than printed. *)
Definition plain_text (v : value) : Prop :=
  match v with
  | VStr _ | VBool _ | VNull | VUndefined | VNum NaN => True
  | VNum (Int z) => Z.abs z <= 2 ^ 53
  | _ => False
  end.
(** * Properties *)

Ltac by_computation := apply (bool_decide_unpack _); vm_compute; exact I.

(** ** Own properties: lookup after assignment and spread *)

Section Properties.

Implicit Types (k : string) (v : value) (props : list (string * value)).

Lemma assoc_Some_keys k props v : assoc k props = Some v -> k ∈ keys props.
Proof.
  induction props as [|[k' v'] rest IH]; simpl; [done|].
  destruct (decide (k = k')) as [->|]; [intros _; apply list_elem_of_here|].
  intros H. apply list_elem_of_further, IH, H.
Qed.

Lemma assoc_None_keys k props : assoc k props = None <-> k ∉ keys props.
Proof.
  induction props as [|[k' v'] rest IH]; simpl.
  - split; [intros _ H; inversion H|done].
  - destruct (decide (k = k')) as [->|Hne].
    + split; [done|]. intros H. destruct H. apply list_elem_of_here.
    + rewrite IH. rewrite not_elem_of_cons. tauto.
Qed.

Lemma keys_assoc k props : k ∈ keys props <-> is_Some (assoc k props).
Proof.
  split.
  - intros Hin. destruct (assoc k props) eqn:E; [eauto|].
    apply assoc_None_keys in E. done.
  - intros [v Hv]. eapply assoc_Some_keys, Hv.
Qed.

Lemma assoc_obj_replace k v k' props :
  assoc k' (obj_replace k v props) =
  if decide (k' = k) then (fun _ => v) <$> assoc k props else assoc k' props.
Proof.
  induction props as [|[k0 v0] rest IH]; simpl.
  - by destruct (decide (k' = k)).
  - destruct (decide (k = k0)) as [->|Hne]; simpl.
    + destruct (decide (k' = k0)) as [->|]; [done|]. done.
    + destruct (decide (k' = k0)) as [->|].
      * destruct (decide (k0 = k)) as [->|]; [done|]. done.
      * apply IH.
Qed.

Lemma assoc_obj_insert k v k' props :
  assoc k props = None ->
  assoc k' (obj_insert k v props) =
  if decide (k' = k) then Some v else assoc k' props.
Proof.
  induction props as [|[k0 v0] rest IH]; simpl; intros Hnone.
  - destruct (decide (k' = k)); done.
  - destruct (decide (k = k0)) as [->|Hne]; [done|].
    specialize (IH Hnone).
    destruct (array_index k) as [i|], (array_index k0) as [j|]; simpl;
      try destruct (i <? j); simpl;
      destruct (decide (k' = k)) as [->|]; simpl;
      destruct (decide (k = k0)); try done;
      destruct (decide (k' = k0)); try done.
    all: try (rewrite IH; by destruct (decide (k = k))).
    all: try (rewrite IH; by destruct (decide (k' = k))).
Qed.

Lemma assoc_obj_set k v k' props :
  assoc k' (obj_set k v props) =
  if decide (k' = k) then Some v else assoc k' props.
Proof.
  unfold obj_set. destruct (assoc k props) eqn:E.
  - rewrite assoc_obj_replace, E. by destruct (decide (k' = k)).
  - by apply assoc_obj_insert.
Qed.

Lemma keys_obj_set k v k' props :
  k' ∈ keys (obj_set k v props) <-> k' = k \/ k' ∈ keys props.
Proof.
  rewrite !keys_assoc, assoc_obj_set.
  destruct (decide (k' = k)) as [->|Hne].
  - split; [auto|eauto].
  - split; [auto|]. intros [?|?]; done.
Qed.

Lemma assoc_assign k target src :
  NoDup (keys src) ->
  assoc k (assign target src) =
  match assoc k src with
  | Some v => Some v
  | None => assoc k target
  end.
Proof.
  unfold assign. revert target.
  induction src as [|[k0 v0] rest IH]; intros target Hnd; simpl; [done|].
  unfold keys in Hnd. simpl in Hnd. apply NoDup_cons in Hnd as [Hfresh Hnd].
  fold (keys rest) in Hfresh, Hnd.
  rewrite IH by done. rewrite assoc_obj_set.
  destruct (decide (k = k0)) as [->|]; [|done].
  apply assoc_None_keys in Hfresh. by rewrite Hfresh.
Qed.

Lemma keys_assign k target src :
  k ∈ keys (assign target src) <-> k ∈ keys target \/ k ∈ keys src.
Proof.
  unfold assign. revert target.
  induction src as [|[k0 v0] rest IH]; intros target; simpl.
  - split; [auto|]. intros [?|H]; [done|inversion H].
  - rewrite IH, keys_obj_set. unfold keys at 3. simpl.
    rewrite elem_of_cons. fold (keys rest). tauto.
Qed.

End Properties.

(** ** Reading a store that extends another *)

Section Stores.

Implicit Types (h : heap) (v : value) (k : string).

Lemma get_prop_agree h h' v k :
  (forall l, v = VRef l -> h !! l = h' !! l) ->
  get_prop h v k = get_prop h' v k.
Proof.
  intros H. destruct v; try reflexivity. simpl. by rewrite (H l).
Qed.

Lemma own_entries_agree h h' v :
  (forall l, v = VRef l -> h !! l = h' !! l) ->
  own_entries h v = own_entries h' v.
Proof.
  intros H. destruct v; try reflexivity. simpl. by rewrite (H l).
Qed.

Lemma loaded_lookup h l o :
  loaded h -> st_heap Program.boot !! l = Some o -> h !! l = Some o.
Proof. intros Hl Hb. eapply prefix_lookup_Some; eauto. Qed.

Lemma loaded_app h ext : loaded h -> loaded (h ++ ext).
Proof. intros. by apply prefix_app_r. Qed.

End Stores.

Lemma registered_names name :
  registered name <->
  name ∈ ["smoke"; "load"; "stress"; "spike"; "endurance"; "soak"].
Proof. reflexivity. Qed.

(** In every store that extends the loaded configuration, a registered
    suite is an object with a [config] object that has a [thresholds]
    object. *)
Lemma suite_shape name :
  registered name ->
  exists s c t cprops tprops,
    forall h, loaded h ->
      get_prop h Program.testSuites name = Ret (VRef s) /\
      get_prop h (VRef s) "config" = Ret (VRef c) /\
      h !! c = Some (Obj cprops) /\
      get_prop h (VRef c) "thresholds" = Ret (VRef t) /\
      h !! t = Some (Obj tprops) /\
      NoDup (keys tprops).
Proof.
  intros Hreg. apply registered_names in Hreg.
  assert (Hread : forall h l o k,
             loaded h -> st_heap Program.boot !! l = Some o ->
             get_prop h (VRef l) k = get_prop (st_heap Program.boot) (VRef l) k).
  { intros h l o k Hl Hb. apply get_prop_agree. intros l' [= <-].
    rewrite Hb. eapply loaded_lookup; eauto. }
  repeat (apply elem_of_cons in Hreg as [->|Hreg]);
    [..|by apply elem_of_nil in Hreg].
  all: unfold Program.testSuites.
  all: match goal with
       | |- context [get_prop _ _ ?n] =>
           let r := eval vm_compute in
             (get_prop (st_heap Program.boot) Program.testSuites n) in
           match r with
           | Ret (VRef ?s) =>
               let rc := eval vm_compute in
                 (get_prop (st_heap Program.boot) (VRef s) "config") in
               match rc with
               | Ret (VRef ?c) =>
                   let rt := eval vm_compute in
                     (get_prop (st_heap Program.boot) (VRef c) "thresholds") in
                   match rt with
                   | Ret (VRef ?t) =>
                       let oc := eval vm_compute in (st_heap Program.boot !! c) in
                       let ot := eval vm_compute in (st_heap Program.boot !! t) in
                       match oc with
                       | Some (Obj ?cp) =>
                           match ot with
                           | Some (Obj ?tp) => exists s, c, t, cp, tp
                           end
                       end
                   end
               end
           end
       end.
  all: intros h Hl; repeat split.
  all: try (erewrite Hread; [vm_compute; reflexivity|exact Hl|vm_compute; reflexivity]).
  all: try (eapply loaded_lookup; [exact Hl|vm_compute; reflexivity]).
  all: apply (bool_decide_unpack _); vm_compute; exact I.
Qed.

#[local] Arguments get_prop : simpl never.
#[local] Arguments own_entries : simpl never.
#[local] Arguments spread : simpl never.
#[local] Arguments assign : simpl never.
#[local] Arguments obj_set : simpl never.
#[local] Arguments inherited : simpl never.

Section Entries.

Implicit Types (h : heap) (v : value) (k : string).

#[local] Instance index_key_inj : Inj (=) (=) index_key.
Proof.
  intros i j H. unfold index_key in H.
  apply (inj pretty) in H. lia.
Qed.

Lemma keys_indexed {A} (f : A -> value) (l : list A) :
  keys (imap (fun i e => (index_key i, f e)) l) = index_key <$> seq 0 (List.length l).
Proof.
  unfold keys. rewrite fmap_imap, <- (imap_seq_0 l index_key).
  apply imap_ext. intros; reflexivity.
Qed.

Lemma own_entries_NoDup h v :
  objects_wf h -> NoDup (keys (own_entries h v)).
Proof.
  intros Hwf. destruct v; unfold own_entries; try apply NoDup_nil_2.
  - rewrite (keys_indexed id).
    apply (NoDup_fmap_2 index_key), NoDup_seq.
  - destruct (h !! l) as [[props|elems]|] eqn:E; try apply NoDup_nil_2.
    + unfold objects_wf in Hwf. rewrite Forall_lookup in Hwf.
      apply (Hwf l _ E).
    + rewrite (keys_indexed id).
      apply (NoDup_fmap_2 index_key), NoDup_seq.
Qed.

Lemma get_prop_total h v k :
  nullish v = false -> exists x, get_prop h v k = Ret x.
Proof. destruct v; unfold get_prop; simpl; try discriminate; eauto. Qed.

Lemma truthy_not_nullish v : truthy v = true -> nullish v = false.
Proof. by destruct v. Qed.

End Entries.

(** [mergeConfigs] run on a state, reads written out. *)
Lemma mergeConfigs_unfold testSuites endpoint name st :
  TestSuites.mergeConfigs testSuites endpoint name st =
  let h := st_heap st in
  match get_prop h testSuites name with
  | Throw e => (Throw e, st)
  | Ret testSuite =>
      if truthy testSuite then
        match get_prop h endpoint "testConfig" with
        | Throw e => (Throw e, st)
        | Ret testConfig =>
            match (if nullish testConfig then Ret VUndefined
                   else get_prop h testConfig name) with
            | Throw e => (Throw e, st)
            | Ret override =>
                let st1 :=
                  if truthy override then st
                  else {| st_heap := h ++ [Obj []]; st_trace := st_trace st |} in
                let endpointConfig :=
                  if truthy override then override else VRef (List.length h) in
                let h1 := st_heap st1 in
                match get_prop h1 testSuite "config" with
                | Throw e => (Throw e, st1)
                | Ret config =>
                    match get_prop h1 config "thresholds" with
                    | Throw e => (Throw e, st1)
                    | Ret suiteThresholds =>
                        match get_prop h1 endpointConfig "thresholds" with
                        | Throw e => (Throw e, st1)
                        | Ret endpointThresholds =>
                            (Ret (VRef (S (List.length h1))),
                             {| st_heap :=
                                  h1 ++ [Obj (spread h1 (spread h1 [] suiteThresholds)
                                                endpointThresholds);
                                         Obj (obj_set "thresholds"
                                                (VRef (List.length h1))
                                                (spread h1 (spread h1 [] config)
                                                   endpointConfig))];
                                st_trace := st_trace st |})
                        end
                    end
                end
            end
        end
      else (Throw (TestSuites.UnknownSuite name), st)
  end.
Proof.
  unfold TestSuites.mergeConfigs, get_optional, bind, get, read, alloc, ret, throw.
  cbv zeta.
  destruct (get_prop (st_heap st) testSuites name) as [testSuite|]; [|done].
  destruct (truthy testSuite); [|done]. cbn [negb].
  destruct (get_prop (st_heap st) endpoint "testConfig") as [tc|]; [|done].
  destruct (nullish tc).
  - cbn [truthy]. cbn [st_heap].
    destruct (get_prop _ testSuite "config") as [config|]; [|done].
    destruct (get_prop _ config "thresholds") as [sth|]; [|done].
    destruct (get_prop _ _ "thresholds") as [eth|]; [|done].
    cbn [st_heap st_trace]. rewrite length_app, <- app_assoc. cbn [List.length].
    do 3 f_equal. lia.
  - cbv beta.
    destruct (get_prop (st_heap st) tc name) as [override|]; [|done].
    destruct (truthy override); cbn [st_heap].
    all: destruct (get_prop _ testSuite "config") as [config|]; [|done].
    all: destruct (get_prop _ config "thresholds") as [sth|]; [|done].
    all: destruct (get_prop _ _ "thresholds") as [eth|]; [|done].
    all: cbn [st_heap st_trace]; rewrite length_app, <- app_assoc; cbn [List.length].
    all: do 3 f_equal; lia.
Qed.

Lemma union_facts (suite override : list (string * value)) :
  NoDup (keys suite) -> NoDup (keys override) ->
  let result := assign (assign [] suite) override in
  (forall k, k ∈ keys result <-> k ∈ keys suite \/ k ∈ keys override) /\
  (forall k v, assoc k override = Some v -> assoc k result = Some v) /\
  (forall k, assoc k override = None -> assoc k result = assoc k suite).
Proof.
  intros Hs Ho result. unfold result. repeat split.
  - rewrite !keys_assign. intros [[H|H]|H]; auto. inversion H.
  - rewrite !keys_assign. tauto.
  - intros k v H. by rewrite assoc_assign, H.
  - intros k H. rewrite assoc_assign, H by done.
    rewrite assoc_assign by done. by destruct (assoc k suite).
Qed.

Lemma lookup_fresh (h : heap) (o o' : object) :
  (h ++ [o; o']) !! List.length h = Some o /\
  (h ++ [o; o']) !! S (List.length h) = Some o'.
Proof.
  split.
  - rewrite lookup_app_r by lia. by rewrite Nat.sub_diag.
  - rewrite lookup_app_r by lia.
    by replace (S (List.length h) - List.length h)%nat with 1%nat by lia.
Qed.

Lemma result_thresholds (h : heap) th merged :
  get_prop (h ++ [Obj th; Obj (obj_set "thresholds" (VRef (List.length h)) merged)])
    (VRef (S (List.length h))) "thresholds" = Ret (VRef (List.length h)) /\
  own_entries (h ++ [Obj th; Obj (obj_set "thresholds" (VRef (List.length h)) merged)])
    (VRef (List.length h)) = th.
Proof.
  unfold get_prop, own_entries.
  destruct (lookup_fresh h (Obj th)
              (Obj (obj_set "thresholds" (VRef (List.length h)) merged))) as [E1 E2].
  rewrite E1, E2.
  split; [|done]. unfold obj_get. rewrite assoc_obj_set. by destruct (decide _).
Qed.

(** C1. For every endpoint and every registered suite name, [mergeConfigs]
    returns a configuration whose [thresholds] object has as keys the
    union of the keys of the suite's thresholds and of the keys of the
    endpoint's override thresholds for that suite; a key that the
    override defines carries the override's value, any other key carries
    the suite's value. *)
Theorem mergeConfigs_thresholds_union st endpoint suiteName :
  loaded (st_heap st) ->
  objects_wf (st_heap st) ->
  registered suiteName ->
  nullish endpoint = false ->
  exists r t st',
    TestSuites.mergeConfigs Program.testSuites endpoint suiteName st
      = (Ret (VRef r), st') /\
    get_prop (st_heap st') (VRef r) "thresholds" = Ret (VRef t) /\
    let result := own_entries (st_heap st') (VRef t) in
    let suite := suite_thresholds (st_heap st) Program.testSuites suiteName in
    let override := override_thresholds (st_heap st) endpoint suiteName in
    (forall k, k ∈ keys result <-> k ∈ keys suite \/ k ∈ keys override) /\
    (forall k v, assoc k override = Some v -> assoc k result = Some v) /\
    (forall k, assoc k override = None -> assoc k result = assoc k suite).
Proof.
  intros Hl Hwf Hreg Hobj.
  destruct (suite_shape suiteName Hreg) as (s & c & t0 & cprops & tprops & Hshape).
  destruct (Hshape _ Hl) as (Hs & Hc & Hcl & Ht & Htl & Hnd).
  destruct (get_prop_total (st_heap st) endpoint "testConfig" Hobj) as [tc Htc].
  rewrite mergeConfigs_unfold. cbv zeta.
  rewrite Hs. cbn [truthy]. rewrite Htc.
  assert (Hov : exists ov, (if nullish tc then Ret VUndefined
                            else get_prop (st_heap st) tc suiteName) = Ret ov).
  { destruct (nullish tc) eqn:E; [eauto|]. by apply get_prop_total. }
  destruct Hov as [ov Hov]. rewrite Hov.
  assert (Hsuite : suite_thresholds (st_heap st) Program.testSuites suiteName = tprops).
  { unfold suite_thresholds, peek. change (nullish Program.testSuites) with false.
    cbv iota. rewrite Hs. cbn [nullish]. rewrite Hc. cbn [nullish]. rewrite Ht.
    unfold own_entries. by rewrite Htl. }
  assert (Hover : override_thresholds (st_heap st) endpoint suiteName =
                  own_entries (st_heap st)
                    (peek (st_heap st) (or_else ov VUndefined) "thresholds")).
  { unfold override_thresholds. do 3 f_equal.
    unfold peek at 1 2. rewrite Hobj, Htc.
    destruct (nullish tc); [by injection Hov as <-|by rewrite Hov]. }
  rewrite Hsuite, Hover. unfold or_else.
  destruct (truthy ov) eqn:Etr.
  - rewrite Hc, Ht.
    destruct (get_prop_total (st_heap st) ov "thresholds"
                (truthy_not_nullish _ Etr)) as [eth Heth].
    rewrite Heth. do 3 eexists. split; [reflexivity|]. cbn [st_heap].
    destruct (result_thresholds (st_heap st)
                (spread (st_heap st) (spread (st_heap st) [] (VRef t0)) eth)
                (spread (st_heap st) (spread (st_heap st) [] (VRef c)) ov))
      as [-> ->].
    split; [reflexivity|].
    unfold peek. rewrite (truthy_not_nullish _ Etr), Heth.
    replace (spread (st_heap st) (spread (st_heap st) [] (VRef t0)) eth)
      with (assign (assign [] tprops) (own_entries (st_heap st) eth))
      by (unfold spread; do 2 f_equal; unfold own_entries; by rewrite Htl).
    apply union_facts; [done|]. by apply own_entries_NoDup.
  - cbn [st_heap].
    destruct (Hshape _ (loaded_app _ [Obj []] Hl)) as (_ & Hc' & _ & Ht' & Htl' & _).
    rewrite Hc', Ht'.
    assert (Hfresh : get_prop (st_heap st ++ [Obj []])
                       (VRef (List.length (st_heap st))) "thresholds" = Ret VUndefined).
    { unfold get_prop. rewrite lookup_app_r by lia.
      by rewrite Nat.sub_diag. }
    rewrite Hfresh. do 3 eexists. split; [reflexivity|]. cbn [st_heap].
    match goal with
    | |- context [?h ++ [Obj ?th; Obj (obj_set _ _ ?m)]] =>
        destruct (result_thresholds h th m) as [Hr He]
    end.
    rewrite length_app in Hr, He. cbn [List.length] in Hr, He.
    rewrite length_app. cbn [List.length].
    replace (List.length (st_heap st) + 1)%nat with (S (List.length (st_heap st)))
      in * by lia.
    rewrite Hr, He. split; [reflexivity|].
    replace (spread (st_heap st ++ [Obj []])
               (spread (st_heap st ++ [Obj []]) [] (VRef t0)) VUndefined)
      with (assign (assign [] tprops) [])
      by (unfold spread; f_equal; unfold own_entries; by rewrite Htl').
    unfold peek. cbn [nullish].
    change (own_entries (st_heap st) VUndefined) with (@nil (string * value)).
    apply union_facts; [done|apply NoDup_nil_2].
Qed.

Lemma mergeConfigs_thresholds_union_witness :
  loaded (st_heap tuned_state) /\
  objects_wf (st_heap tuned_state) /\
  registered "load" /\
  nullish tuned = false /\
  exists r t st',
    TestSuites.mergeConfigs Program.testSuites tuned "load" tuned_state
      = (Ret (VRef r), st') /\
    get_prop (st_heap st') (VRef r) "thresholds" = Ret (VRef t) /\
    let result := own_entries (st_heap st') (VRef t) in
    let suite := suite_thresholds (st_heap tuned_state) Program.testSuites "load" in
    let override := override_thresholds (st_heap tuned_state) tuned "load" in
    (forall k, k ∈ keys result <-> k ∈ keys suite \/ k ∈ keys override) /\
    (forall k v, assoc k override = Some v -> assoc k result = Some v) /\
    (forall k, assoc k override = None -> assoc k result = assoc k suite).
Proof.
  assert (Hl : loaded (st_heap tuned_state)) by by_computation.
  assert (Hwf : objects_wf (st_heap tuned_state)) by by_computation.
  assert (Hreg : registered "load") by by_computation.
  repeat (split; [assumption || reflexivity|]).
  exact (mergeConfigs_thresholds_union tuned_state tuned "load" Hl Hwf Hreg eq_refl).
Defined.

(** The merge of the tuned endpoint with the [load] suite, evaluated: the
    redefined key keeps its place and takes the override's value, the new
    key is appended. *)
Example merge_tuned_load :
  let run := TestSuites.mergeConfigs Program.testSuites tuned "load" tuned_state in
  (fun r => deep 3 (st_heap run.2) r) <$> (match run.1 with Ret r => Some r | Throw _ => None end)
  = Some (TObj [("vus", num 100);
                ("duration", TStr "2m");
                ("thresholds", TObj [("http_req_duration", strs ["p(95)<100"]);
                                     ("http_req_failed", strs ["rate<0.01"]);
                                     ("checks", strs ["rate>0.99"])])]).
Proof. vm_compute. reflexivity. Qed.

(** ** Unregistered suite names *)

Lemma registry_object h :
  loaded h ->
  exists props,
    h !! 98%nat = Some (Obj props) /\
    keys props = ["smoke"; "load"; "stress"; "spike"; "endurance"; "soak"].
Proof.
  intros Hl. eexists. split.
  - eapply loaded_lookup; [exact Hl|]. vm_compute. reflexivity.
  - vm_compute. reflexivity.
Qed.

(** A name that is neither a suite nor a member of [Object.prototype] is
    refused with [UnknownSuite] before anything is read or built. *)
Lemma mergeConfigs_unknown st endpoint name :
  loaded (st_heap st) ->
  ~ registered name ->
  name ∉ members Object_prototype ->
  TestSuites.mergeConfigs Program.testSuites endpoint name st
    = (Throw (TestSuites.UnknownSuite name), st).
Proof.
  intros Hl Hreg Hproto. rewrite mergeConfigs_unfold. cbv zeta.
  destruct (registry_object _ Hl) as (props & Hprops & Hkeys).
  assert (Hget : get_prop (st_heap st) Program.testSuites name = Ret VUndefined).
  { unfold get_prop, Program.testSuites, obj_get. rewrite Hprops.
    assert (Hnone : assoc name props = None).
    { apply assoc_None_keys. by rewrite Hkeys. }
    rewrite Hnone. unfold inherited.
    destruct (decide (name = "__proto__")) as [->|_].
    - exfalso. apply Hproto. by_computation.
    - cbn [List.find]. rewrite bool_decide_eq_false_2 by done. done. }
  by rewrite Hget.
Qed.

(** Whatever the unregistered name, the call ends in an exception: no
    configuration is returned. *)
Lemma mergeConfigs_unregistered_throws st endpoint name :
  loaded (st_heap st) ->
  ~ registered name ->
  exists e st',
    TestSuites.mergeConfigs Program.testSuites endpoint name st = (Throw e, st').
Proof.
  intros Hl Hreg. rewrite mergeConfigs_unfold. cbv zeta.
  destruct (registry_object _ Hl) as (props & Hprops & Hkeys).
  assert (Hget : get_prop (st_heap st) Program.testSuites name
                 = Ret (inherited [Object_prototype] name)).
  { unfold get_prop, Program.testSuites, obj_get. rewrite Hprops.
    assert (Hnone : assoc name props = None).
    { apply assoc_None_keys. by rewrite Hkeys. }
    by rewrite Hnone. }
  rewrite Hget.
  assert (Hinh : inherited [Object_prototype] name = VUndefined \/
                 exists p, inherited [Object_prototype] name = VBuiltin p).
  { unfold inherited. destruct (decide _); [eauto|].
    destruct (List.find _ _); [|eauto]. unfold member_value.
    destruct (decide _); eauto. }
  destruct Hinh as [->|[p ->]]; [eauto|]. cbn [truthy].
  destruct (get_prop (st_heap st) endpoint "testConfig") as [tc|]; [|eauto].
  destruct (if nullish tc then _ else _) as [ov|]; [|eauto].
  assert (Hcfg : forall h, get_prop h (VBuiltin p) "config" = Ret VUndefined) by done.
  rewrite Hcfg. eauto.
Qed.

(** C2. On the unregistered suite name [constructor] the guard of
    [mergeConfigs] lets the call through: the name is found on
    [Object.prototype], and the call ends in a [TypeError] raised while the
    result is being built, not in [UnknownSuite]. The same holds for every
    member of [Object.prototype]. *)
Theorem mergeConfigs_inherited_name :
  (TestSuites.mergeConfigs Program.testSuites (endpoint_of "users-me")
     "constructor" Program.boot).1
  = Throw (TypeError "Cannot read property 'thresholds' of undefined") /\
  ~ registered "constructor" /\
  Forall (fun name =>
            (TestSuites.mergeConfigs Program.testSuites (endpoint_of "users-me")
               name Program.boot).1
            = Throw (TypeError "Cannot read property 'thresholds' of undefined"))
    (members Object_prototype).
Proof.
  split; [vm_compute; reflexivity|]. split.
  - intros H. apply registered_names in H.
    repeat (apply elem_of_cons in H as [H|H]; [discriminate|]).
    by apply elem_of_nil in H.
  - repeat (apply Forall_cons; split; [vm_compute; reflexivity|]).
    apply Forall_nil_2.
Qed.

(** ** The shipped endpoints carry no override under a suite name *)

(** C9. For every endpoint of the shipped registry and every registered
    suite, the override looked up under the suite name is absent and
    [mergeConfigs] returns a configuration deep-equal to the suite's own. *)
Theorem shipped_merge_is_suite_config key name :
  key ∈ endpoint_keys ->
  registered name ->
  override_of (st_heap Program.boot) (endpoint_of key) name = VUndefined /\
  exists r st',
    TestSuites.mergeConfigs Program.testSuites (endpoint_of key) name Program.boot
      = (Ret r, st') /\
    tree_of (st_heap st') r
      = tree_of (st_heap Program.boot)
          (suite_config (st_heap Program.boot) Program.testSuites name).
Proof.
  intros Hkey Hname.
  assert (Hkeys : key ∈ ["users-me"; "client-configs"; "health-check";
                         "create-user"; "update-user"; "auth/signin"]) by exact Hkey.
  apply registered_names in Hname.
  repeat (apply elem_of_cons in Hkeys as [->|Hkeys]);
    [..|by apply elem_of_nil in Hkeys].
  all: repeat (apply elem_of_cons in Hname as [->|Hname]);
    [..|by apply elem_of_nil in Hname].
  all: split; [vm_compute; reflexivity|].
  all: do 2 eexists; split; [vm_compute; reflexivity|vm_compute; reflexivity].
Qed.

Lemma shipped_merge_is_suite_config_witness :
  "health-check" ∈ endpoint_keys /\
  registered "smoke" /\
  override_of (st_heap Program.boot) (endpoint_of "health-check") "smoke" = VUndefined /\
  exists r st',
    TestSuites.mergeConfigs Program.testSuites (endpoint_of "health-check") "smoke"
      Program.boot = (Ret r, st') /\
    tree_of (st_heap st') r
      = tree_of (st_heap Program.boot)
          (suite_config (st_heap Program.boot) Program.testSuites "smoke").
Proof.
  assert (Hkey : "health-check" ∈ endpoint_keys) by by_computation.
  assert (Hname : registered "smoke") by by_computation.
  split; [exact Hkey|]. split; [exact Hname|].
  exact (shipped_merge_is_suite_config "health-check" "smoke" Hkey Hname).
Defined.

(** The scenario of the specification: [health-check] merged with [smoke]. *)
Example merge_health_check_smoke :
  let run := TestSuites.mergeConfigs Program.testSuites (endpoint_of "health-check")
               "smoke" Program.boot in
  (fun r => tree_of (st_heap run.2) r)
    <$> (match run.1 with Ret r => Some r | Throw _ => None end)
  = Some (TObj [("vus", num 1);
                ("duration", TStr "10s");
                ("thresholds", TObj [("http_req_failed", strs ["rate<0.01"])])]).
Proof. vm_compute. reflexivity. Qed.

(** ** Closed stores: reads are stable under allocation *)

Section Closed.

Implicit Types (h ext : heap) (v x : value) (k : string).

Lemma closed_extend h ext v : closed h v -> closed (h ++ ext) v.
Proof. destruct v; simpl; try done. rewrite length_app. lia. Qed.

Lemma lookup_extend h ext (l : loc) : (l < List.length h)%nat -> (h ++ ext) !! l = h !! l.
Proof. intros. by apply lookup_app_l. Qed.

Lemma get_prop_extend h ext v k :
  closed h v -> get_prop (h ++ ext) v k = get_prop h v k.
Proof.
  intros Hc. apply get_prop_agree. intros l ->. by apply lookup_extend.
Qed.

Lemma own_entries_extend h ext v :
  closed h v -> own_entries (h ++ ext) v = own_entries h v.
Proof.
  intros Hc. apply own_entries_agree. intros l ->. by apply lookup_extend.
Qed.

Lemma spread_extend h ext target v :
  closed h v -> spread (h ++ ext) target v = spread h target v.
Proof. intros Hc. unfold spread. by rewrite own_entries_extend. Qed.

Lemma inherited_closed h chain k : closed h (inherited chain k).
Proof.
  unfold inherited. destruct (decide _).
  - by destruct chain.
  - destruct (List.find _ _); [|done]. unfold member_value. by destruct (decide _).
Qed.

Lemma assoc_Forall (P : value -> Prop) k (props : list (string * value)) x :
  Forall (fun kv => P kv.2) props -> assoc k props = Some x -> P x.
Proof.
  induction 1 as [|[k' v'] rest Hv _ IH]; simpl; [done|].
  destruct (decide (k = k')); [by intros [= <-]|done].
Qed.

Lemma get_prop_closed h v k x :
  heap_closed h -> closed h v -> get_prop h v k = Ret x -> closed h x.
Proof.
  intros Hh Hv. unfold get_prop. destruct v; try done.
  - intros [= <-]. apply inherited_closed.
  - intros [= <-]. apply inherited_closed.
  - intros [= <-]. unfold str_get. destruct (decide _); [done|].
    destruct (array_index k ≫= elem_at (chars s)) as [c|] eqn:E;
      [|apply inherited_closed].
    destruct (array_index k) as [i|]; [|done]. simpl in E.
    unfold elem_at, chars in E. apply list_lookup_fmap_Some in E as (? & -> & ?).
    done.
  - intros [= <-].
    destruct (h !! l) as [[props|elems]|] eqn:E; [| |done].
    + unfold heap_closed in Hh. rewrite Forall_lookup in Hh.
      specialize (Hh l _ E). simpl in Hh. unfold obj_get.
      destruct (assoc k props) eqn:Ea; [|apply inherited_closed].
      eapply (assoc_Forall (closed h)); eauto.
    + unfold heap_closed in Hh. rewrite Forall_lookup in Hh.
      specialize (Hh l _ E). simpl in Hh. unfold arr_get.
      destruct (decide _); [done|].
      destruct (array_index k ≫= elem_at elems) as [c|] eqn:Ei;
        [|apply inherited_closed].
      destruct (array_index k) as [i|]; [|done]. simpl in Ei.
      unfold elem_at in Ei. rewrite Forall_lookup in Hh. eapply Hh, Ei.
  - intros [= <-]. unfold builtin_get. by destruct (bool_decide _).
Qed.

Lemma deep_extend n h ext v :
  heap_closed h -> closed h v -> deep n (h ++ ext) v = deep n h v.
Proof.
  intros Hh. revert v. induction n as [|n IH]; intros v Hv; destruct v; try done.
  simpl in Hv. simpl. rewrite lookup_extend by done.
  destruct (h !! l) as [[props|elems]|] eqn:E; [| |done].
  - f_equal. unfold heap_closed in Hh. rewrite Forall_lookup in Hh.
    specialize (Hh l _ E). simpl in Hh.
    apply Forall_fmap_ext_1. eapply Forall_impl; [exact Hh|].
    intros [k x] Hx. simpl in *. by rewrite IH.
  - f_equal. unfold heap_closed in Hh. rewrite Forall_lookup in Hh.
    specialize (Hh l _ E). simpl in Hh.
    apply Forall_fmap_ext_1. eapply Forall_impl; [exact Hh|].
    intros x Hx. by rewrite IH.
Qed.

End Closed.

(** ** [mergeConfigs] is pure *)

Section Purity.

Implicit Types (h ext : heap) (v x : value) (k : string).

Lemma fresh_get_thresholds h :
  get_prop (h ++ [Obj []]) (VRef (List.length h)) "thresholds" = Ret VUndefined.
Proof.
  unfold get_prop. rewrite lookup_app_r by lia. by rewrite Nat.sub_diag.
Qed.

Lemma fresh_spread h target :
  spread (h ++ [Obj []]) target (VRef (List.length h)) = target.
Proof.
  unfold spread, own_entries. rewrite lookup_app_r by lia.
  by rewrite Nat.sub_diag.
Qed.

Lemma fmap_obj_replace {B} (f : value -> B) k v1 v2 (ps : list (string * value)) :
  f v1 = f v2 ->
  (fun kv => (kv.1, f kv.2)) <$> obj_replace k v1 ps =
  (fun kv => (kv.1, f kv.2)) <$> obj_replace k v2 ps.
Proof.
  intros Hf. induction ps as [|[k' v'] rest IH]; cbn [obj_replace]; [done|].
  destruct (decide (k = k')); rewrite !fmap_cons; cbn [fst snd];
    [by rewrite Hf|by rewrite IH].
Qed.

Lemma fmap_obj_insert {B} (f : value -> B) k v1 v2 (ps : list (string * value)) :
  f v1 = f v2 ->
  (fun kv => (kv.1, f kv.2)) <$> obj_insert k v1 ps =
  (fun kv => (kv.1, f kv.2)) <$> obj_insert k v2 ps.
Proof.
  intros Hf. induction ps as [|[k' v'] rest IH]; cbn [obj_insert].
  - rewrite !fmap_cons. cbn [fst snd]. by rewrite Hf.
  - destruct (array_index k), (array_index k'); try destruct (_ <? _);
      rewrite !fmap_cons; cbn [fst snd]; rewrite ?Hf, ?IH; done.
Qed.

Lemma fmap_obj_set {B} (f : value -> B) k v1 v2 (ps : list (string * value)) :
  f v1 = f v2 ->
  (fun kv => (kv.1, f kv.2)) <$> obj_set k v1 ps =
  (fun kv => (kv.1, f kv.2)) <$> obj_set k v2 ps.
Proof.
  intros Hf. unfold obj_set. destruct (assoc k ps).
  - by apply fmap_obj_replace.
  - by apply fmap_obj_insert.
Qed.

(** Two results built from the same properties, each with its own copy of
    the same [thresholds] object, are deep-equal. *)
Lemma results_deep_equal h1 mid th merged n :
  let h1' := (h1 ++ [Obj th; Obj (obj_set "thresholds" (VRef (List.length h1)) merged)])
             ++ mid in
  let hb := h1' ++ [Obj th; Obj (obj_set "thresholds" (VRef (List.length h1')) merged)] in
  deep n hb (VRef (S (List.length h1))) = deep n hb (VRef (S (List.length h1'))).
Proof.
  intros h1' hb.
  destruct (lookup_fresh h1 (Obj th)
              (Obj (obj_set "thresholds" (VRef (List.length h1)) merged))) as [Ea1 Ea2].
  destruct (lookup_fresh h1' (Obj th)
              (Obj (obj_set "thresholds" (VRef (List.length h1')) merged))) as [Eb1 Eb2].
  fold hb in Eb1, Eb2.
  assert (Hold : forall l o, (h1 ++ [Obj th; Obj (obj_set "thresholds"
                                 (VRef (List.length h1)) merged)]) !! l = Some o ->
                             hb !! l = Some o).
  { intros l o Hl. unfold hb, h1'.
    do 2 (apply lookup_app_l_Some). exact Hl. }
  apply Hold in Ea1, Ea2.
  assert (Hth : forall m, deep m hb (VRef (List.length h1))
                          = deep m hb (VRef (List.length h1'))).
  { intros [|m]; [done|]. simpl. by rewrite Ea1, Eb1. }
  destruct n as [|n]; [done|]. simpl. rewrite Ea2, Eb2.
  f_equal. apply fmap_obj_set, Hth.
Qed.

End Purity.

(** What a call of [mergeConfigs] does depends on the store it starts
    from only through the objects reachable from its arguments: started
    from any extension of a closed store, it throws the same exception or
    builds the same properties, after allocating the same objects. *)
Lemma mergeConfigs_summary testSuites endpoint name h :
  heap_closed h -> closed h testSuites -> closed h endpoint ->
  exists (res : outcome (list (string * value) * list (string * value))) (mid : heap),
    forall ext tr,
      TestSuites.mergeConfigs testSuites endpoint name
        {| st_heap := h ++ ext; st_trace := tr |}
      = match res with
        | Throw e => (Throw e, {| st_heap := (h ++ ext) ++ mid; st_trace := tr |})
        | Ret (th, merged) =>
            let h1 := (h ++ ext) ++ mid in
            (Ret (VRef (S (List.length h1))),
             {| st_heap :=
                  h1 ++ [Obj th;
                         Obj (obj_set "thresholds" (VRef (List.length h1)) merged)];
                st_trace := tr |})
        end.
Proof.
  intros Hh Hts He.
  destruct (get_prop h testSuites name) as [testSuite|e] eqn:E1.
  2: { exists (Throw e), []. intros ext tr. rewrite mergeConfigs_unfold. cbv zeta.
       cbn [st_heap st_trace]. rewrite get_prop_extend, E1 by done.
       by rewrite app_nil_r. }
  pose proof (get_prop_closed _ _ _ _ Hh Hts E1) as Hsuite.
  destruct (truthy testSuite) eqn:Etruthy.
  2: { exists (Throw (TestSuites.UnknownSuite name)), []. intros ext tr.
       rewrite mergeConfigs_unfold. cbv zeta.
       cbn [st_heap st_trace]. rewrite get_prop_extend, E1, Etruthy by done.
       by rewrite app_nil_r. }
  destruct (get_prop h endpoint "testConfig") as [tc|e] eqn:E2.
  2: { exists (Throw e), []. intros ext tr. rewrite mergeConfigs_unfold. cbv zeta.
       cbn [st_heap st_trace].
       rewrite get_prop_extend, E1, Etruthy by done.
       rewrite get_prop_extend, E2 by done.
       by rewrite app_nil_r. }
  pose proof (get_prop_closed _ _ _ _ Hh He E2) as Htc.
  destruct (if nullish tc then Ret VUndefined else get_prop h tc name)
    as [ov|e] eqn:E3.
  2: { exists (Throw e), []. intros ext tr. rewrite mergeConfigs_unfold. cbv zeta.
       cbn [st_heap st_trace].
       rewrite get_prop_extend, E1, Etruthy by done.
       rewrite get_prop_extend, E2 by done.
       rewrite (get_prop_extend h ext tc) by done. rewrite E3.
       by rewrite app_nil_r. }
  assert (Hov : closed h ov).
  { destruct (nullish tc); [by injection E3 as <-|].
    eapply get_prop_closed; eauto. }
  destruct (get_prop h testSuite "config") as [config|e] eqn:E4.
  2: { exists (Throw e), (if truthy ov then [] else [Obj []]). intros ext tr.
       rewrite mergeConfigs_unfold. cbv zeta. cbn [st_heap st_trace].
       rewrite get_prop_extend, E1, Etruthy by done.
       rewrite get_prop_extend, E2 by done.
       rewrite (get_prop_extend h ext tc) by done. rewrite E3.
       destruct (truthy ov); cbn [st_heap st_trace].
       - rewrite get_prop_extend, E4 by done. by rewrite app_nil_r.
       - rewrite <- app_assoc. by rewrite get_prop_extend, E4 by done. }
  pose proof (get_prop_closed _ _ _ _ Hh Hsuite E4) as Hconfig.
  destruct (get_prop h config "thresholds") as [sth|e] eqn:E5.
  2: { exists (Throw e), (if truthy ov then [] else [Obj []]). intros ext tr.
       rewrite mergeConfigs_unfold. cbv zeta. cbn [st_heap st_trace].
       rewrite get_prop_extend, E1, Etruthy by done.
       rewrite get_prop_extend, E2 by done.
       rewrite (get_prop_extend h ext tc) by done. rewrite E3.
       destruct (truthy ov); cbn [st_heap st_trace].
       - rewrite get_prop_extend, E4 by done.
         rewrite get_prop_extend, E5 by done. by rewrite app_nil_r.
       - rewrite <- app_assoc. rewrite get_prop_extend, E4 by done.
         by rewrite get_prop_extend, E5 by done. }
  pose proof (get_prop_closed _ _ _ _ Hh Hconfig E5) as Hsth.
  destruct (truthy ov) eqn:Eov.
  - destruct (get_prop h ov "thresholds") as [eth|e] eqn:E6.
    2: { exists (Throw e), []. intros ext tr.
         rewrite mergeConfigs_unfold. cbv zeta. cbn [st_heap st_trace].
         rewrite get_prop_extend, E1, Etruthy by done.
         rewrite get_prop_extend, E2 by done.
         rewrite (get_prop_extend h ext tc) by done. rewrite E3, Eov.
         cbn [st_heap st_trace].
         rewrite get_prop_extend, E4 by done.
         rewrite get_prop_extend, E5 by done.
         rewrite get_prop_extend, E6 by done. by rewrite app_nil_r. }
    pose proof (get_prop_closed _ _ _ _ Hh Hov E6) as Heth.
    exists (Ret (spread h (spread h [] sth) eth, spread h (spread h [] config) ov)), [].
    intros ext tr.
    rewrite mergeConfigs_unfold. cbv zeta. cbn [st_heap st_trace].
    rewrite get_prop_extend, E1, Etruthy by done.
    rewrite get_prop_extend, E2 by done.
    rewrite (get_prop_extend h ext tc) by done. rewrite E3, Eov.
    cbn [st_heap st_trace].
    rewrite get_prop_extend, E4 by done.
    rewrite get_prop_extend, E5 by done.
    rewrite get_prop_extend, E6 by done.
    rewrite !spread_extend by done. by rewrite app_nil_r.
  - exists (Ret (spread h (spread h [] sth) VUndefined, spread h [] config)), [Obj []].
    intros ext tr.
    rewrite mergeConfigs_unfold. cbv zeta. cbn [st_heap st_trace].
    rewrite get_prop_extend, E1, Etruthy by done.
    rewrite get_prop_extend, E2 by done.
    rewrite (get_prop_extend h ext tc) by done. rewrite E3, Eov.
    cbn [st_heap st_trace].
    rewrite (get_prop_extend (h ++ ext) [Obj []] testSuite) by (by apply closed_extend).
    rewrite get_prop_extend, E4 by done.
    rewrite (get_prop_extend (h ++ ext) [Obj []] config) by (by apply closed_extend).
    rewrite get_prop_extend, E5 by done.
    rewrite fresh_get_thresholds, fresh_spread.
    rewrite !(spread_extend (h ++ ext) [Obj []]) by (by apply closed_extend).
    rewrite !spread_extend by done. done.
Qed.

(** C8. [mergeConfigs] is a pure function of its arguments and of the
    objects they reach: a call writes nothing to the trace, leaves every
    object of the store as it was (in particular the endpoint and the
    suite registry), and a second call with the same arguments ends the
    same way, with the same exception or with a deep-equal result. *)
Theorem mergeConfigs_pure testSuites endpoint name st :
  heap_closed (st_heap st) ->
  closed (st_heap st) testSuites ->
  closed (st_heap st) endpoint ->
  let first := TestSuites.mergeConfigs testSuites endpoint name st in
  let second := TestSuites.mergeConfigs testSuites endpoint name first.2 in
  st_trace first.2 = st_trace st /\
  st_heap st `prefix_of` st_heap first.2 /\
  (forall n, deep n (st_heap first.2) endpoint = deep n (st_heap st) endpoint) /\
  (forall n, deep n (st_heap first.2) testSuites = deep n (st_heap st) testSuites) /\
  match first.1, second.1 with
  | Ret r1, Ret r2 =>
      forall n, deep n (st_heap second.2) r1 = deep n (st_heap second.2) r2
  | Throw e1, Throw e2 => e1 = e2
  | _, _ => False
  end.
Proof.
  destruct st as [h tr]. cbn [st_heap st_trace]. intros Hh Hts He.
  destruct (mergeConfigs_summary testSuites endpoint name h Hh Hts He)
    as (res & mid & Hrun).
  pose proof (Hrun [] tr) as H1. rewrite app_nil_r in H1.
  rewrite H1. destruct res as [[th merged]|e].
  - cbv zeta. cbn [fst snd st_heap st_trace].
    rewrite <- (app_assoc h mid).
    rewrite (Hrun _ tr). cbv zeta. cbn [fst snd st_heap st_trace].
    split; [done|]. split; [by apply prefix_app_r|].
    split; [intros n; by apply deep_extend|].
    split; [intros n; by apply deep_extend|].
    intros n. rewrite (app_assoc h mid). apply results_deep_equal.
  - cbn [fst snd st_heap st_trace]. rewrite (Hrun mid tr).
    cbn [fst snd st_heap st_trace].
    split; [done|]. split; [by apply prefix_app_r|].
    split; [intros n; by apply deep_extend|].
    split; [intros n; by apply deep_extend|]. done.
Qed.

Lemma mergeConfigs_pure_witness :
  heap_closed (st_heap tuned_state) /\
  closed (st_heap tuned_state) Program.testSuites /\
  closed (st_heap tuned_state) tuned /\
  let first := TestSuites.mergeConfigs Program.testSuites tuned "load" tuned_state in
  let second := TestSuites.mergeConfigs Program.testSuites tuned "load" first.2 in
  st_trace first.2 = st_trace tuned_state /\
  st_heap tuned_state `prefix_of` st_heap first.2 /\
  (forall n, deep n (st_heap first.2) tuned = deep n (st_heap tuned_state) tuned) /\
  (forall n, deep n (st_heap first.2) Program.testSuites
             = deep n (st_heap tuned_state) Program.testSuites) /\
  match first.1, second.1 with
  | Ret r1, Ret r2 =>
      forall n, deep n (st_heap second.2) r1 = deep n (st_heap second.2) r2
  | Throw e1, Throw e2 => e1 = e2
  | _, _ => False
  end.
Proof.
  assert (Hh : heap_closed (st_heap tuned_state)) by by_computation.
  assert (Hts : closed (st_heap tuned_state) Program.testSuites) by by_computation.
  assert (He : closed (st_heap tuned_state) tuned) by by_computation.
  split; [exact Hh|]. split; [exact Hts|]. split; [exact He|].
  exact (mergeConfigs_pure Program.testSuites tuned "load" tuned_state Hh Hts He).
Defined.

(** The two results of the example are distinct objects. *)
Example merge_twice_distinct :
  let first := TestSuites.mergeConfigs Program.testSuites tuned "load" tuned_state in
  let second := TestSuites.mergeConfigs Program.testSuites tuned "load" first.2 in
  first.1 <> second.1 /\
  (exists r1 r2, first.1 = Ret r1 /\ second.1 = Ret r2 /\
                 tree_of (st_heap second.2) r1 = tree_of (st_heap second.2) r2).
Proof.
  split; [vm_compute; discriminate|].
  do 2 eexists. split; [vm_compute; reflexivity|].
  split; [vm_compute; reflexivity|]. vm_compute. reflexivity.
Qed.

(** ** The batch runner: selecting a batch *)

Section Batches.

Variable env : environment.

Lemma String_of_VStr h s : String_of h (VStr s) = s.
Proof. unfold String_of. by destruct (List.length h). Qed.

Lemma or_else_env name default :
  or_else (env_get env name) (VStr default) = VStr (override_or env name default).
Proof.
  unfold or_else, env_get, override_or. destruct (env name) as [s|]; [|done].
  cbn [truthy].
  by destruct (decide (s = EmptyString));
    [rewrite bool_decide_eq_true_2|rewrite bool_decide_eq_false_2].
Qed.

(** The [custom] entry, on any state. *)
Lemma custom_batch_run st :
  BatchRunner.custom_batch env st =
  (Ret (VRef (S (List.length (st_heap st)))),
   {| st_heap :=
        st_heap st ++
        [Arr (VStr <$> split (override_or env "BATCH_ENDPOINTS" "users-me,health-check") ",");
         Obj [("name", VStr "Custom Batch Test");
              ("description", VStr "Custom endpoint and test suite combination");
              ("endpoints", VRef (List.length (st_heap st)));
              ("testSuite", VStr (override_or env "BATCH_TEST_SUITE" "load"));
              ("parallel", VBool (bool_decide (env "BATCH_PARALLEL" = Some "true")));
              ("maxConcurrent", VNum (parseInt (override_or env "BATCH_MAX_CONCURRENT" "2")));
              ("delayBetweenEndpoints", VNum (parseInt (override_or env "BATCH_DELAY" "5")))]];
      st_trace := st_trace st |}).
Proof.
  unfold BatchRunner.custom_batch, BatchRunner.String_split, BatchRunner.parseInt_of.
  rewrite !or_else_env.
  assert (Hpar : strict_eq (env_get env "BATCH_PARALLEL") (VStr "true")
                 = bool_decide (env "BATCH_PARALLEL" = Some "true")).
  { unfold env_get. destruct (env "BATCH_PARALLEL") as [s|]; [|done].
    unfold strict_eq. apply bool_decide_ext. split; congruence. }
  rewrite Hpar.
  assert (Hsplit : forall st',
    (if truthy (env_get env "BATCH_ENDPOINTS")
     then let* s := read (fun h => String_of h (env_get env "BATCH_ENDPOINTS")) in
          alloc (Arr (VStr <$> split s ","))
     else alloc (Arr [VStr "users-me"; VStr "health-check"])) st'
    = alloc (Arr (VStr <$> split (override_or env "BATCH_ENDPOINTS"
                                    "users-me,health-check") ",")) st').
  { intros st'. unfold env_get, override_or.
    destruct (env "BATCH_ENDPOINTS") as [s|]; [|done].
    cbn [truthy]. destruct (decide (s = EmptyString)).
    - by rewrite bool_decide_eq_true_2.
    - rewrite bool_decide_eq_false_2 by done. cbn [negb].
      unfold bind, read, alloc. cbn [st_heap st_trace].
      by rewrite String_of_VStr. }
  unfold bind at 1. rewrite Hsplit.
  unfold bind, read, alloc, ret. cbn [st_heap st_trace].
  rewrite !String_of_VStr, length_app, <- app_assoc. cbn [List.length].
  do 3 f_equal. lia.
Qed.

Lemma fixed_batches_boot :
  fixed_batches Program.boot = (Ret fixed_refs, fixed_state).
Proof. vm_compute. reflexivity. Qed.

Lemma batchConfig_fixed st :
  BatchRunner.batchConfig Program.endpoints env st =
  (let* refs := fixed_batches in
   let* custom := BatchRunner.custom_batch env in
   alloc (Obj [("smoke", refs.1.1);
               ("getEndpointsLoad", refs.1.2);
               ("postEndpointsStress", refs.2);
               ("custom", custom)])) st.
Proof.
  unfold BatchRunner.batchConfig, fixed_batches, bind, ret.
  destruct (BatchRunner.smoke_batch Program.endpoints st) as [[a|e] st1]; [|done].
  destruct (BatchRunner.getEndpointsLoad_batch Program.endpoints st1)
    as [[b|e] st2]; [|done].
  destruct (BatchRunner.postEndpointsStress_batch Program.endpoints st2)
    as [[c|e] st3]; [|done].
  done.
Qed.

Lemma batchConfig_boot :
  BatchRunner.batchConfig Program.endpoints env Program.boot =
  (Ret (VRef (S (S (List.length (st_heap fixed_state))))),
   {| st_heap := config_heap env; st_trace := [] |}).
Proof.
  rewrite batchConfig_fixed. unfold bind at 1. rewrite fixed_batches_boot.
  unfold bind. rewrite custom_batch_run. unfold alloc. cbn [st_heap st_trace].
  unfold config_heap. rewrite length_app, <- app_assoc. cbn [List.length].
  do 3 f_equal; lia.
Qed.

Lemma batchKey_override :
  BatchRunner.batchKey env = VStr (override_or env "BATCH_CONFIG" "smoke").
Proof. apply or_else_env. Qed.

Lemma config_object :
  config_heap env !! S (S (List.length (st_heap fixed_state))) =
  Some (Obj [("smoke", fixed_refs.1.1);
             ("getEndpointsLoad", fixed_refs.1.2);
             ("postEndpointsStress", fixed_refs.2);
             ("custom", VRef (S (List.length (st_heap fixed_state))))]).
Proof.
  unfold config_heap. rewrite lookup_app_r by lia.
  by replace (S (S (List.length (st_heap fixed_state))) - List.length (st_heap fixed_state))%nat
    with 2%nat by lia.
Qed.

Lemma batch_selected :
  let key := override_or env "BATCH_CONFIG" "smoke" in
  truthy (config_entry key) = true ->
  BatchRunner.batch Program.endpoints env Program.boot =
  (Ret (config_entry key), {| st_heap := config_heap env; st_trace := [] |}).
Proof.
  intros key Htruthy. unfold BatchRunner.batch. unfold bind at 1.
  rewrite batchConfig_boot. unfold bind, read, get. cbn [st_heap st_trace].
  rewrite batchKey_override, String_of_VStr. fold key.
  unfold get_prop. rewrite config_object.
  fold (config_entry key). by rewrite Htruthy.
Qed.

Lemma batch_unknown :
  let key := override_or env "BATCH_CONFIG" "smoke" in
  truthy (config_entry key) = false ->
  BatchRunner.batch Program.endpoints env Program.boot =
  (Throw (BatchRunner.UnknownBatch key
            "smoke, getEndpointsLoad, postEndpointsStress, custom"),
   {| st_heap := config_heap env ++ [Arr (VStr <$> batch_names)];
      st_trace := [] |}).
Proof.
  intros key Hfalsy. unfold BatchRunner.batch. unfold bind at 1.
  rewrite batchConfig_boot. unfold bind, read, get. cbn [st_heap st_trace].
  rewrite batchKey_override, String_of_VStr. fold key.
  unfold get_prop at 1. rewrite config_object.
  fold (config_entry key). rewrite Hfalsy. cbn [negb].
  unfold Object_keys. cbn [nullish]. unfold bind, read, alloc. cbn [st_heap st_trace].
  unfold own_entries. rewrite config_object.
  unfold Array_join, bind, read, throw. cbn [st_heap st_trace].
  rewrite lookup_app_r by lia. rewrite Nat.sub_diag. cbn [lookup list_lookup].
  do 2 f_equal.
Qed.

End Batches.

Section Plans.

Lemma plan_env_other name env var :
  var <> "BATCH_CONFIG" -> plan_env name env var = env var.
Proof. intros. unfold plan_env. by destruct (decide _). Qed.

Lemma plan_key name env :
  override_or (plan_env name env) "BATCH_CONFIG" "smoke"
  = if decide (name = EmptyString) then "smoke" else name.
Proof. reflexivity. Qed.

Lemma config_heap_plan_env name env :
  config_heap (plan_env name env) = config_heap env.
Proof. reflexivity. Qed.

Lemma deep_ref n h l :
  deep (S n) h (VRef l) =
  match h !! l with
  | Some (Obj props) => TObj ((fun kv => (kv.1, deep n h kv.2)) <$> props)
  | Some (Arr elems) => TArr (deep n h <$> elems)
  | None => TUndefined
  end.
Proof. reflexivity. Qed.

Lemma deep_VStr n h s : deep n h (VStr s) = TStr s.
Proof. by destruct n. Qed.

Lemma deep_VBool n h b : deep n h (VBool b) = TBool b.
Proof. by destruct n. Qed.

Lemma deep_VNum n h x : deep n h (VNum x) = TNum x.
Proof. by destruct n. Qed.

Lemma deep_strings n h (l : list string) :
  deep n h <$> (VStr <$> l) = TStr <$> l.
Proof.
  rewrite <- list_fmap_compose. apply list_fmap_ext. intros _ s _. by destruct n.
Qed.

Lemma config_custom_keys env :
  config_heap env !! List.length (st_heap fixed_state) =
  Some (Arr (VStr <$> split (override_or env "BATCH_ENDPOINTS"
                               "users-me,health-check") ",")).
Proof.
  unfold config_heap. rewrite lookup_app_r by lia. by rewrite Nat.sub_diag.
Qed.

Lemma config_custom_object env :
  config_heap env !! S (List.length (st_heap fixed_state)) =
  Some (Obj [("name", VStr "Custom Batch Test");
             ("description", VStr "Custom endpoint and test suite combination");
             ("endpoints", VRef (List.length (st_heap fixed_state)));
             ("testSuite", VStr (override_or env "BATCH_TEST_SUITE" "load"));
             ("parallel", VBool (bool_decide (env "BATCH_PARALLEL" = Some "true")));
             ("maxConcurrent", VNum (parseInt (override_or env "BATCH_MAX_CONCURRENT" "2")));
             ("delayBetweenEndpoints", VNum (parseInt (override_or env "BATCH_DELAY" "5")))]).
Proof.
  unfold config_heap. rewrite lookup_app_r by lia.
  by replace (S (List.length (st_heap fixed_state)) - List.length (st_heap fixed_state))%nat
    with 1%nat by lia.
Qed.

(** The [custom] batch as selected by the runner, for any overrides. *)
Lemma custom_batch_selected env :
  exists b st',
    BatchRunner.batch Program.endpoints (plan_env "custom" env) Program.boot
      = (Ret b, st') /\
    st_trace st' = [] /\
    tree_of (st_heap st') b =
      TObj [("name", TStr "Custom Batch Test");
            ("description", TStr "Custom endpoint and test suite combination");
            ("endpoints",
             strs (split (override_or env "BATCH_ENDPOINTS" "users-me,health-check") ","));
            ("testSuite", TStr (override_or env "BATCH_TEST_SUITE" "load"));
            ("parallel", TBool (bool_decide (env "BATCH_PARALLEL" = Some "true")));
            ("maxConcurrent", TNum (parseInt (override_or env "BATCH_MAX_CONCURRENT" "2")));
            ("delayBetweenEndpoints", TNum (parseInt (override_or env "BATCH_DELAY" "5")))].
Proof.
  do 2 eexists. split; [|split].
  - apply batch_selected. rewrite plan_key. reflexivity.
  - reflexivity.
  - cbn [st_heap]. rewrite plan_key, config_heap_plan_env.
    change (config_entry (if decide ("custom" = EmptyString) then "smoke" else "custom"))
      with (VRef (S (List.length (st_heap fixed_state)))).
    unfold tree_of.
    replace (List.length (config_heap env))
      with (S (S (S (List.length (st_heap fixed_state)))))
      by (unfold config_heap; rewrite length_app; cbn [List.length]; lia).
    generalize (S (S (List.length (st_heap fixed_state)))) at 1. intros m.
    rewrite deep_ref, config_custom_object. cbn [fmap list_fmap fst snd].
    rewrite deep_ref, config_custom_keys, deep_strings.
    by rewrite !deep_VStr, deep_VBool, !deep_VNum.
Qed.

(** C4. The [custom] batch takes its endpoint keys, suite, mode, delay
    and concurrency cap from the environment, each with its default when
    the variable is not set (or empty): [users-me,health-check], [load],
    sequential, 5 and 2. With [BATCH_ENDPOINTS=a,b] and
    [BATCH_TEST_SUITE=load] the keys are exactly [a] and [b] and the suite
    is [load]. *)
Theorem custom_plan :
  (forall env, exists b st',
      BatchRunner.batch Program.endpoints (plan_env "custom" env) Program.boot
        = (Ret b, st') /\
      tree_of (st_heap st') b =
        TObj [("name", TStr "Custom Batch Test");
              ("description", TStr "Custom endpoint and test suite combination");
              ("endpoints",
               strs (split (override_or env "BATCH_ENDPOINTS" "users-me,health-check") ","));
              ("testSuite", TStr (override_or env "BATCH_TEST_SUITE" "load"));
              ("parallel", TBool (bool_decide (env "BATCH_PARALLEL" = Some "true")));
              ("maxConcurrent", TNum (parseInt (override_or env "BATCH_MAX_CONCURRENT" "2")));
              ("delayBetweenEndpoints", TNum (parseInt (override_or env "BATCH_DELAY" "5")))]) /\
  (exists b st',
      BatchRunner.batch Program.endpoints (plan_env "custom" (env_of [])) Program.boot
        = (Ret b, st') /\
      tree_of (st_heap st') b =
        TObj [("name", TStr "Custom Batch Test");
              ("description", TStr "Custom endpoint and test suite combination");
              ("endpoints", strs ["users-me"; "health-check"]);
              ("testSuite", TStr "load");
              ("parallel", TBool false);
              ("maxConcurrent", num 2);
              ("delayBetweenEndpoints", num 5)]) /\
  (exists b st',
      BatchRunner.batch Program.endpoints
        (plan_env "custom" (env_of [("BATCH_ENDPOINTS", "a,b"); ("BATCH_TEST_SUITE", "load")]))
        Program.boot = (Ret b, st') /\
      tree_of (st_heap st') b =
        TObj [("name", TStr "Custom Batch Test");
              ("description", TStr "Custom endpoint and test suite combination");
              ("endpoints", strs ["a"; "b"]);
              ("testSuite", TStr "load");
              ("parallel", TBool false);
              ("maxConcurrent", num 2);
              ("delayBetweenEndpoints", num 5)]).
Proof.
  split; [|split].
  - intros env. destruct (custom_batch_selected env) as (b & st' & Hrun & _ & Htree).
    exists b, st'. split; assumption.
  - do 2 eexists. split; vm_compute; reflexivity.
  - do 2 eexists. split; vm_compute; reflexivity.
Qed.

(** The values of the overrides: the variable when it is set and not
    empty, the default otherwise; a decimal numeral is read as its value. *)
Lemma override_or_set env name default s :
  env name = Some s -> s <> EmptyString -> override_or env name default = s.
Proof. intros H Hs. unfold override_or. rewrite H. by destruct (decide _). Qed.

Lemma override_or_unset env name default :
  env name = None -> override_or env name default = default.
Proof. intros H. unfold override_or. by rewrite H. Qed.

(** C3 (as amended). The batch named [smoke], which is also the default
    when [BATCH_CONFIG] is not set, lists every key of the endpoint
    registry exactly once, in the order of the registry, with the suite
    [smoke], sequential mode and a delay of 5 seconds, whatever the other
    overrides. *)
Theorem smoke_plan env :
  (exists b st',
      BatchRunner.batch Program.endpoints (plan_env "smoke" env) Program.boot
        = (Ret b, st') /\
      tree_of (st_heap st') b =
        TObj [("name", TStr "Smoke Test All Endpoints");
              ("description", TStr "Quick validation of all endpoints");
              ("endpoints", strs endpoint_keys);
              ("testSuite", TStr "smoke");
              ("parallel", TBool false);
              ("delayBetweenEndpoints", num 5)]) /\
  BatchRunner.batch Program.endpoints (plan_env "" env) Program.boot
    = BatchRunner.batch Program.endpoints (plan_env "smoke" env) Program.boot /\
  NoDup endpoint_keys /\
  endpoint_keys = ["users-me"; "client-configs"; "health-check";
                   "create-user"; "update-user"; "auth/signin"].
Proof.
  split; [|split; [|split]].
  - do 2 eexists. split.
    + apply batch_selected. rewrite plan_key. reflexivity.
    + rewrite plan_key, config_heap_plan_env. vm_compute. reflexivity.
  - rewrite !batch_selected by (rewrite plan_key; reflexivity).
    rewrite !plan_key, !config_heap_plan_env. reflexivity.
  - by_computation.
  - reflexivity.
Qed.

(** C3, as stated: the name [smoke-all] is not a batch of the runner. *)
Lemma smoke_all_rejected :
  (BatchRunner.batch Program.endpoints (plan_env "smoke-all" (env_of [])) Program.boot).1
  = Throw (BatchRunner.UnknownBatch "smoke-all"
             "smoke, getEndpointsLoad, postEndpointsStress, custom") /\
  ~ exists b st',
      BatchRunner.batch Program.endpoints (plan_env "smoke-all" (env_of [])) Program.boot
      = (Ret b, st').
Proof.
  assert (H : (BatchRunner.batch Program.endpoints (plan_env "smoke-all" (env_of []))
                 Program.boot).1
              = Throw (BatchRunner.UnknownBatch "smoke-all"
                         "smoke, getEndpointsLoad, postEndpointsStress, custom"))
    by (vm_compute; reflexivity).
  split; [exact H|]. intros (b & st' & Hrun). rewrite Hrun in H. discriminate H.
Qed.

Lemma config_entry_unknown name :
  name ∉ batch_names -> name ∉ members Object_prototype ->
  config_entry name = VUndefined.
Proof.
  intros Hname Hproto. unfold config_entry.
  unfold obj_get.
  assert (Hnone : assoc name
                    [("smoke", fixed_refs.1.1);
                     ("getEndpointsLoad", fixed_refs.1.2);
                     ("postEndpointsStress", fixed_refs.2);
                     ("custom", VRef (S (List.length (st_heap fixed_state))))] = None).
  { apply assoc_None_keys. exact Hname. }
  rewrite Hnone. unfold inherited.
  destruct (decide (name = "__proto__")) as [->|_].
  - exfalso. apply Hproto. by_computation.
  - cbn [List.find]. rewrite bool_decide_eq_false_2 by done. reflexivity.
Qed.

(** The validation of the wrapper script refuses every name but the four,
    prints the alternatives and exits with code 1. *)
Lemma validate_batch_config_rejects name :
  name ∉ batch_names ->
  Shell.validate_batch_config name =
  (["[ERROR] Invalid batch configuration: " +:+ name;
    "";
    "Available batch configurations:";
    "  smoke              - Smoke test all endpoints";
    "  getEndpointsLoad   - Load test all GET endpoints";
    "  postEndpointsStress - Stress test all POST endpoints";
    "  custom             - Custom configuration"],
   Shell.Exits 1).
Proof.
  intros H. unfold Shell.validate_batch_config.
  by rewrite bool_decide_eq_false_2.
Qed.

(** C5 (as amended). A batch name that is not empty, is none of [smoke],
    [getEndpointsLoad], [postEndpointsStress], [custom] and is not a member
    of [Object.prototype] makes the load of the runner fail with
    [UnknownBatch], whose message lists the four names, before anything is
    sent to the engine; the validation of the wrapper script refuses it as
    well, prints the alternatives and exits with code 1. *)
Theorem unknown_batch_rejected name env :
  name <> EmptyString ->
  name ∉ batch_names ->
  name ∉ members Object_prototype ->
  let unknown := BatchRunner.UnknownBatch name
                   "smoke, getEndpointsLoad, postEndpointsStress, custom" in
  (exists st',
      BatchRunner.batch Program.endpoints (plan_env name env) Program.boot
        = (Throw unknown, st') /\
      st_trace st' = []) /\
  (exists st',
      BatchRunner.module Program.endpoints Program.testSuites (plan_env name env)
        Program.boot = (Throw unknown, st') /\
      st_trace st' = []) /\
  (Shell.validate_batch_config name).2 = Shell.Exits 1.
Proof.
  intros Hne Hname Hproto unknown.
  assert (Hkey : override_or (plan_env name env) "BATCH_CONFIG" "smoke" = name).
  { rewrite plan_key. by destruct (decide _). }
  assert (Hrun : BatchRunner.batch Program.endpoints (plan_env name env) Program.boot
                 = (Throw unknown,
                    {| st_heap := config_heap env ++ [Arr (VStr <$> batch_names)];
                       st_trace := [] |})).
  { rewrite batch_unknown.
    - rewrite Hkey, config_heap_plan_env. reflexivity.
    - rewrite Hkey, config_entry_unknown by assumption. reflexivity. }
  split; [|split].
  - eexists. split; [exact Hrun|reflexivity].
  - eexists. unfold BatchRunner.module, bind. rewrite Hrun.
    split; reflexivity.
  - by rewrite validate_batch_config_rejects.
Qed.

Lemma unknown_batch_rejected_witness :
  "unknown-batch" <> EmptyString /\
  ("unknown-batch" ∉ batch_names) /\
  ("unknown-batch" ∉ members Object_prototype) /\
  let unknown := BatchRunner.UnknownBatch "unknown-batch"
                   "smoke, getEndpointsLoad, postEndpointsStress, custom" in
  (exists st',
      BatchRunner.batch Program.endpoints (plan_env "unknown-batch" (env_of []))
        Program.boot = (Throw unknown, st') /\
      st_trace st' = []) /\
  (exists st',
      BatchRunner.module Program.endpoints Program.testSuites
        (plan_env "unknown-batch" (env_of [])) Program.boot = (Throw unknown, st') /\
      st_trace st' = []) /\
  (Shell.validate_batch_config "unknown-batch").2 = Shell.Exits 1.
Proof.
  assert (H1 : "unknown-batch" <> EmptyString) by discriminate.
  assert (H2 : "unknown-batch" ∉ batch_names) by by_computation.
  assert (H3 : "unknown-batch" ∉ members Object_prototype) by by_computation.
  split; [exact H1|]. split; [exact H2|]. split; [exact H3|].
  exact (unknown_batch_rejected "unknown-batch" (env_of []) H1 H2 H3).
Defined.

(** C5, as stated: the empty name selects the default batch, and a member
    of [Object.prototype] passes the guard of the runner, whose load then
    ends in a [TypeError]. *)
Lemma default_and_inherited_batch_names :
  ("" ∉ batch_names) /\
  (exists b st',
      BatchRunner.batch Program.endpoints (plan_env "" (env_of [])) Program.boot
      = (Ret b, st')) /\
  ("constructor" ∉ batch_names) /\
  (BatchRunner.batch Program.endpoints (plan_env "constructor" (env_of []))
     Program.boot).1 = Ret (VBuiltin "Object") /\
  (BatchRunner.module Program.endpoints Program.testSuites
     (plan_env "constructor" (env_of [])) Program.boot).1
  = Throw (TypeError "Cannot read property 'config' of undefined").
Proof.
  split; [by_computation|]. split.
  { do 2 eexists. vm_compute. reflexivity. }
  split; [by_computation|]. split; vm_compute; reflexivity.
Qed.

End Plans.

(** ** The main function of the batch runner *)

Section MainFunction.

Variable env : environment.
Variable respond : list event -> option response.

Lemma atomic_reads v :
  atomic v -> truthy v = true ->
  (forall h, get_prop h v "requiresAuth" = Ret VUndefined) /\
  (forall h, get_prop h v "method" = Ret VUndefined) /\
  (exists name, forall h, get_prop h v "name" = Ret name) /\
  (exists baseUrl, forall h, get_prop h v "baseUrl" = Ret baseUrl) /\
  (exists path, forall h, get_prop h v "path" = Ret path).
Proof.
  intros Ha Ht. destruct v; try done.
  all: repeat split; try (intros h; vm_compute; reflexivity).
  all: eexists; intros h; unfold get_prop; reflexivity.
Qed.

(** On a value that is not an endpoint object the callback logs the
    endpoint line, allocates the request options and leaves through the
    [default] case of the [switch]: no request, no delay. *)
Lemma test_endpoint_atomic batch l elems key index v st :
  st_heap st !! l = Some (Arr elems) ->
  atomic v -> truthy v = true ->
  exists name,
    BatchRunner.test_endpoint env respond batch (VRef l) key index v st =
    (Ret tt,
     {| st_heap :=
          st_heap st ++
          [Obj [("Content-Type", VStr "application/json");
                ("User-Agent", VStr "k6-batch-test")];
           Obj [("headers", VRef (List.length (st_heap st)))]];
        st_trace :=
          st_trace st ++
          [ConsoleLog [Text "Testing endpoint ";
                       Val (VNum (Int (Z.of_nat index + 1)));
                       Text "/"; Val (VNum (Int (Z.of_nat (List.length elems))));
                       Text ": "; Val name];
           ConsoleWarn [Text "Unsupported HTTP method: "; Val VUndefined]] |}).
Proof.
  intros Hl Ha Ht.
  destruct (atomic_reads v Ha Ht) as (Hra & Hm & [name Hn] & [baseUrl Hb] & [path Hp]).
  exists name.
  unfold BatchRunner.test_endpoint, BatchRunner.dispatch.
  unfold bind, get, read, alloc, emit, ret, try_catch. cbn [st_heap st_trace].
  assert (Hlen : get_prop (st_heap st) (VRef l) "length"
                 = Ret (VNum (Int (Z.of_nat (List.length elems))))).
  { unfold get_prop. by rewrite Hl. }
  rewrite Hlen, Hn, Hb, Hp, Hra. cbn [truthy st_heap st_trace].
  rewrite Hm. cbn [strict_eq].
  rewrite !bool_decide_eq_false_2 by discriminate.
  cbn [st_heap st_trace]. rewrite <- !app_assoc. reflexivity.
Qed.

Lemma inherited_atomic chain k : atomic (inherited chain k).
Proof.
  unfold inherited. destruct (decide _).
  - by destruct chain.
  - destruct (List.find _ _); [|done]. unfold member_value. by destruct (decide _).
Qed.

Lemma arr_get_strings_atomic (keys : list string) k :
  atomic (arr_get (VStr <$> keys) k).
Proof.
  unfold arr_get. destruct (decide _); [done|].
  destruct (array_index k ≫= elem_at (VStr <$> keys)) as [x|] eqn:E;
    [|apply inherited_atomic].
  destruct (array_index k) as [i|]; [|done]. simpl in E. unfold elem_at in E.
  apply list_lookup_fmap_Some in E as (? & -> & ?). done.
Qed.

Lemma requests_snoc trace e :
  is_http e = false -> requests (trace ++ [e]) = requests trace.
Proof.
  intros H. unfold requests. rewrite List.filter_app. simpl. rewrite H.
  by rewrite app_nil_r.
Qed.

(** One turn of the loop over an array of strings. *)
Lemma callback_strings batch l (keys : list string) k index st :
  st_heap st !! l = Some (Arr (VStr <$> keys)) ->
  exists st',
    BatchRunner.callback env respond batch (VRef l) (VStr k) index st = (Ret tt, st') /\
    st_heap st' !! l = Some (Arr (VStr <$> keys)) /\
    requests (st_trace st') = requests (st_trace st) /\
    (arr_get (VStr <$> keys) k = VUndefined ->
     st_trace st' = st_trace st ++ [not_found k]) /\
    (exists lines,
       st_trace st' = st_trace st ++ lines /\
       key_lines (VStr <$> keys) index k lines).
Proof.
  intros Hl. unfold BatchRunner.callback. unfold bind at 1 2. unfold read, get.
  cbn [st_heap st_trace]. rewrite String_of_VStr.
  assert (Hget : get_prop (st_heap st) (VRef l) k = Ret (arr_get (VStr <$> keys) k)).
  { unfold get_prop. by rewrite Hl. }
  rewrite Hget. destruct (truthy (arr_get (VStr <$> keys) k)) eqn:Ht; cbn [negb].
  - destruct (test_endpoint_atomic batch l (VStr <$> keys) (VStr k) index
                (arr_get (VStr <$> keys) k) st Hl
                (arr_get_strings_atomic keys k) Ht) as [name ->].
    eexists. split; [reflexivity|]. cbn [st_heap st_trace]. split; [|split; [|split]].
    + by apply lookup_app_l_Some.
    + unfold requests. rewrite List.filter_app. cbn [List.filter is_http].
      by rewrite app_nil_r.
    + intros Hu. rewrite Hu in Ht. discriminate Ht.
    + eexists. split; [reflexivity|]. unfold key_lines. rewrite Ht.
      exists name. reflexivity.
  - eexists. split; [reflexivity|]. cbn [st_heap st_trace]. split; [done|].
    split; [|split].
    + by rewrite requests_snoc.
    + reflexivity.
    + eexists. split; [reflexivity|]. unfold key_lines. by rewrite Ht.
Qed.

(** The loop over strings: whatever the keys, no request is added to the
    trace; keys that the array does not answer to are reported one by one. *)
Lemma for_each_strings batch l (keys ks : list string) index st :
  st_heap st !! l = Some (Arr (VStr <$> keys)) ->
  exists st',
    for_each_from index (VStr <$> ks) (BatchRunner.callback env respond batch (VRef l)) st
      = (Ret tt, st') /\
    requests (st_trace st') = requests (st_trace st) /\
    (Forall (fun k => arr_get (VStr <$> keys) k = VUndefined) ks ->
     st_trace st' = st_trace st ++ (not_found <$> ks)) /\
    (exists lines,
       st_trace st' = st_trace st ++ lines /\
       keys_lines (VStr <$> keys) index ks lines).
Proof.
  revert index st. induction ks as [|k ks IH]; intros index st Hl.
  - exists st. split; [reflexivity|]. split; [reflexivity|]. split.
    + intros _. by rewrite app_nil_r.
    + exists []. split; [by rewrite app_nil_r|reflexivity].
  - destruct (callback_strings batch l keys k index st Hl)
      as (st1 & Hrun1 & Hl1 & Hreq1 & Hwarn1 & first & Hfirst & Hkey).
    destruct (IH (S index) st1 Hl1) as (st2 & Hrun2 & Hreq2 & Hwarn2 & more & Hmore & Hks).
    exists st2. rewrite fmap_cons. cbn [for_each_from]. unfold bind.
    rewrite Hrun1. split; [exact Hrun2|]. split; [congruence|]. split.
    + intros Hall. apply Forall_cons in Hall as [Hk Hrest].
      rewrite (Hwarn2 Hrest), (Hwarn1 Hk), fmap_cons, <- app_assoc. reflexivity.
    + exists (first ++ more). split; [by rewrite Hmore, Hfirst, <- app_assoc|].
      cbn [keys_lines]. exists first, more. by repeat split.
Qed.

(** C10 (as amended). Whatever the batch, the main function sends no
    request: the keys of the batch are looked up in the array of keys
    itself, which hides the endpoint registry, so no endpoint object is
    ever found. The keys are handled one by one, in order, and nothing
    else is logged. A key under which the array has no truthy property
    (the lookup gives [undefined], or the empty string held at an own
    index) is skipped with the not-found warning; this is the case of
    every key of the shipped registry, so a batch of such keys logs one
    warning per key. A key under which the array has a truthy property is
    not skipped: the line of an endpoint under test is logged for it, then
    the warning [Unsupported HTTP method: undefined], and still no
    request is sent. *)
Theorem default_sends_no_request data batch l (keys : list string) st :
  get_prop (st_heap st) data "batch" = Ret batch ->
  get_prop (st_heap st) data "endpoints" = Ret (VRef l) ->
  st_heap st !! l = Some (Arr (VStr <$> keys)) ->
  exists st',
    BatchRunner.default env respond data st = (Ret tt, st') /\
    requests (st_trace st') = requests (st_trace st) /\
    (exists lines,
       st_trace st' = st_trace st ++ lines /\
       keys_lines (VStr <$> keys) 0 keys lines) /\
    (Forall (fun k => arr_get (VStr <$> keys) k = VUndefined) keys ->
     st_trace st' = st_trace st ++ (not_found <$> keys)) /\
    Forall (fun k => arr_get (VStr <$> endpoint_keys) k = VUndefined) endpoint_keys.
Proof.
  intros Hb He Hl.
  destruct (for_each_strings batch l keys keys 0 st Hl)
    as (st' & Hrun & Hreq & Hwarn & Hlines).
  exists st'. split; [|split; [exact Hreq|split; [exact Hlines|split; [exact Hwarn|]]]].
  - unfold BatchRunner.default, bind, get. rewrite Hb, He.
    assert (Hts : exists t, get_prop (st_heap st) data "testSuite" = Ret t).
    { apply get_prop_total. by destruct data. }
    destruct Hts as [t ->]. unfold Array_forEach, bind, read. cbn [st_heap].
    rewrite Hl. exact Hrun.
  - apply (bool_decide_unpack _). vm_compute. exact I.
Qed.

End MainFunction.

Lemma default_sends_no_request_witness :
  get_prop (st_heap smoke_data_state) smoke_data "batch" = Ret smoke_data_batch /\
  get_prop (st_heap smoke_data_state) smoke_data "endpoints" = Ret (VRef smoke_data_keys) /\
  st_heap smoke_data_state !! smoke_data_keys = Some (Arr (VStr <$> endpoint_keys)) /\
  exists st',
    BatchRunner.default (env_of []) ok_response smoke_data smoke_data_state
      = (Ret tt, st') /\
    requests (st_trace st') = requests (st_trace smoke_data_state) /\
    (exists lines,
       st_trace st' = st_trace smoke_data_state ++ lines /\
       keys_lines (VStr <$> endpoint_keys) 0 endpoint_keys lines) /\
    (Forall (fun k => arr_get (VStr <$> endpoint_keys) k = VUndefined) endpoint_keys ->
     st_trace st' = st_trace smoke_data_state ++ (not_found <$> endpoint_keys)) /\
    Forall (fun k => arr_get (VStr <$> endpoint_keys) k = VUndefined) endpoint_keys.
Proof.
  assert (Hb : get_prop (st_heap smoke_data_state) smoke_data "batch"
               = Ret smoke_data_batch) by (vm_compute; reflexivity).
  assert (He : get_prop (st_heap smoke_data_state) smoke_data "endpoints"
               = Ret (VRef smoke_data_keys)) by (vm_compute; reflexivity).
  assert (Hl : st_heap smoke_data_state !! smoke_data_keys
               = Some (Arr (VStr <$> endpoint_keys))) by (vm_compute; reflexivity).
  split; [exact Hb|]. split; [exact He|]. split; [exact Hl|].
  exact (default_sends_no_request (env_of []) ok_response smoke_data smoke_data_batch
           smoke_data_keys endpoint_keys smoke_data_state Hb He Hl).
Defined.

(** The four batches with no override set: every key is skipped with the
    not-found warning, nothing is sent. *)
Example shipped_batches_skip_everything :
  let run name :=
    BatchRunner.run Program.endpoints Program.testSuites (plan_env name (env_of []))
      ok_response Program.boot in
  let keys_of name :=
    match name with
    | "smoke" => endpoint_keys
    | "getEndpointsLoad" => ["users-me"; "client-configs"; "health-check"]
    | "postEndpointsStress" => ["create-user"; "auth/signin"]
    | _ => ["users-me"; "health-check"]
    end in
  Forall (fun name =>
            (run name).1 = Ret tt /\
            requests (st_trace (run name).2) = [] /\
            drop 8 (st_trace (run name).2) = not_found <$> keys_of name)
    batch_names.
Proof.
  repeat (apply Forall_cons; split; [repeat split; vm_compute; reflexivity|]).
  apply Forall_nil_2.
Qed.

(** Keys that are indices of the array of keys: with [BATCH_ENDPOINTS=,0]
    the key [0] finds the empty string at index 0 and is skipped like the
    empty key before it; with [BATCH_ENDPOINTS=a,0] it finds the string
    [a], which is not skipped and has no method. *)
Example index_keys :
  let run keys :=
    BatchRunner.run Program.endpoints Program.testSuites
      (plan_env "custom" (env_of [("BATCH_ENDPOINTS", keys)])) ok_response
      Program.boot in
  arr_get [VStr ""; VStr "0"] "0" = VStr "" /\
  (run ",0").1 = Ret tt /\
  drop 8 (st_trace (run ",0").2) = [not_found ""; not_found "0"] /\
  arr_get [VStr "a"; VStr "0"] "0" = VStr "a" /\
  (run "a,0").1 = Ret tt /\
  drop 8 (st_trace (run "a,0").2) =
    [not_found "a";
     endpoint_line 1 2 VUndefined;
     ConsoleWarn [Text "Unsupported HTTP method: "; Val VUndefined]].
Proof.
  cbv zeta. do 5 (split; [vm_compute; reflexivity|]). vm_compute. reflexivity.
Qed.

(** C10, as stated: with [BATCH_ENDPOINTS=length] the key is a property of
    the array of keys, the lookup yields a number and the key is not
    skipped by the not-found guard; the callback ends at the
    unsupported-method warning. *)
Lemma array_property_key_is_found :
  let env := plan_env "custom" (env_of [("BATCH_ENDPOINTS", "length")]) in
  let final :=
    BatchRunner.run Program.endpoints Program.testSuites env ok_response Program.boot in
  arr_get [VStr "length"] "length" = VNum (Int 1) /\
  final.1 = Ret tt /\
  drop 8 (st_trace final.2) =
    [ConsoleLog [Text "Testing endpoint "; Val (VNum (Int 1)); Text "/";
                 Val (VNum (Int 1)); Text ": "; Val VUndefined];
     ConsoleWarn [Text "Unsupported HTTP method: "; Val VUndefined]] /\
  (not_found "length" ∉ st_trace final.2).
Proof.
  split; [reflexivity|]. split; [vm_compute; reflexivity|].
  split; [vm_compute; reflexivity|].
  intros H.
  assert (Htrace : exists t, st_trace
            (BatchRunner.run Program.endpoints Program.testSuites
               (plan_env "custom" (env_of [("BATCH_ENDPOINTS", "length")]))
               ok_response Program.boot).2 = t /\ not_found "length" ∈ t)
    by (eexists; split; [reflexivity|exact H]).
  clear H. destruct Htrace as (t & Ht & Hin). vm_compute in Ht. subst t.
  repeat (apply elem_of_cons in Hin as [Hin|Hin]; [discriminate Hin|]).
  by apply elem_of_nil in Hin.
Qed.

(** ** [buildUrl] and [String.prototype.replace] *)

Section Replace.

Lemma prefix_skip p s :
  String.prefix p s = true -> s = p +:+ skip (String.length p) s.
Proof.
  revert s. induction p as [|a p IH]; intros s H; [by destruct s|].
  destruct s as [|b s]; [discriminate H|]. simpl in H.
  destruct (Ascii.ascii_dec a b) as [->|]; [|discriminate H].
  change (String b s = String b (p +:+ skip (String.length p) s)).
  f_equal. by apply IH.
Qed.

Lemma find_first_eq pat s :
  find_first pat s =
  if String.prefix pat s then Some (EmptyString, skip (String.length pat) s)
  else match s with
       | EmptyString => None
       | String c rest =>
           match find_first pat rest with
           | Some (before, after) => Some (String c before, after)
           | None => None
           end
       end.
Proof. by destruct s. Qed.

Lemma find_first_split pat s before after :
  find_first pat s = Some (before, after) -> s = before +:+ pat +:+ after.
Proof.
  revert before. induction s as [|c s IH]; intros before; rewrite find_first_eq.
  - destruct (String.prefix pat EmptyString) eqn:E; [|discriminate].
    intros [= <- <-]. by apply prefix_skip in E.
  - destruct (String.prefix pat (String c s)) eqn:E.
    + intros [= <- <-]. by apply prefix_skip in E.
    + destruct (find_first pat s) as [[b a]|]; [|discriminate].
      intros [= <- <-].
      change (String c s = String c (b +:+ pat +:+ a)). f_equal. by apply IH.
Qed.

(** A replacement text without a dollar sign is inserted as it is. *)
Lemma substitution_plain matched before after repl :
  "$"%char ∉ list_ascii_of_string repl ->
  substitution matched before after repl = repl.
Proof.
  induction repl as [|a repl IH]; simpl; [done|]. intros H.
  apply not_elem_of_cons in H as [Ha Hrepl].
  rewrite bool_decide_eq_false_2 by congruence. f_equal. by apply IH.
Qed.

(** The first occurrence of a placeholder is replaced by a value without
    a dollar sign; a placeholder that does not occur leaves the text as it
    is. *)
Lemma replace_plain s pat repl before after :
  find_first pat s = Some (before, after) ->
  "$"%char ∉ list_ascii_of_string repl ->
  s = before +:+ pat +:+ after /\ replace s pat repl = before +:+ repl +:+ after.
Proof.
  intros Hf Hr. split; [by apply find_first_split|].
  unfold replace. by rewrite Hf, substitution_plain.
Qed.

Lemma replace_absent s pat repl :
  find_first pat s = None -> replace s pat repl = s.
Proof. intros H. unfold replace. by rewrite H. Qed.

End Replace.

(** C6. For [update-user] and the parameter map [{id: "a$$b"}] the URL
    that [buildUrl] returns does not carry the value of the map in place of
    the placeholder: [replace] reads [$$] in the value as an escaped dollar
    sign, and [$&] as the placeholder itself. A value without dollar signs
    is inserted as it is, and a map without the key leaves the placeholder
    in place. *)
Theorem buildUrl_dollar_patterns :
  built_url "update-user" "a$$b"
    = Ret (VStr "https://dev-api.acexr.com/platform-services/v2/users/a$b") /\
  built_url "update-user" "$&"
    = Ret (VStr "https://dev-api.acexr.com/platform-services/v2/users/{id}") /\
  built_url "update-user" "42"
    = Ret (VStr "https://dev-api.acexr.com/platform-services/v2/users/42") /\
  (Endpoints.buildUrl Program.endpoints "update-user" VUndefined Program.boot).1
    = Ret (VStr "https://dev-api.acexr.com/platform-services/v2/users/{id}").
Proof. repeat split; vm_compute; reflexivity. Qed.

(** ** Computations that only add to the trace *)

Section Grows.

Lemma grows_ret {A} (a : A) : grows (ret a).
Proof. intros st. reflexivity. Qed.

Lemma grows_throw {A} e : grows (@throw A e).
Proof. intros st. reflexivity. Qed.

Lemma grows_get v k : grows (get v k).
Proof. intros st. reflexivity. Qed.

Lemma grows_read {A} (f : list object -> A) : grows (read f).
Proof. intros st. reflexivity. Qed.

Lemma grows_alloc o : grows (alloc o).
Proof. intros st. reflexivity. Qed.

Lemma grows_emit e : grows (emit e).
Proof. intros st. simpl. by apply prefix_app_r. Qed.

Lemma grows_bind {A B} (c : M A) (k : A -> M B) :
  grows c -> (forall a, grows (k a)) -> grows (bind c k).
Proof.
  intros Hc Hk st. unfold bind. specialize (Hc st).
  destruct (c st) as [[a|e] st1]; simpl in *; [|done].
  etrans; [exact Hc|]. apply Hk.
Qed.

Lemma grows_try_catch {A} (c : M A) (handler : exn -> M A) :
  grows c -> (forall e, grows (handler e)) -> grows (try_catch c handler).
Proof.
  intros Hc Hh st. unfold try_catch. specialize (Hc st).
  destruct (c st) as [[a|e] st1]; simpl in *; [done|].
  etrans; [exact Hc|]. apply Hh.
Qed.

End Grows.

Ltac grows_step :=
  first
    [ apply grows_ret | apply grows_throw | apply grows_get | apply grows_read
    | apply grows_alloc | apply grows_emit
    | apply grows_bind; [|intros ?]
    | apply grows_try_catch; [|intros ?]
    | match goal with
      | |- grows (if ?b then _ else _) => destruct b
      | |- grows (match ?x with _ => _ end) => destruct x
      end ].

Create HintDb grows.

Ltac grows_auto := repeat first [grows_step | solve [auto with grows]].

Section Requests.

Variable env : environment.
Variable respond : list event -> option response.

Lemma grows_every_header requiredHeaders r :
  grows (BatchRunner.every_header requiredHeaders r).
Proof. unfold BatchRunner.every_header. grows_auto. Qed.

Lemma grows_run_checks key endpoint r :
  grows (BatchRunner.run_checks key endpoint r).
Proof.
  unfold BatchRunner.run_checks. grows_auto. apply grows_every_header.
Qed.

Lemma grows_receive : grows (BatchRunner.receive respond).
Proof. intros st. unfold BatchRunner.receive. by destruct (respond _). Qed.

End Requests.

#[global] Hint Resolve grows_every_header grows_run_checks grows_receive : grows.

(** ** Computations that return *)

Section Total.

Lemma bind_run {A B} (c : M A) (k : A -> M B) st a st1 :
  c st = (Ret a, st1) -> bind c k st = k a st1.
Proof. intros H. unfold bind. by rewrite H. Qed.

Lemma bind_from {A B} (c c' : M A) (k : A -> M B) st st' :
  c st = c' st' -> bind c k st = bind c' k st'.
Proof. intros H. unfold bind. by rewrite H. Qed.

Lemma try_catch_from {A} (c c' : M A) (handler : exn -> M A) st st' :
  c st = c' st' -> try_catch c handler st = try_catch c' handler st'.
Proof. intros H. unfold try_catch. by rewrite H. Qed.

Lemma total_ret {A} (a : A) : total (ret a).
Proof. intros st. by exists a, st. Qed.

Lemma total_emit e : total (emit e).
Proof.
  intros st. eexists tt, _. split; [reflexivity|]. simpl. by apply prefix_app_r.
Qed.

Lemma total_get v k : nullish v = false -> total (get v k).
Proof.
  intros Hv st. destruct (get_prop_total (st_heap st) v k Hv) as [x Hx].
  exists x, st. unfold get. by rewrite Hx.
Qed.

Lemma total_bind {A B} (c : M A) (k : A -> M B) :
  total c -> (forall a, total (k a)) -> total (bind c k).
Proof.
  intros Hc Hk st. destruct (Hc st) as (a & st1 & Hrun & Hpre).
  destruct (Hk a st1) as (b & st2 & Hrun2 & Hpre2).
  exists b, st2. split; [by rewrite (bind_run _ _ _ _ _ Hrun)|by etrans].
Qed.

(** A [try] block whose handler returns does return, whatever the block
    does. *)
Lemma total_try_catch {A} (c : M A) (handler : exn -> M A) :
  grows c -> (forall e, total (handler e)) -> total (try_catch c handler).
Proof.
  intros Hc Hh st. unfold try_catch. specialize (Hc st).
  destruct (c st) as [[a|e] st1]; simpl in Hc.
  - by exists a, st1.
  - destruct (Hh e st1) as (a & st2 & Hrun & Hpre).
    exists a, st2. split; [done|by etrans].
Qed.

End Total.

Ltac total_step :=
  first
    [ apply total_ret | apply total_emit
    | apply total_get; assumption
    | apply total_bind; [|intros ?]
    | match goal with
      | |- total (if ?b then _ else _) => destruct b
      end ].

Ltac total_auto := repeat total_step.

Section Authentication.

Variable env : environment.
Variable respond : list event -> option response.

Lemma strict_eq_VStr a b : strict_eq (VStr a) (VStr b) = bool_decide (a = b).
Proof.
  unfold strict_eq. destruct (decide (a = b)) as [->|Hne].
  - by rewrite !bool_decide_eq_true_2.
  - rewrite !bool_decide_eq_false_2; [done|done|congruence].
Qed.

(** The body of a request for a path that is a string. *)
Lemma generateTestData_string e props verb path st :
  st_heap st !! e = Some (Obj props) ->
  obj_get props "method" = VStr verb ->
  obj_get props "path" = VStr path ->
  exists body, TestData.generateTestData (VRef e) st = (Ret body, st).
Proof.
  intros He Hm Hp. unfold TestData.generateTestData.
  assert (Hgm : get (VRef e) "method" st = (Ret (VStr verb), st)).
  { unfold get, get_prop. by rewrite He, Hm. }
  assert (Hgp : get (VRef e) "path" st = (Ret (VStr path), st)).
  { unfold get, get_prop. by rewrite He, Hp. }
  rewrite (bind_run _ _ _ _ _ Hgm), !strict_eq_VStr.
  unfold TestData.generatePutData, TestData.generatePostData,
    TestData.generatePatchData.
  repeat case_bool_decide;
    try (rewrite (bind_run _ _ _ _ _ Hgp);
         unfold bind, TestData.path_includes, ret;
         repeat destruct (includes _ _));
    eexists; reflexivity.
Qed.

(** The [switch] on a verb it has a case for: the request is handed to the
    engine with the headers of the request options as they are then. *)
Lemma dispatch_sends e props verb path url requestOptions headers st :
  st_heap st !! e = Some (Obj props) ->
  obj_get props "method" = VStr verb ->
  verb ∈ supported_verbs ->
  obj_get props "path" = VStr path ->
  get_prop (st_heap st) requestOptions "headers" = Ret headers ->
  exists body,
    BatchRunner.dispatch respond (VRef e) url requestOptions st =
    (let* r := BatchRunner.receive respond in ret (Some r))
      {| st_heap := st_heap st;
         st_trace := st_trace st ++
           [HttpRequest verb url body (own_entries (st_heap st) headers)] |}.
Proof.
  intros He Hm Hverb Hp Hh.
  destruct (generateTestData_string e props verb path st He Hm Hp) as [data Hdata].
  assert (Hgm : get (VRef e) "method" st = (Ret (VStr verb), st)).
  { unfold get, get_prop. by rewrite He, Hm. }
  assert (Hcall : forall body,
    BatchRunner.http_call respond verb url body requestOptions st =
    BatchRunner.receive respond
      {| st_heap := st_heap st;
         st_trace := st_trace st ++
           [HttpRequest verb url body (own_entries (st_heap st) headers)] |}).
  { intros body. unfold BatchRunner.http_call.
    assert (Hgh : get requestOptions "headers" st = (Ret headers, st)).
    { unfold get. by rewrite Hh. }
    rewrite (bind_run _ _ _ _ _ Hgh). reflexivity. }
  unfold BatchRunner.dispatch. rewrite (bind_run _ _ _ _ _ Hgm), !strict_eq_VStr.
  unfold supported_verbs in Hverb.
  repeat (apply elem_of_cons in Hverb as [->|Hverb]);
    [| | | | |by apply elem_of_nil in Hverb].
  all: repeat (rewrite bool_decide_eq_false_2 by discriminate).
  all: rewrite bool_decide_eq_true_2 by reflexivity.
  all: try rewrite (bind_run _ _ _ _ _ Hdata).
  all: eexists; apply bind_from, Hcall.
Qed.

Lemma auth_token_None :
  auth_token env = None -> truthy (env_get env "AUTH_TOKEN") = false.
Proof.
  unfold auth_token, env_get. destruct (env "AUTH_TOKEN") as [s|]; [|done].
  destruct (decide (s = EmptyString)) as [->|]; [done|discriminate].
Qed.

Lemma auth_token_Some token :
  auth_token env = Some token ->
  env_get env "AUTH_TOKEN" = VStr token /\ truthy (VStr token) = true.
Proof.
  unfold auth_token, env_get. destruct (env "AUTH_TOKEN") as [s|]; [|done].
  destruct (decide (s = EmptyString)) as [->|Hs]; [done|].
  intros [= <-]. split; [done|]. simpl. by rewrite bool_decide_eq_false_2.
Qed.

(** The callback on an endpoint that requires authentication, up to the
    request: what follows returns and only adds to the trace. *)
Lemma test_endpoint_sends batch endpoints endpointKey index e props verb base path h t :
  h !! e = Some (Obj props) ->
  truthy (obj_get props "requiresAuth") = true ->
  obj_get props "method" = VStr verb ->
  verb ∈ supported_verbs ->
  obj_get props "baseUrl" = VStr base ->
  obj_get props "path" = VStr path ->
  nullish batch = false ->
  nullish endpoints = false ->
  exists line body h' (rest : M unit),
    total rest /\
    BatchRunner.test_endpoint env respond batch endpoints endpointKey index (VRef e)
      {| st_heap := h; st_trace := t |} =
    rest {| st_heap := h';
            st_trace := t ++ ConsoleLog line ::
              request_events env endpointKey verb (VStr (base +:+ path)) body |}.
Proof.
  intros He Hauth Hm Hverb Hb Hp Hbatch Hkeys.
  destruct (get_prop_total h endpoints "length" Hkeys) as [count Hcount].
  assert (Hget : forall k tr,
    get (VRef e) k (Build_state h tr) = (Ret (obj_get props k), Build_state h tr)).
  { intros k tr. unfold get, get_prop. cbn [st_heap]. by rewrite He. }
  assert (He' : (e < List.length h)%nat) by (by eapply lookup_lt_Some).
  unfold BatchRunner.test_endpoint.
  rewrite (bind_run (get endpoints "length") _ _ count (Build_state h t))
    by (unfold get; cbn [st_heap]; by rewrite Hcount).
  rewrite (bind_run _ _ _ _ _ (Hget "name" t)).
  rewrite (bind_run (emit _) _ _ _ _ eq_refl). cbn [st_heap st_trace].
  rewrite (bind_run _ _ _ _ _ (Hget "baseUrl" _)).
  rewrite (bind_run _ _ _ _ _ (Hget "path" _)), Hb, Hp.
  rewrite (bind_run (read _) _ _ _ _ eq_refl). cbn [st_heap st_trace].
  change (js_add h (VStr base) (VStr path))
    with (VStr (String_of h (VStr base) +:+ String_of h (VStr path))).
  rewrite !String_of_VStr.
  rewrite (bind_run (alloc _) _ _ _ _ eq_refl). cbn [st_heap st_trace].
  rewrite (bind_run (alloc _) _ _ _ _ eq_refl). cbn [st_heap st_trace].
  rewrite length_app. cbn [List.length].
  set (options_at := (List.length h + 1)%nat).
  set (h2 := (h ++ [Obj _]) ++ [Obj _]).
  assert (He2 : h2 !! e = Some (Obj props)).
  { subst h2. rewrite <- app_assoc. by apply lookup_app_l_Some. }
  assert (Hoptions : h2 !! options_at = Some (Obj [("headers", VRef (List.length h))])).
  { subst h2 options_at. apply list_lookup_middle. rewrite length_app. reflexivity. }
  assert (Hheaders : h2 !! List.length h = Some (Obj plain_headers)).
  { subst h2. rewrite <- app_assoc. by apply list_lookup_middle. }
  rewrite (bind_run (get (VRef e) "requiresAuth") _ _ (obj_get props "requiresAuth")
             (Build_state h2 _))
    by (unfold get, get_prop; cbn [st_heap]; by rewrite He2).
  rewrite Hauth. unfold request_events.
  destruct (auth_token env) as [token|] eqn:Htoken.
  - destruct (auth_token_Some _ Htoken) as [Henv Htruthy]. rewrite Henv, Htruthy.
    set (bearer := VStr ("Bearer " +:+ token)).
    set (h3 := <[List.length h := Obj (plain_headers ++ [("Authorization", bearer)])]> h2).
    assert (Hset : forall tr,
      (let* hs := get (VRef options_at) "headers" in
       let* bearer := read (fun h => "Bearer " +:+ String_of h (VStr token)) in
       set_prop hs "Authorization" (VStr bearer)) (Build_state h2 tr)
      = (Ret tt, Build_state h3 tr)).
    { intros tr.
      rewrite (bind_run (get (VRef options_at) "headers") _ _ (VRef (List.length h))
                 (Build_state h2 tr))
        by (unfold get, get_prop; cbn [st_heap]; by rewrite Hoptions).
      rewrite (bind_run (read _) _ _ _ _ eq_refl). cbn [st_heap st_trace].
      rewrite String_of_VStr. unfold set_prop. cbn [st_heap st_trace].
      rewrite Hheaders. reflexivity. }
    rewrite (bind_run _ _ _ _ _ (Hset _)).
    assert (He3 : h3 !! e = Some (Obj props)).
    { subst h3. rewrite list_lookup_insert_ne by lia. exact He2. }
    assert (Hoptions3 : get_prop h3 (VRef options_at) "headers" = Ret (VRef (List.length h))).
    { unfold get_prop. subst h3.
      rewrite list_lookup_insert_ne by (subst options_at; lia).
      by rewrite Hoptions. }
    assert (Hsent : own_entries h3 (VRef (List.length h))
                    = plain_headers ++ [("Authorization", bearer)]).
    { unfold own_entries. subst h3. rewrite list_lookup_insert_eq; [done|].
      by eapply lookup_lt_Some. }
    destruct (dispatch_sends e props verb path (VStr (base +:+ path)) (VRef options_at)
                (VRef (List.length h)) (Build_state h3 (t ++ [ConsoleLog
                   [Text "Testing endpoint "; Val (VNum (Int (Z.of_nat index + 1)));
                    Text "/"; Val count; Text ": "; Val (obj_get props "name")]]))
                He3 Hm Hverb Hp Hoptions3) as [body Hdispatch].
    cbn [st_heap st_trace] in Hdispatch. rewrite Hsent in Hdispatch.
    eexists _, body, _, _. split; cycle 1.
    { rewrite <- app_assoc in Hdispatch.
      apply bind_from, try_catch_from, bind_from. exact Hdispatch. }
    apply total_bind; [apply total_try_catch|]; [grows_auto|intros; total_auto..].
  - rewrite (auth_token_None Htoken).
    rewrite (bind_run (emit _) _ _ _ _ eq_refl). cbn [st_heap st_trace].
    assert (Hoptions2 : get_prop h2 (VRef options_at) "headers" = Ret (VRef (List.length h))).
    { unfold get_prop. by rewrite Hoptions. }
    assert (Hsent : own_entries h2 (VRef (List.length h)) = plain_headers).
    { unfold own_entries. by rewrite Hheaders. }
    destruct (dispatch_sends e props verb path (VStr (base +:+ path)) (VRef options_at)
                (VRef (List.length h)) (Build_state h2 ((t ++ [ConsoleLog
                   [Text "Testing endpoint "; Val (VNum (Int (Z.of_nat index + 1)));
                    Text "/"; Val count; Text ": "; Val (obj_get props "name")]])
                   ++ [missing_token endpointKey]))
                He2 Hm Hverb Hp Hoptions2) as [body Hdispatch].
    cbn [st_heap st_trace] in Hdispatch. rewrite Hsent in Hdispatch.
    eexists _, body, _, _. split; cycle 1.
    { rewrite <- !app_assoc in Hdispatch. rewrite <- !app_assoc.
      apply bind_from, try_catch_from, bind_from. exact Hdispatch. }
    apply total_bind; [apply total_try_catch|]; [grows_auto|intros; total_auto..].
Qed.

(** The step on an endpoint object, which the code is written to reach.
    On an endpoint that requires authentication and whose
    method is one of GET, POST, PUT, PATCH and DELETE, the callback of the
    batch runner does not fail, whatever the engine answers. After the
    line that names the endpoint it sends the request to base URL plus
    path: with [AUTH_TOKEN] set and not empty the request carries the
    header [Authorization: Bearer token] after the two plain headers;
    with no token (or an empty one) the warning that the token is missing
    is logged first and the request goes out with the plain headers
    only. *)
Theorem test_endpoint_requires_auth
    batch endpoints endpointKey index e props verb base path st :
  st_heap st !! e = Some (Obj props) ->
  truthy (obj_get props "requiresAuth") = true ->
  obj_get props "method" = VStr verb ->
  verb ∈ supported_verbs ->
  obj_get props "baseUrl" = VStr base ->
  obj_get props "path" = VStr path ->
  nullish batch = false ->
  nullish endpoints = false ->
  exists st' line body rest,
    BatchRunner.test_endpoint env respond batch endpoints endpointKey index (VRef e) st
      = (Ret tt, st') /\
    st_trace st' =
      st_trace st ++ ConsoleLog line ::
        request_events env endpointKey verb (VStr (base +:+ path)) body ++ rest.
Proof.
  intros He Hauth Hm Hverb Hb Hp Hbatch Hkeys. destruct st as [h t].
  destruct (test_endpoint_sends batch endpoints endpointKey index e props verb base
              path h t He Hauth Hm Hverb Hb Hp Hbatch Hkeys)
    as (line & body & h' & rest & Htotal & Hrun).
  destruct (Htotal {| st_heap := h';
                      st_trace := t ++ ConsoleLog line ::
                        request_events env endpointKey verb (VStr (base +:+ path)) body |})
    as ([] & st' & Hrest & [more Hmore]).
  exists st', line, body, more. split; [by rewrite Hrun|].
  rewrite Hmore. cbn [st_trace]. rewrite <- app_assoc. reflexivity.
Qed.

End Authentication.

Lemma test_endpoint_requires_auth_witness :
  st_heap smoke_data_state !! users_me = Some (Obj users_me_props) /\
  truthy (obj_get users_me_props "requiresAuth") = true /\
  obj_get users_me_props "method" = VStr "GET" /\
  "GET" ∈ supported_verbs /\
  obj_get users_me_props "baseUrl" = VStr "https://dev-api.acexr.com" /\
  obj_get users_me_props "path" = VStr "/platform-services/v2/users/me" /\
  nullish smoke_data_batch = false /\
  nullish (VRef smoke_data_keys) = false /\
  exists st' line body rest,
    users_me_run (env_of []) = (Ret tt, st') /\
    st_trace st' =
      st_trace smoke_data_state ++ ConsoleLog line ::
        request_events (env_of []) (VStr "users-me") "GET"
          (VStr ("https://dev-api.acexr.com" +:+ "/platform-services/v2/users/me"))
          body ++ rest.
Proof.
  assert (He : st_heap smoke_data_state !! users_me = Some (Obj users_me_props))
    by (vm_compute; reflexivity).
  assert (Hauth : truthy (obj_get users_me_props "requiresAuth") = true)
    by (vm_compute; reflexivity).
  assert (Hm : obj_get users_me_props "method" = VStr "GET")
    by (vm_compute; reflexivity).
  assert (Hverb : "GET" ∈ supported_verbs)
    by (apply (bool_decide_unpack _); vm_compute; exact I).
  assert (Hb : obj_get users_me_props "baseUrl" = VStr "https://dev-api.acexr.com")
    by (vm_compute; reflexivity).
  assert (Hp : obj_get users_me_props "path" = VStr "/platform-services/v2/users/me")
    by (vm_compute; reflexivity).
  assert (Hbatch : nullish smoke_data_batch = false) by reflexivity.
  assert (Hkeys : nullish (VRef smoke_data_keys) = false) by reflexivity.
  repeat (split; [assumption|]).
  exact (test_endpoint_requires_auth (env_of []) ok_response smoke_data_batch
           (VRef smoke_data_keys) (VStr "users-me") 0%nat users_me users_me_props
           "GET" "https://dev-api.acexr.com" "/platform-services/v2/users/me"
           smoke_data_state He Hauth Hm Hverb Hb Hp Hbatch Hkeys).
Defined.

(** The [users-me] endpoint of the registry, run with and without a
    token: one request either way. *)
Example users_me_requests :
  (users_me_run (env_of [])).1 = Ret tt /\
  requests (st_trace (users_me_run (env_of [])).2)
    = [HttpRequest "GET" users_me_url None plain_headers] /\
  missing_token (VStr "users-me") ∈ st_trace (users_me_run (env_of [])).2 /\
  (users_me_run (env_of [("AUTH_TOKEN", "secret")])).1 = Ret tt /\
  requests (st_trace (users_me_run (env_of [("AUTH_TOKEN", "secret")])).2)
    = [HttpRequest "GET" users_me_url None
         (plain_headers ++ [("Authorization", VStr "Bearer secret")])] /\
  (missing_token (VStr "users-me")
     ∉ st_trace (users_me_run (env_of [("AUTH_TOKEN", "secret")])).2).
Proof.
  repeat split; try (vm_compute; reflexivity); by_computation.
Qed.

(** An endpoint that requires authentication but is declared with a verb
    outside the five of the [switch]: with no token the warning is logged,
    the callback returns, and no request is sent. *)
Lemma unsupported_verb_sends_nothing :
  peek (st_heap probe_state) probe "requiresAuth" = VBool true /\
  peek (st_heap probe_state) probe "method" = VStr "HEAD" /\
  probe_run.1 = Ret tt /\
  missing_token (VStr "probe") ∈ st_trace probe_run.2 /\
  ConsoleWarn [Text "Unsupported HTTP method: "; Val (VStr "HEAD")]
    ∈ st_trace probe_run.2 /\
  requests (st_trace probe_run.2) = [].
Proof.
  repeat split; try (vm_compute; reflexivity); by_computation.
Qed.

(** C7. A run of the batch runner on the shipped configuration, with the
    default batch and any token, or none: the batch lists [users-me],
    [create-user] and [update-user], which require authentication, yet
    the run ends with nothing sent. After the eight lines of [setup] the
    trace holds the not-found warning of each key and nothing else: no
    request is performed for an endpoint that requires authentication,
    with or without a token, no header carries the token, and the warning
    about a missing token is never logged. The step that would do all this
    is not reached, because the main function looks the keys up in the
    array of keys instead of the registry. *)
Theorem run_never_authenticates (token : option string)
    (respond : list event -> option response) :
  let env : environment :=
    fun name => if decide (name = "AUTH_TOKEN") then token else None in
  let final :=
    BatchRunner.run Program.endpoints Program.testSuites env respond Program.boot in
  Forall (fun key =>
            key ∈ endpoint_keys /\
            peek (st_heap Program.boot) (endpoint_of key) "requiresAuth" = VBool true)
    ["users-me"; "create-user"; "update-user"] /\
  final.1 = Ret tt /\
  drop 8 (st_trace final.2) = not_found <$> endpoint_keys /\
  requests (st_trace final.2) = [] /\
  Forall (fun key => missing_token (VStr key) ∉ st_trace final.2) endpoint_keys.
Proof.
  cbv zeta.
  assert (Hrun : exists t,
    BatchRunner.run Program.endpoints Program.testSuites
      (fun name => if decide (name = "AUTH_TOKEN") then token else None)
      respond Program.boot = (Ret tt, t) /\
    st_trace t =
      take 8 (st_trace (BatchRunner.run Program.endpoints Program.testSuites
                          (env_of []) ok_response Program.boot).2)
      ++ (not_found <$> endpoint_keys)).
  { eexists. split; [vm_compute; reflexivity|vm_compute; reflexivity]. }
  destruct Hrun as (t & -> & Ht). cbn [fst snd]. rewrite Ht. clear Ht.
  split; [by_computation|]. split; [reflexivity|].
  split; [vm_compute; reflexivity|]. split; [vm_compute; reflexivity|].
  by_computation.
Qed.

(** ** The filters of the endpoint registry *)

Section Filters.

Lemma own_key_order_app l1 l2 : own_key_order (l1 ++ l2) -> own_key_order l1.
Proof.
  induction l1 as [|k l1 IH]; simpl; [done|]. intros [Hk Hrest].
  split; [|by apply IH].
  destruct (array_index k); by apply Forall_app in Hk as [? _].
Qed.

Lemma Forall_sublist {A} (P : A -> Prop) l1 l2 :
  sublist l1 l2 -> Forall P l2 -> Forall P l1.
Proof.
  induction 1 as [|x l1 l2 Hsub IH|x l1 l2 Hsub IH]; [done| |].
  - intros [Hx Hrest]%Forall_cons. apply Forall_cons. split; [done|by apply IH].
  - intros [_ Hrest]%Forall_cons. by apply IH.
Qed.

Lemma own_key_order_sublist l1 l2 :
  sublist l1 l2 -> own_key_order l2 -> own_key_order l1.
Proof.
  induction 1 as [|k l1 l2 Hsub IH|k l1 l2 Hsub IH]; simpl; [done| |].
  - intros [Hk Hrest]. split; [|by apply IH].
    destruct (array_index k); by eapply Forall_sublist.
  - intros [_ Hrest]. by apply IH.
Qed.

(** A key that comes last in the order of own keys is added at the end. *)
Lemma obj_insert_last k v props :
  own_key_order (keys props ++ [k]) ->
  obj_insert k v props = props ++ [(k, v)].
Proof.
  induction props as [|[k' v'] rest IH]; [done|].
  change (keys ((k', v') :: rest) ++ [k]) with (k' :: (keys rest ++ [k])).
  intros [Hk' Hrest]. cbn [obj_insert]. rewrite (IH Hrest).
  destruct (array_index k) as [i|] eqn:Ei; [|done].
  destruct (array_index k') as [j|] eqn:Ej.
  - apply Forall_app in Hk' as [_ Hk]. rewrite Forall_singleton, Ei in Hk.
    by rewrite (proj2 (Z.ltb_ge i j)) by lia.
  - apply Forall_app in Hk' as [_ Hk]. rewrite Forall_singleton in Hk.
    congruence.
Qed.

Lemma obj_set_last k v props :
  k ∉ keys props ->
  own_key_order (keys props ++ [k]) ->
  obj_set k v props = props ++ [(k, v)].
Proof.
  intros Hk Hord. unfold obj_set.
  rewrite (proj2 (assoc_None_keys k props) Hk). by apply obj_insert_last.
Qed.

(** A filter whose test only reads keeps the entries the test accepts and
    leaves the state alone. *)
Lemma filterM_reads (p : string * value -> M bool) (f : string * value -> bool)
    props st :
  (forall kv, kv ∈ props -> p kv st = (Ret (f kv), st)) ->
  Endpoints.filterM p props st = (Ret (List.filter f props), st).
Proof.
  induction props as [|kv rest IH]; intros Hp; [done|].
  cbn [Endpoints.filterM List.filter].
  rewrite (bind_run _ _ _ _ _ (Hp kv (list_elem_of_here _ _))).
  rewrite (bind_run _ _ _ _ _ (IH (fun kv' H => Hp kv' (list_elem_of_further _ _ _ H)))).
  reflexivity.
Qed.

(** The assignments of the [reduce] add the entries one after the other. *)
Lemma collect_loop i entries acc h t :
  NoDup (keys (acc ++ entries)) ->
  own_key_order (keys (acc ++ entries)) ->
  for_each_from i entries
    (fun kv _ => set_prop (VRef (List.length h)) kv.1 kv.2)
    {| st_heap := h ++ [Obj acc]; st_trace := t |}
  = (Ret tt, {| st_heap := h ++ [Obj (acc ++ entries)]; st_trace := t |}).
Proof.
  revert i acc. induction entries as [|[k v] rest IH]; intros i acc Hnd Hord.
  - by rewrite app_nil_r.
  - cbn [for_each_from].
    assert (Hsplit : acc ++ (k, v) :: rest = (acc ++ [(k, v)]) ++ rest)
      by (by rewrite <- app_assoc).
    rewrite Hsplit in Hnd, Hord.
    assert (Hset : obj_set k v acc = acc ++ [(k, v)]).
    { unfold keys in Hnd, Hord. rewrite fmap_app in Hnd, Hord.
      apply NoDup_app in Hnd as [Hnd _]. apply own_key_order_app in Hord.
      rewrite fmap_app in Hnd, Hord. apply obj_set_last; [|exact Hord].
      apply NoDup_app in Hnd as (_ & Hnd & _). intros Hin.
      apply (Hnd k Hin). apply list_elem_of_here. }
    assert (Hstep : set_prop (VRef (List.length h)) k v
                      {| st_heap := h ++ [Obj acc]; st_trace := t |}
                    = (Ret tt, {| st_heap := h ++ [Obj (acc ++ [(k, v)])];
                                  st_trace := t |})).
    { unfold set_prop. cbn [st_heap st_trace].
      rewrite (list_lookup_middle h [] (Obj acc) _ eq_refl).
      rewrite insert_app_r_alt by lia. rewrite Nat.sub_diag, Hset. reflexivity. }
    rewrite (bind_run _ _ _ _ _ Hstep), Hsplit. by apply IH.
Qed.

Lemma collect_entries entries st :
  NoDup (keys entries) ->
  own_key_order (keys entries) ->
  Endpoints.collect entries st =
  (Ret (VRef (List.length (st_heap st))),
   {| st_heap := st_heap st ++ [Obj entries]; st_trace := st_trace st |}).
Proof.
  intros Hnd Hord. unfold Endpoints.collect.
  rewrite (bind_run (alloc _) _ _ _ _ eq_refl). unfold for_each.
  rewrite (bind_run _ _ _ _ _
             (collect_loop 0 entries [] (st_heap st) (st_trace st) Hnd Hord)).
  reflexivity.
Qed.

Lemma filter_keys_sublist (f : string * value -> bool) props :
  sublist (keys (List.filter f props)) (keys props).
Proof.
  induction props as [|kv rest IH]; simpl; [done|].
  destruct (f kv); simpl; by constructor.
Qed.

(** The pattern shared by the two filters: [Object.entries], a [filter]
    whose test reads the entry, and the [reduce] that rebuilds an object. *)
Lemma filter_collect (p : string * value -> M bool) (f : string * value -> bool)
    r props st :
  st_heap st !! r = Some (Obj props) ->
  NoDup (keys props) ->
  own_key_order (keys props) ->
  (forall kv, kv ∈ props -> p kv st = (Ret (f kv), st)) ->
  (let* entries := Endpoints.Object_entries (VRef r) in
   let* kept := Endpoints.filterM p entries in
   Endpoints.collect kept) st =
  (Ret (VRef (List.length (st_heap st))),
   {| st_heap := st_heap st ++ [Obj (List.filter f props)];
      st_trace := st_trace st |}).
Proof.
  intros Hr Hnd Hord Hp.
  assert (Hentries : Endpoints.Object_entries (VRef r) st = (Ret props, st)).
  { unfold Endpoints.Object_entries, read, own_entries. cbn [nullish]. by rewrite Hr. }
  rewrite (bind_run _ _ _ _ _ Hentries).
  rewrite (bind_run _ _ _ _ _ (filterM_reads p f props st Hp)).
  apply collect_entries.
  - eapply sublist_NoDup; [exact Hnd|apply filter_keys_sublist].
  - eapply own_key_order_sublist; [apply filter_keys_sublist|exact Hord].
Qed.

Lemma get_peek h v k st :
  st_heap st = h -> nullish v = false -> get v k st = (Ret (peek h v k), st).
Proof.
  intros <- Hv. unfold get, peek. rewrite Hv.
  by destruct (get_prop_total (st_heap st) v k Hv) as [x ->].
Qed.

(** X1. [getEndpointsByMethod(method)], for a method name in ASCII, on a
    registry object whose entries are all objects or other non-null
    values: the result is a new object that lists, in the order of the
    registry, exactly the entries whose [method] is the upper-cased
    argument, with the registry's own values (the endpoint objects are
    shared, not copied); nothing else in the store changes and nothing is
    logged. *)
Theorem getEndpointsByMethod_filters r props method st :
  ascii_text method ->
  st_heap st !! r = Some (Obj props) ->
  NoDup (keys props) ->
  own_key_order (keys props) ->
  Forall (fun kv => nullish kv.2 = false) props ->
  Endpoints.getEndpointsByMethod (VRef r) method st =
  (Ret (VRef (List.length (st_heap st))),
   {| st_heap := st_heap st ++ [Obj (List.filter (has_method (st_heap st) method) props)];
      st_trace := st_trace st |}).
Proof.
  intros _ Hr Hnd Hord Hval. unfold Endpoints.getEndpointsByMethod.
  apply filter_collect; [assumption..|].
  intros kv Hkv. rewrite Forall_forall in Hval.
  rewrite (bind_run _ _ _ _ _ (get_peek _ _ "method" st eq_refl (Hval kv Hkv))).
  reflexivity.
Qed.

(** X2. [getAuthenticatedEndpoints()] on such a registry: the result is a
    new object that lists, in the order of the registry, exactly the
    entries whose [requiresAuth] is truthy, with the registry's own
    values. *)
Theorem getAuthenticatedEndpoints_filters r props st :
  st_heap st !! r = Some (Obj props) ->
  NoDup (keys props) ->
  own_key_order (keys props) ->
  Forall (fun kv => nullish kv.2 = false) props ->
  Endpoints.getAuthenticatedEndpoints (VRef r) st =
  (Ret (VRef (List.length (st_heap st))),
   {| st_heap := st_heap st ++ [Obj (List.filter (needs_auth (st_heap st)) props)];
      st_trace := st_trace st |}).
Proof.
  intros Hr Hnd Hord Hval. unfold Endpoints.getAuthenticatedEndpoints.
  apply filter_collect; [assumption..|].
  intros kv Hkv. rewrite Forall_forall in Hval.
  rewrite (bind_run _ _ _ _ _ (get_peek _ _ "requiresAuth" st eq_refl (Hval kv Hkv))).
  reflexivity.
Qed.

End Filters.

Lemma getEndpointsByMethod_filters_witness :
  ascii_text "post" /\
  st_heap Program.boot !! registry = Some (Obj registry_entries) /\
  NoDup (keys registry_entries) /\
  own_key_order (keys registry_entries) /\
  Forall (fun kv => nullish kv.2 = false) registry_entries /\
  Endpoints.getEndpointsByMethod (VRef registry) "post" Program.boot =
  (Ret (VRef (List.length (st_heap Program.boot))),
   {| st_heap := st_heap Program.boot ++
        [Obj (List.filter (has_method (st_heap Program.boot) "post") registry_entries)];
      st_trace := st_trace Program.boot |}).
Proof.
  assert (Hr : st_heap Program.boot !! registry = Some (Obj registry_entries))
    by (vm_compute; reflexivity).
  assert (Hnd : NoDup (keys registry_entries)) by by_computation.
  assert (Hord : own_key_order (keys registry_entries)) by by_computation.
  assert (Hval : Forall (fun kv => nullish kv.2 = false) registry_entries)
    by by_computation.
  assert (Hascii : ascii_text "post") by by_computation.
  repeat (split; [assumption|]).
  exact (getEndpointsByMethod_filters registry registry_entries "post" Program.boot
           Hascii Hr Hnd Hord Hval).
Defined.

Lemma getAuthenticatedEndpoints_filters_witness :
  st_heap Program.boot !! registry = Some (Obj registry_entries) /\
  NoDup (keys registry_entries) /\
  own_key_order (keys registry_entries) /\
  Forall (fun kv => nullish kv.2 = false) registry_entries /\
  Endpoints.getAuthenticatedEndpoints (VRef registry) Program.boot =
  (Ret (VRef (List.length (st_heap Program.boot))),
   {| st_heap := st_heap Program.boot ++
        [Obj (List.filter (needs_auth (st_heap Program.boot)) registry_entries)];
      st_trace := st_trace Program.boot |}).
Proof.
  assert (Hr : st_heap Program.boot !! registry = Some (Obj registry_entries))
    by (vm_compute; reflexivity).
  assert (Hnd : NoDup (keys registry_entries)) by by_computation.
  assert (Hord : own_key_order (keys registry_entries)) by by_computation.
  assert (Hval : Forall (fun kv => nullish kv.2 = false) registry_entries)
    by by_computation.
  repeat (split; [assumption|]).
  exact (getAuthenticatedEndpoints_filters registry registry_entries Program.boot
           Hr Hnd Hord Hval).
Defined.

(** On the shipped registry: the keys each filter keeps. *)
Example shipped_filters :
  keys (List.filter (has_method (st_heap Program.boot) "get") registry_entries)
    = ["users-me"; "client-configs"; "health-check"] /\
  keys (List.filter (has_method (st_heap Program.boot) "Post") registry_entries)
    = ["create-user"; "auth/signin"] /\
  keys (List.filter (has_method (st_heap Program.boot) "delete") registry_entries)
    = [] /\
  keys (List.filter (needs_auth (st_heap Program.boot)) registry_entries)
    = ["users-me"; "create-user"; "update-user"; "auth/signin"].
Proof. repeat split; vm_compute; reflexivity. Qed.

(** ** [buildUrl] on any registry *)

Section BuildUrl.

Lemma obj_get_absent props k :
  k ∉ keys props -> k ∉ members Object_prototype -> obj_get props k = VUndefined.
Proof.
  intros Hk Hproto. unfold obj_get.
  rewrite (proj2 (assoc_None_keys k props) Hk). unfold inherited.
  destruct (decide (k = "__proto__")) as [->|_].
  - exfalso. apply Hproto. by_computation.
  - cbn [List.find]. by rewrite bool_decide_eq_false_2.
Qed.

(** X3. [buildUrl] with a key that the registry does not hold, and that is
    not the name of a member of [Object.prototype], fails with the error
    [Endpoint '<key>' not found]; the parameter map is not looked at and
    the store is left as it was. *)
Theorem buildUrl_unknown_endpoint r regs key params st :
  st_heap st !! r = Some (Obj regs) ->
  key ∉ keys regs ->
  key ∉ members Object_prototype ->
  Endpoints.buildUrl (VRef r) key params st =
  (Throw (Error ("Endpoint '" +:+ key +:+ "' not found")), st).
Proof.
  intros Hr Hk Hproto. unfold Endpoints.buildUrl.
  assert (Hget : get (VRef r) key st = (Ret VUndefined, st)).
  { unfold get, get_prop. by rewrite Hr, (obj_get_absent regs key Hk Hproto). }
  rewrite (bind_run _ _ _ _ _ Hget). reflexivity.
Qed.

Lemma replace_all_absent url entries st :
  Forall (fun kv => includes url (placeholder kv.1) = false) entries ->
  Endpoints.replace_all_params (VStr url) entries st = (Ret (VStr url), st).
Proof.
  induction entries as [|[k v] rest IH]; intros Hall; [done|].
  apply Forall_cons in Hall as [Hk Hrest]. cbn [Endpoints.replace_all_params].
  assert (Hstep : Endpoints.String_replace (VStr url) ("{" +:+ k +:+ "}") v st
                  = (Ret (VStr url), st)).
  { unfold Endpoints.String_replace.
    rewrite (bind_run (read _) _ _ _ _ eq_refl). unfold ret.
    rewrite replace_absent; [done|].
    unfold includes, placeholder in Hk. cbn [fst] in Hk.
    by destruct (find_first _ _). }
  rewrite (bind_run _ _ _ _ _ Hstep). by apply IH.
Qed.

(** The reads of [buildUrl] up to the substitution. *)
Lemma buildUrl_reads r regs key e props base path p entries st :
  st_heap st !! r = Some (Obj regs) ->
  obj_get regs key = VRef e ->
  st_heap st !! e = Some (Obj props) ->
  obj_get props "baseUrl" = VStr base ->
  obj_get props "path" = VStr path ->
  st_heap st !! p = Some (Obj entries) ->
  Endpoints.buildUrl (VRef r) key (VRef p) st =
  Endpoints.replace_all_params (VStr (base +:+ path)) entries st.
Proof.
  intros Hr Hkey He Hb Hp Hparams. unfold Endpoints.buildUrl.
  assert (Hget : get (VRef r) key st = (Ret (VRef e), st)).
  { unfold get, get_prop. by rewrite Hr, Hkey. }
  assert (Hbase : get (VRef e) "baseUrl" st = (Ret (VStr base), st)).
  { unfold get, get_prop. by rewrite He, Hb. }
  assert (Hpath : get (VRef e) "path" st = (Ret (VStr path), st)).
  { unfold get, get_prop. by rewrite He, Hp. }
  rewrite (bind_run _ _ _ _ _ Hget). cbn [truthy negb].
  rewrite (bind_run (ret _) _ _ _ _ eq_refl).
  rewrite (bind_run _ _ _ _ _ Hbase), (bind_run _ _ _ _ _ Hpath).
  rewrite (bind_run (read _) _ _ _ _ eq_refl).
  change (js_add (st_heap st) (VStr base) (VStr path))
    with (VStr (String_of (st_heap st) (VStr base) +:+ String_of (st_heap st) (VStr path))).
  rewrite !String_of_VStr.
  assert (Hentries : Endpoints.Object_entries (VRef p) st = (Ret entries, st)).
  { unfold Endpoints.Object_entries, read, own_entries. cbn [nullish]. by rewrite Hparams. }
  by rewrite (bind_run _ _ _ _ _ Hentries).
Qed.

(** X4. Parameters that match no placeholder are ignored: when no key of
    the parameter map occurs between braces in base URL plus path,
    [buildUrl] returns base URL plus path as it is, whatever the values,
    and changes nothing. *)
Theorem buildUrl_unmatched_params r regs key e props base path p entries st :
  st_heap st !! r = Some (Obj regs) ->
  obj_get regs key = VRef e ->
  st_heap st !! e = Some (Obj props) ->
  obj_get props "baseUrl" = VStr base ->
  obj_get props "path" = VStr path ->
  st_heap st !! p = Some (Obj entries) ->
  Forall (fun kv => includes (base +:+ path) (placeholder kv.1) = false) entries ->
  Endpoints.buildUrl (VRef r) key (VRef p) st = (Ret (VStr (base +:+ path)), st).
Proof.
  intros Hr Hkey He Hb Hp Hparams Hall.
  rewrite (buildUrl_reads r regs key e props base path p entries st) by assumption.
  by apply replace_all_absent.
Qed.

Lemma prefix_app p s : String.prefix p (p +:+ s) = true.
Proof.
  induction p as [|a p IH]; simpl; [by destruct s|].
  destruct (ascii_dec a a); [exact IH|done].
Qed.

Lemma skip_app p s : skip (String.length p) (p +:+ s) = s.
Proof. induction p as [|a p IH]; simpl; [by destruct s|exact IH]. Qed.

(** A pattern is found where it stands when its first character does not
    occur before. *)
Lemma find_first_here c pat before after :
  c ∉ list_ascii_of_string before ->
  find_first (String c pat) (before +:+ String c pat +:+ after)
  = Some (before, after).
Proof.
  induction before as [|b before IH]; intros Hc.
  - change (EmptyString +:+ String c pat +:+ after) with (String c pat +:+ after).
    rewrite find_first_eq, prefix_app, skip_app. reflexivity.
  - change (String b before +:+ String c pat +:+ after)
      with (String b (before +:+ String c pat +:+ after)).
    rewrite find_first_eq.
    assert (Hb : c <> b).
    { intros ->. apply Hc. simpl. apply list_elem_of_here. }
    assert (Hrest : c ∉ list_ascii_of_string before).
    { intros Hin. apply Hc. simpl. by apply list_elem_of_further. }
    cbn [String.prefix]. destruct (ascii_dec c b) as [E|_]; [done|].
    by rewrite (IH Hrest).
Qed.

(** X5. One parameter whose placeholder is the first opening brace of the
    URL, and whose value is a string, a boolean, [null], [undefined],
    [NaN] or an integer up to [2^53] that prints without a dollar sign:
    [buildUrl] puts the value, converted to a string, in the place of the
    placeholder and keeps what stands before and after. *)
Theorem buildUrl_substitutes r regs key e props base path p k v before after st :
  plain_text v ->
  st_heap st !! r = Some (Obj regs) ->
  obj_get regs key = VRef e ->
  st_heap st !! e = Some (Obj props) ->
  obj_get props "baseUrl" = VStr base ->
  obj_get props "path" = VStr path ->
  st_heap st !! p = Some (Obj [(k, v)]) ->
  base +:+ path = before +:+ placeholder k +:+ after ->
  ("{"%char ∉ list_ascii_of_string before) ->
  ("$"%char ∉ list_ascii_of_string (String_of (st_heap st) v)) ->
  Endpoints.buildUrl (VRef r) key (VRef p) st =
  (Ret (VStr (before +:+ String_of (st_heap st) v +:+ after)), st).
Proof.
  intros _ Hr Hkey He Hb Hp Hparams Hurl Hbrace Hdollar.
  rewrite (buildUrl_reads r regs key e props base path p [(k, v)] st) by assumption.
  cbn [Endpoints.replace_all_params]. rewrite Hurl.
  destruct (replace_plain (before +:+ placeholder k +:+ after) (placeholder k)
              (String_of (st_heap st) v) before after
              (find_first_here "{"%char (k +:+ "}") before after Hbrace) Hdollar)
    as [_ Hreplace].
  assert (Hstep : Endpoints.String_replace (VStr (before +:+ placeholder k +:+ after))
                    ("{" +:+ k +:+ "}") v st
                  = (Ret (VStr (before +:+ String_of (st_heap st) v +:+ after)), st)).
  { unfold Endpoints.String_replace.
    rewrite (bind_run (read _) _ _ _ _ eq_refl). unfold ret.
    change ("{" +:+ k +:+ "}") with (placeholder k). by rewrite Hreplace. }
  by rewrite (bind_run _ _ _ _ _ Hstep).
Qed.

End BuildUrl.

Lemma buildUrl_unknown_endpoint_witness :
  st_heap Program.boot !! registry = Some (Obj registry_entries) /\
  ("orders" ∉ keys registry_entries) /\
  ("orders" ∉ members Object_prototype) /\
  Endpoints.buildUrl (VRef registry) "orders" VUndefined Program.boot =
  (Throw (Error ("Endpoint '" +:+ "orders" +:+ "' not found")), Program.boot).
Proof.
  assert (Hr : st_heap Program.boot !! registry = Some (Obj registry_entries))
    by (vm_compute; reflexivity).
  assert (Hk : "orders" ∉ keys registry_entries) by by_computation.
  assert (Hproto : "orders" ∉ members Object_prototype) by by_computation.
  repeat (split; [assumption|]).
  exact (buildUrl_unknown_endpoint registry registry_entries "orders" VUndefined
           Program.boot Hr Hk Hproto).
Defined.

Lemma buildUrl_unmatched_params_witness :
  st_heap seven_state !! registry = Some (Obj registry_entries) /\
  obj_get registry_entries "users-me" = VRef users_me /\
  st_heap seven_state !! users_me = Some (Obj users_me_props) /\
  obj_get users_me_props "baseUrl" = VStr "https://dev-api.acexr.com" /\
  obj_get users_me_props "path" = VStr "/platform-services/v2/users/me" /\
  st_heap seven_state !! seven = Some (Obj [("id", VStr "7")]) /\
  Forall (fun kv =>
            includes ("https://dev-api.acexr.com" +:+ "/platform-services/v2/users/me")
              (placeholder kv.1) = false) [("id", VStr "7")] /\
  Endpoints.buildUrl (VRef registry) "users-me" (VRef seven) seven_state =
  (Ret (VStr ("https://dev-api.acexr.com" +:+ "/platform-services/v2/users/me")),
   seven_state).
Proof.
  assert (Hr : st_heap seven_state !! registry = Some (Obj registry_entries))
    by (vm_compute; reflexivity).
  assert (Hkey : obj_get registry_entries "users-me" = VRef users_me)
    by (vm_compute; reflexivity).
  assert (He : st_heap seven_state !! users_me = Some (Obj users_me_props))
    by (vm_compute; reflexivity).
  assert (Hb : obj_get users_me_props "baseUrl" = VStr "https://dev-api.acexr.com")
    by (vm_compute; reflexivity).
  assert (Hp : obj_get users_me_props "path" = VStr "/platform-services/v2/users/me")
    by (vm_compute; reflexivity).
  assert (Hparams : st_heap seven_state !! seven = Some (Obj [("id", VStr "7")]))
    by (vm_compute; reflexivity).
  assert (Hall : Forall (fun kv =>
            includes ("https://dev-api.acexr.com" +:+ "/platform-services/v2/users/me")
              (placeholder kv.1) = false) [("id", VStr "7")])
    by by_computation.
  repeat (split; [assumption|]).
  exact (buildUrl_unmatched_params registry registry_entries "users-me" users_me
           users_me_props "https://dev-api.acexr.com" "/platform-services/v2/users/me"
           seven [("id", VStr "7")] seven_state Hr Hkey He Hb Hp Hparams Hall).
Defined.

Lemma buildUrl_substitutes_witness :
  plain_text (VStr "7") /\
  st_heap seven_state !! registry = Some (Obj registry_entries) /\
  obj_get registry_entries "update-user" = VRef update_user /\
  st_heap seven_state !! update_user = Some (Obj update_user_props) /\
  obj_get update_user_props "baseUrl" = VStr "https://dev-api.acexr.com" /\
  obj_get update_user_props "path" = VStr "/platform-services/v2/users/{id}" /\
  st_heap seven_state !! seven = Some (Obj [("id", VStr "7")]) /\
  "https://dev-api.acexr.com" +:+ "/platform-services/v2/users/{id}"
    = "https://dev-api.acexr.com/platform-services/v2/users/" +:+ placeholder "id" +:+ "" /\
  ("{"%char ∉ list_ascii_of_string
                "https://dev-api.acexr.com/platform-services/v2/users/") /\
  ("$"%char ∉ list_ascii_of_string (String_of (st_heap seven_state) (VStr "7"))) /\
  Endpoints.buildUrl (VRef registry) "update-user" (VRef seven) seven_state =
  (Ret (VStr ("https://dev-api.acexr.com/platform-services/v2/users/"
              +:+ String_of (st_heap seven_state) (VStr "7") +:+ "")),
   seven_state).
Proof.
  assert (Hr : st_heap seven_state !! registry = Some (Obj registry_entries))
    by (vm_compute; reflexivity).
  assert (Hkey : obj_get registry_entries "update-user" = VRef update_user)
    by (vm_compute; reflexivity).
  assert (He : st_heap seven_state !! update_user = Some (Obj update_user_props))
    by (vm_compute; reflexivity).
  assert (Hb : obj_get update_user_props "baseUrl" = VStr "https://dev-api.acexr.com")
    by (vm_compute; reflexivity).
  assert (Hp : obj_get update_user_props "path" = VStr "/platform-services/v2/users/{id}")
    by (vm_compute; reflexivity).
  assert (Hparams : st_heap seven_state !! seven = Some (Obj [("id", VStr "7")]))
    by (vm_compute; reflexivity).
  assert (Hurl : "https://dev-api.acexr.com" +:+ "/platform-services/v2/users/{id}"
    = "https://dev-api.acexr.com/platform-services/v2/users/" +:+ placeholder "id" +:+ "")
    by (vm_compute; reflexivity).
  assert (Hbrace : "{"%char ∉ list_ascii_of_string
                     "https://dev-api.acexr.com/platform-services/v2/users/")
    by by_computation.
  assert (Hdollar : "$"%char ∉ list_ascii_of_string
                      (String_of (st_heap seven_state) (VStr "7")))
    by by_computation.
  assert (Hplain : plain_text (VStr "7")) by exact I.
  do 10 (split; [assumption|]).
  exact (buildUrl_substitutes registry registry_entries "update-user" update_user
           update_user_props "https://dev-api.acexr.com"
           "/platform-services/v2/users/{id}" seven "id" (VStr "7")
           "https://dev-api.acexr.com/platform-services/v2/users/" "" seven_state
           Hplain Hr Hkey He Hb Hp Hparams Hurl Hbrace Hdollar).
Defined.

(** ** The fields of a merged configuration *)

Section Fields.

Lemma merged_fields (suite override : list (string * value)) v :
  NoDup (keys suite) -> NoDup (keys override) ->
  let result := obj_set "thresholds" v (assign (assign [] suite) override) in
  (forall k, k ∈ keys result <->
             k = "thresholds" \/ k ∈ keys suite \/ k ∈ keys override) /\
  (forall k, k <> "thresholds" ->
             assoc k result = match assoc k override with
                              | Some x => Some x
                              | None => assoc k suite
                              end) /\
  assoc "thresholds" result = Some v.
Proof.
  intros Hs Ho result. unfold result.
  destruct (union_facts suite override Hs Ho) as (Hkeys & Hsome & Hnone).
  cbv zeta in Hkeys, Hsome, Hnone. repeat split.
  - rewrite keys_obj_set, Hkeys. tauto.
  - rewrite keys_obj_set, Hkeys. tauto.
  - intros k Hk. rewrite assoc_obj_set. destruct (decide _) as [|_]; [done|].
    destruct (assoc k override) as [x|] eqn:E; [by apply Hsome|by apply Hnone].
  - rewrite assoc_obj_set. by destruct (decide _).
Qed.

Lemma result_entries (h : heap) o props :
  own_entries (h ++ [o; Obj props]) (VRef (S (List.length h))) = props.
Proof.
  unfold own_entries. by destruct (lookup_fresh h o (Obj props)) as [_ ->].
Qed.

(** X6. The fields of a merged configuration, thresholds apart. For a
    registered suite, [mergeConfigs] returns a new object whose keys are
    the keys of the suite's configuration, the keys of the endpoint's
    override for that suite, and [thresholds]; a field that the override
    defines has the override's value, any other field has the suite's
    value, both taken as they are (nested values are shared, not copied);
    [thresholds] is always an object made by the call. *)
Theorem mergeConfigs_fields st endpoint suiteName :
  loaded (st_heap st) ->
  objects_wf (st_heap st) ->
  registered suiteName ->
  nullish endpoint = false ->
  exists r t st',
    TestSuites.mergeConfigs Program.testSuites endpoint suiteName st
      = (Ret (VRef r), st') /\
    let result := own_entries (st_heap st') (VRef r) in
    let suite := suite_fields (st_heap st) Program.testSuites suiteName in
    let override := override_fields (st_heap st) endpoint suiteName in
    (forall k, k ∈ keys result <->
               k = "thresholds" \/ k ∈ keys suite \/ k ∈ keys override) /\
    (forall k, k <> "thresholds" ->
               assoc k result = match assoc k override with
                                | Some x => Some x
                                | None => assoc k suite
                                end) /\
    assoc "thresholds" result = Some (VRef t) /\
    (List.length (st_heap st) <= t < r)%nat.
Proof.
  intros Hl Hwf Hreg Hobj.
  destruct (suite_shape suiteName Hreg) as (s & c & t0 & cprops & tprops & Hshape).
  destruct (Hshape _ Hl) as (Hs & Hc & Hcl & Ht & Htl & Hnd).
  destruct (get_prop_total (st_heap st) endpoint "testConfig" Hobj) as [tc Htc].
  rewrite mergeConfigs_unfold. cbv zeta.
  rewrite Hs. cbn [truthy]. rewrite Htc.
  assert (Hov : exists ov, (if nullish tc then Ret VUndefined
                            else get_prop (st_heap st) tc suiteName) = Ret ov).
  { destruct (nullish tc) eqn:E; [eauto|]. by apply get_prop_total. }
  destruct Hov as [ov Hov]. rewrite Hov.
  assert (Hsuite : suite_fields (st_heap st) Program.testSuites suiteName = cprops).
  { unfold suite_fields, suite_config, peek. change (nullish Program.testSuites) with false.
    cbv iota. rewrite Hs. cbn [nullish]. rewrite Hc.
    unfold own_entries. by rewrite Hcl. }
  assert (Hcnd : NoDup (keys cprops)).
  { rewrite <- Hsuite. by apply own_entries_NoDup. }
  assert (Hover : override_fields (st_heap st) endpoint suiteName =
                  own_entries (st_heap st) (or_else ov VUndefined)).
  { unfold override_fields, override_of. do 2 f_equal.
    unfold peek. rewrite Hobj, Htc.
    destruct (nullish tc); [by injection Hov as <-|by rewrite Hov]. }
  rewrite Hsuite, Hover. unfold or_else.
  destruct (truthy ov) eqn:Etr.
  - rewrite Hc, Ht.
    destruct (get_prop_total (st_heap st) ov "thresholds"
                (truthy_not_nullish _ Etr)) as [eth Heth].
    rewrite Heth. do 3 eexists. split; [reflexivity|]. cbn [st_heap].
    replace (spread (st_heap st) (spread (st_heap st) [] (VRef c)) ov)
      with (assign (assign [] cprops) (own_entries (st_heap st) ov))
      by (unfold spread; do 2 f_equal; unfold own_entries; by rewrite Hcl).
    rewrite !result_entries.
    destruct (merged_fields cprops (own_entries (st_heap st) ov)
                (VRef (List.length (st_heap st))) Hcnd
                (own_entries_NoDup _ ov Hwf)) as (Hkeys & Hfield & Hth).
    split; [exact Hkeys|]. split; [exact Hfield|]. split; [exact Hth|lia].
  - cbn [st_heap].
    destruct (Hshape _ (loaded_app _ [Obj []] Hl)) as (_ & Hc' & Hcl' & Ht' & _ & _).
    rewrite Hc', Ht'.
    assert (Hfresh : get_prop (st_heap st ++ [Obj []])
                       (VRef (List.length (st_heap st))) "thresholds" = Ret VUndefined).
    { unfold get_prop. rewrite lookup_app_r by lia.
      by rewrite Nat.sub_diag. }
    rewrite Hfresh. do 3 eexists. split; [reflexivity|]. cbn [st_heap].
    replace (spread (st_heap st ++ [Obj []])
               (spread (st_heap st ++ [Obj []]) [] (VRef c))
               (VRef (List.length (st_heap st))))
      with (assign (assign [] cprops) []).
    2:{ unfold spread. f_equal.
        - f_equal. unfold own_entries. by rewrite Hcl'.
        - unfold own_entries. rewrite lookup_app_r by lia.
          by rewrite Nat.sub_diag. }
    change (own_entries (st_heap st) VUndefined) with (@nil (string * value)).
    rewrite !result_entries.
    destruct (merged_fields cprops [] (VRef (List.length (st_heap st ++ [Obj []])))
                Hcnd (NoDup_nil_2 (A:=string))) as (Hkeys & Hfield & Hth).
    rewrite length_app in *. cbn [List.length] in *.
    split; [exact Hkeys|]. split; [exact Hfield|]. split; [exact Hth|lia].
Qed.

End Fields.

Lemma mergeConfigs_fields_witness :
  loaded (st_heap tuned_state) /\
  objects_wf (st_heap tuned_state) /\
  registered "load" /\
  nullish tuned = false /\
  exists r t st',
    TestSuites.mergeConfigs Program.testSuites tuned "load" tuned_state
      = (Ret (VRef r), st') /\
    let result := own_entries (st_heap st') (VRef r) in
    let suite := suite_fields (st_heap tuned_state) Program.testSuites "load" in
    let override := override_fields (st_heap tuned_state) tuned "load" in
    (forall k, k ∈ keys result <->
               k = "thresholds" \/ k ∈ keys suite \/ k ∈ keys override) /\
    (forall k, k <> "thresholds" ->
               assoc k result = match assoc k override with
                                | Some x => Some x
                                | None => assoc k suite
                                end) /\
    assoc "thresholds" result = Some (VRef t) /\
    (List.length (st_heap tuned_state) <= t < r)%nat.
Proof.
  assert (Hl : loaded (st_heap tuned_state)) by by_computation.
  assert (Hwf : objects_wf (st_heap tuned_state)) by by_computation.
  assert (Hreg : registered "load") by by_computation.
  repeat (split; [assumption || reflexivity|]).
  exact (mergeConfigs_fields tuned_state tuned "load" Hl Hwf Hreg eq_refl).
Defined.

(** The tuned endpoint merged with [load]: [vus] is the override's 100,
    [duration] is the suite's. *)
Example merge_tuned_fields :
  let run := TestSuites.mergeConfigs Program.testSuites tuned "load" tuned_state in
  match run.1 with
  | Ret r => (peek (st_heap run.2) r "vus", peek (st_heap run.2) r "duration")
  | Throw _ => (VUndefined, VUndefined)
  end
  = (VNum (Int 100),
     peek (st_heap Program.boot)
       (suite_config (st_heap Program.boot) Program.testSuites "load") "duration").
Proof. vm_compute. reflexivity. Qed.

(** X7. The failures of [mergeConfigs]. The suite name is looked up
    before the endpoint is read: a name that is neither a suite nor a
    member of [Object.prototype] is refused with the error [Test suite
    '<name>' not found] whatever the endpoint, even [undefined]; with a
    registered suite, an endpoint that is [undefined] or [null] ends the
    call in a [TypeError] on the read of [testConfig]. Either way the
    store is left as it was. *)
Theorem mergeConfigs_failures st endpoint name :
  loaded (st_heap st) ->
  (~ registered name -> name ∉ members Object_prototype ->
   TestSuites.mergeConfigs Program.testSuites endpoint name st
     = (Throw (Error ("Test suite '" +:+ name +:+ "' not found")), st)) /\
  (registered name -> nullish endpoint = true ->
   TestSuites.mergeConfigs Program.testSuites endpoint name st
     = (Throw (TypeError ("Cannot read property 'testConfig' of " +:+
                          match endpoint with VNull => "null" | _ => "undefined" end)),
        st)).
Proof.
  intros Hl. split.
  - intros Hreg Hproto. by apply mergeConfigs_unknown.
  - intros Hreg Hnull.
    destruct (suite_shape name Hreg) as (s & c & t0 & cprops & tprops & Hshape).
    destruct (Hshape _ Hl) as (Hs & _).
    rewrite mergeConfigs_unfold. cbv zeta. rewrite Hs. cbn [truthy].
    by destruct endpoint.
Qed.

Lemma mergeConfigs_failures_witness :
  loaded (st_heap Program.boot) /\
  ~ registered "peak" /\
  ("peak" ∉ members Object_prototype) /\
  registered "load" /\
  nullish VNull = true /\
  TestSuites.mergeConfigs Program.testSuites VUndefined "peak" Program.boot
    = (Throw (Error ("Test suite '" +:+ "peak" +:+ "' not found")), Program.boot) /\
  TestSuites.mergeConfigs Program.testSuites VNull "load" Program.boot
    = (Throw (TypeError ("Cannot read property 'testConfig' of " +:+ "null")),
       Program.boot).
Proof.
  assert (Hl : loaded (st_heap Program.boot)) by by_computation.
  assert (Hpeak : ~ registered "peak") by by_computation.
  assert (Hproto : "peak" ∉ members Object_prototype) by by_computation.
  assert (Hload : registered "load") by by_computation.
  do 5 (split; [assumption || reflexivity|]).
  split.
  - exact (proj1 (mergeConfigs_failures Program.boot VUndefined "peak" Hl) Hpeak Hproto).
  - exact (proj2 (mergeConfigs_failures Program.boot VNull "load" Hl) Hload eq_refl).
Defined.

(** ** A whole run of the batch runner *)

Section Silent.

Lemma silent_ret {A} (a : A) : silent (ret a).
Proof. intros st. by split. Qed.

Lemma silent_throw {A} e : silent (@throw A e).
Proof. intros st. by split. Qed.

Lemma silent_get v k : silent (get v k).
Proof. intros st. by split. Qed.

Lemma silent_read {A} (f : list object -> A) : silent (read f).
Proof. intros st. by split. Qed.

Lemma silent_alloc o : silent (alloc o).
Proof. intros st. split; [done|]. simpl. by apply prefix_app_r. Qed.

Lemma silent_bind {A B} (c : M A) (k : A -> M B) :
  silent c -> (forall a, silent (k a)) -> silent (bind c k).
Proof.
  intros Hc Hk st. unfold bind. destruct (Hc st) as [Ht Hh].
  destruct (c st) as [[a|e] st1]; simpl in *; [|done].
  destruct (Hk a st1) as [Ht' Hh']. split; [congruence|by etrans].
Qed.

Lemma reporting_silent {A} (c : M A) : silent c -> reporting c.
Proof.
  intros Hc st. destruct (Hc st) as [Ht Hh]. split; [done|].
  exists []. by rewrite app_nil_r.
Qed.

Lemma reporting_emit e : is_console e = true -> reporting (emit e).
Proof.
  intros He st. split; [done|]. exists [e]. split; [done|]. simpl. by rewrite He.
Qed.

Lemma reporting_bind {A B} (c : M A) (k : A -> M B) :
  reporting c -> (forall a, reporting (k a)) -> reporting (bind c k).
Proof.
  intros Hc Hk st. unfold bind. destruct (Hc st) as (Hh & lines & Ht & Hl).
  destruct (c st) as [[a|e] st1]; simpl in *; [|eauto].
  destruct (Hk a st1) as (Hh' & lines' & Ht' & Hl'). split; [by etrans|].
  exists (lines ++ lines'). split.
  - by rewrite Ht', Ht, app_assoc.
  - by rewrite forallb_app, Hl, Hl'.
Qed.

End Silent.

Ltac silent_step :=
  first
    [ apply silent_ret | apply silent_throw | apply silent_get | apply silent_read
    | apply silent_alloc
    | apply silent_bind; [|intros ?]
    | match goal with
      | |- silent (if ?b then _ else _) => destruct b
      | |- silent (match ?x with _ => _ end) => destruct x
      end ].

Ltac silent_auto := repeat silent_step.

Ltac reporting_step :=
  first
    [ apply reporting_emit; reflexivity
    | apply reporting_silent; solve [silent_auto]
    | apply reporting_bind; [|intros ?]
    | match goal with
      | |- reporting (if ?b then _ else _) => destruct b
      | |- reporting (match ?x with _ => _ end) => destruct x
      end ].

Ltac reporting_auto := repeat reporting_step.

Section WholeRun.

Variable env : environment.
Variable respond : list event -> option response.

Lemma console_requests trace : forallb is_console trace = true -> requests trace = [].
Proof.
  unfold requests. induction trace as [|e trace IH]; [done|]. simpl.
  intros [He Hrest]%andb_prop. destruct e; try discriminate He; by apply IH.
Qed.

Lemma metadata_silent b : silent (BatchRunner.metadata b).
Proof. unfold BatchRunner.metadata. silent_auto. Qed.

Lemma options_silent b : silent (BatchRunner.options Program.testSuites b).
Proof. unfold BatchRunner.options, BatchRunner.suite_of. silent_auto. Qed.

Lemma Array_join_silent v sep : silent (Array_join v sep).
Proof. unfold Array_join. silent_auto. Qed.

Lemma setup_reporting b : reporting (BatchRunner.setup b).
Proof.
  unfold BatchRunner.setup. reporting_auto.
  apply reporting_silent, Array_join_silent.
Qed.

(** A read on a value that is not an object of the store does not give
    one. *)
Lemma atomic_get h v k x : atomic v -> get_prop h v k = Ret x -> atomic x.
Proof.
  destruct v; try done; simpl; intros _ [= <-].
  - apply inherited_atomic.
  - apply inherited_atomic.
  - unfold str_get. destruct (decide _); [done|].
    destruct (array_index k ≫= elem_at (chars s)) as [c|] eqn:E;
      [|apply inherited_atomic].
    destruct (array_index k) as [i|]; [|done]. simpl in E. unfold elem_at, chars in E.
    apply list_lookup_fmap_Some in E as (? & -> & ?). done.
  - unfold builtin_get. by destruct (bool_decide _).
Qed.

(** The batch the runner selects, when it selects one: an entry of
    [batchConfig] whose [endpoints] is an array of strings, or a member of
    [Object.prototype]. *)
Lemma batch_result b st0 :
  BatchRunner.batch Program.endpoints env Program.boot = (Ret b, st0) ->
  st0 = {| st_heap := config_heap env; st_trace := [] |} /\
  (atomic b \/
   exists n props l (keys : list string),
     b = VRef n /\
     config_heap env !! n = Some (Obj props) /\
     obj_get props "endpoints" = VRef l /\
     config_heap env !! l = Some (Arr (VStr <$> keys))).
Proof.
  pose proof (batch_selected env) as Hsel. pose proof (batch_unknown env) as Hunk.
  cbv zeta in Hsel, Hunk.
  pose proof (config_custom_object env) as Hobj.
  pose proof (config_custom_keys env) as Hkeys.
  remember (override_or env "BATCH_CONFIG" "smoke") as key eqn:Hkey. clear Hkey.
  destruct (truthy (config_entry key)) eqn:Ht.
  - rewrite (Hsel eq_refl). intros [= <- <-]. split; [done|].
    destruct (decide (key ∈ batch_names)) as [Hin|Hout].
    + right. unfold batch_names in Hin.
      assert (Hcases : key = "smoke" \/ key = "getEndpointsLoad" \/
                       key = "postEndpointsStress" \/ key = "custom").
      { clear -Hin. rewrite !elem_of_cons, elem_of_nil in Hin. tauto. }
      clear Hin. destruct Hcases as [->|[->|[->| ->]]].
      * eexists _, _, _, endpoint_keys.
        split; [vm_compute; reflexivity|].
        split; [unfold config_heap; apply lookup_app_l_Some; vm_compute; reflexivity|].
        split; [vm_compute; reflexivity|].
        unfold config_heap. apply lookup_app_l_Some. vm_compute. reflexivity.
      * eexists _, _, _, ["users-me"; "client-configs"; "health-check"].
        split; [vm_compute; reflexivity|].
        split; [unfold config_heap; apply lookup_app_l_Some; vm_compute; reflexivity|].
        split; [vm_compute; reflexivity|].
        unfold config_heap. apply lookup_app_l_Some. vm_compute. reflexivity.
      * eexists _, _, _, ["create-user"; "auth/signin"].
        split; [vm_compute; reflexivity|].
        split; [unfold config_heap; apply lookup_app_l_Some; vm_compute; reflexivity|].
        split; [vm_compute; reflexivity|].
        unfold config_heap. apply lookup_app_l_Some. vm_compute. reflexivity.
      * eexists _, _, _, _.
        split; [reflexivity|]. split; [exact Hobj|]. split; [reflexivity|exact Hkeys].
    + left. unfold config_entry, obj_get.
      match goal with
      | |- context [assoc key ?props] =>
          assert (Hnone : assoc key props = None) by (apply assoc_None_keys; exact Hout)
      end.
      rewrite Hnone. apply inherited_atomic.
  - rewrite (Hunk eq_refl). discriminate.
Qed.

(** The load of the runner writes nothing to the trace; when it succeeds
    the batch it exports is the selected one, in a store that extends the
    store of [batchConfig]. *)
Lemma module_result :
  let loaded := BatchRunner.module Program.endpoints Program.testSuites env
                  Program.boot in
  st_trace loaded.2 = [] /\
  forall m, loaded.1 = Ret m ->
    config_heap env `prefix_of` st_heap loaded.2 /\
    BatchRunner.batch Program.endpoints env Program.boot
      = (Ret (BatchRunner.the_batch m),
         {| st_heap := config_heap env; st_trace := [] |}).
Proof.
  cbv zeta. unfold BatchRunner.module.
  pose proof (batch_selected env) as Hsel. pose proof (batch_unknown env) as Hunk.
  cbv zeta in Hsel, Hunk.
  destruct (truthy (config_entry (override_or env "BATCH_CONFIG" "smoke"))).
  - specialize (Hsel eq_refl). rewrite (bind_run _ _ _ _ _ Hsel).
    set (b := config_entry _) in *.
    set (rest := bind (BatchRunner.metadata b) _).
    assert (Hrest : silent rest).
    { unfold rest. apply silent_bind; [apply metadata_silent|intros m].
      apply silent_bind; [apply options_silent|intros o]. apply silent_ret. }
    destruct (Hrest {| st_heap := config_heap env; st_trace := [] |}) as [Ht Hh].
    split; [exact Ht|]. intros m Hm. split; [exact Hh|].
    rewrite Hsel. do 2 f_equal. unfold rest, bind in Hm. revert Hm.
    destruct (BatchRunner.metadata b _) as [[md|e] s1]; [|discriminate].
    destruct (BatchRunner.options _ b _) as [[o|e] s2]; [|discriminate].
    simpl. by intros [= <-].
  - specialize (Hunk eq_refl). unfold bind. rewrite Hunk.
    split; [reflexivity|]. intros m Hm. simpl in Hm. discriminate Hm.
Qed.

(** What [setup] hands to the main function. *)
Lemma setup_result b st d st' :
  BatchRunner.setup b st = (Ret d, st') ->
  exists l elems ts,
    get_prop (st_heap st) b "endpoints" = Ret (VRef l) /\
    st_heap st !! l = Some (Arr elems) /\
    d = VRef (List.length (st_heap st)) /\
    st_heap st' =
      st_heap st ++ [Obj [("batch", b); ("endpoints", VRef l); ("testSuite", ts)]].
Proof.
  unfold BatchRunner.setup, Array_join, bind, get, emit, alloc, read, throw.
  cbn [st_heap st_trace].
  destruct (get_prop (st_heap st) b "name") as [name|]; [|discriminate].
  destruct (get_prop (st_heap st) b "description") as [description|]; [|discriminate].
  destruct (get_prop (st_heap st) b "endpoints") as [ks|] eqn:Hks; [|discriminate].
  destruct ks as [| | | | |l|]; try discriminate. cbn [st_heap st_trace].
  destruct (st_heap st !! l) as [[props|elems]|] eqn:Hl; try discriminate.
  cbn [st_heap st_trace].
  destruct (get_prop (st_heap st) b "testSuite") as [ts|]; [|discriminate].
  destruct (get_prop (st_heap st) b "parallel") as [parallel|]; [|discriminate].
  destruct (get_prop (st_heap st) b "maxConcurrent") as [maxConcurrent|]; [|discriminate].
  destruct (get_prop (st_heap st) b "delayBetweenEndpoints") as [delay|]; [|discriminate].
  rewrite Hks. intros [= <- <-]. exists l, elems, ts.
  split; [reflexivity|]. split; [exact Hl|]. split; reflexivity.
Qed.

(** One turn of the loop over an array of strings adds console lines
    only. *)
Lemma callback_strings_reports batch l (keys : list string) k index st :
  st_heap st !! l = Some (Arr (VStr <$> keys)) ->
  exists st' lines,
    BatchRunner.callback env respond batch (VRef l) (VStr k) index st = (Ret tt, st') /\
    st_heap st' !! l = Some (Arr (VStr <$> keys)) /\
    st_trace st' = st_trace st ++ lines /\
    forallb is_console lines = true.
Proof.
  intros Hl. unfold BatchRunner.callback. unfold bind at 1 2. unfold read, get.
  cbn [st_heap st_trace]. rewrite String_of_VStr.
  assert (Hget : get_prop (st_heap st) (VRef l) k = Ret (arr_get (VStr <$> keys) k)).
  { unfold get_prop. by rewrite Hl. }
  rewrite Hget. destruct (truthy (arr_get (VStr <$> keys) k)) eqn:Ht; cbn [negb].
  - destruct (test_endpoint_atomic env respond batch l (VStr <$> keys) (VStr k) index
                (arr_get (VStr <$> keys) k) st Hl
                (arr_get_strings_atomic keys k) Ht) as [name ->].
    eexists _, _. split; [reflexivity|]. cbn [st_heap st_trace].
    split; [by apply lookup_app_l_Some|]. split; reflexivity.
  - eexists _, _. split; [reflexivity|]. cbn [st_heap st_trace].
    split; [exact Hl|]. split; reflexivity.
Qed.

Lemma for_each_strings_reports batch l (keys ks : list string) index st :
  st_heap st !! l = Some (Arr (VStr <$> keys)) ->
  exists st' lines,
    for_each_from index (VStr <$> ks) (BatchRunner.callback env respond batch (VRef l)) st
      = (Ret tt, st') /\
    st_trace st' = st_trace st ++ lines /\
    forallb is_console lines = true.
Proof.
  revert index st. induction ks as [|k ks IH]; intros index st Hl.
  - exists st, []. split; [reflexivity|]. by rewrite app_nil_r.
  - destruct (callback_strings_reports batch l keys k index st Hl)
      as (st1 & lines1 & Hrun1 & Hl1 & Ht1 & Hc1).
    destruct (IH (S index) st1 Hl1) as (st2 & lines2 & Hrun2 & Ht2 & Hc2).
    exists st2, (lines1 ++ lines2). rewrite fmap_cons. cbn [for_each_from].
    rewrite (bind_run _ _ _ _ _ Hrun1). split; [exact Hrun2|]. split.
    + by rewrite Ht2, Ht1, app_assoc.
    + by rewrite forallb_app, Hc1, Hc2.
Qed.

(** The main function on the data of [setup]. *)
Lemma default_reports d b l (keys : list string) ts st :
  st_heap st !! d = Some (Obj [("batch", b); ("endpoints", VRef l); ("testSuite", ts)]) ->
  st_heap st !! l = Some (Arr (VStr <$> keys)) ->
  exists st' lines,
    BatchRunner.default env respond (VRef d) st = (Ret tt, st') /\
    st_trace st' = st_trace st ++ lines /\
    forallb is_console lines = true.
Proof.
  intros Hd Hl. unfold BatchRunner.default.
  assert (Hget : forall k, get (VRef d) k st
                 = (Ret (obj_get [("batch", b); ("endpoints", VRef l); ("testSuite", ts)] k),
                    st)).
  { intros k. unfold get, get_prop. by rewrite Hd. }
  rewrite !(bind_run _ _ _ _ _ (Hget _)).
  change (obj_get _ "batch") with b. change (obj_get _ "endpoints") with (VRef l).
  unfold Array_forEach. rewrite (bind_run (read _) _ _ _ _ eq_refl), Hl.
  apply (for_each_strings_reports b l keys keys 0 st Hl).
Qed.

(** X8. A whole run of the batch runner (load, [setup], one iteration of
    the main function) on the shipped configuration, whatever the
    environment and whatever the engine would answer: the trace holds
    console lines only. No request is sent, no check is recorded and no
    delay is taken, whichever batch is selected and also when the load or
    [setup] fails. *)
Theorem run_reports_only :
  let final := BatchRunner.run Program.endpoints Program.testSuites env respond
                 Program.boot in
  forallb is_console (st_trace final.2) = true /\
  requests (st_trace final.2) = [].
Proof.
  cbv zeta.
  assert (Hconsole : forallb is_console
            (st_trace (BatchRunner.run Program.endpoints Program.testSuites env respond
                         Program.boot).2) = true);
    [|split; [exact Hconsole|by apply console_requests]].
  unfold BatchRunner.run. destruct module_result as [Htrace Hmodule].
  unfold bind at 1.
  destruct (BatchRunner.module Program.endpoints Program.testSuites env Program.boot)
    as [[m|e] st1]; cbn [fst snd] in *; [|by rewrite Htrace].
  destruct (Hmodule m eq_refl) as [Hprefix Hbatch].
  destruct (batch_result _ _ Hbatch) as [_ Hshape].
  unfold bind.
  destruct (setup_reporting (BatchRunner.the_batch m) st1) as (_ & lines & Hlines & Hc).
  destruct (BatchRunner.setup (BatchRunner.the_batch m) st1) as [[d|e] st2] eqn:Hsetup;
    cbn [fst snd] in *; [|by rewrite Hlines, Htrace].
  destruct (setup_result _ _ _ _ Hsetup) as (l & elems & ts & Hks & Hl & -> & Hheap).
  destruct Hshape as [Hatomic|(n & props & l' & keys & Hb & Hn & Hl' & Hkeys)].
  { destruct (atomic_get _ _ _ _ Hatomic Hks). }
  assert (Hn1 : st_heap st1 !! n = Some (Obj props))
    by (by eapply prefix_lookup_Some).
  rewrite Hb in Hks. unfold get_prop in Hks. rewrite Hn1, Hl' in Hks.
  injection Hks as <-.
  assert (Hl1 : st_heap st1 !! l' = Some (Arr (VStr <$> keys)))
    by (by eapply prefix_lookup_Some).
  destruct (default_reports (List.length (st_heap st1)) (BatchRunner.the_batch m) l' keys
              ts st2) as (st3 & lines' & Hrun & Htrace3 & Hc').
  { rewrite Hheap. by apply list_lookup_middle. }
  { rewrite Hheap. by apply lookup_app_l_Some. }
  rewrite Hrun. cbn [snd]. rewrite Htrace3, Hlines, Htrace.
  by rewrite app_nil_l, forallb_app, Hc, Hc'.
Qed.

End WholeRun.

(** ** The options of a batch run *)

Section Options.

Lemma peek_get h v k x : get_prop h v k = Ret x -> peek h v k = x.
Proof. intros H. unfold peek. rewrite H. by destruct v. Qed.

Lemma assoc_spread h v k :
  objects_wf h -> assoc k (spread h [] v) = assoc k (own_entries h v).
Proof.
  intros Hwf. unfold spread. rewrite assoc_assign by (by apply own_entries_NoDup).
  by destruct (assoc k _).
Qed.

(** X9. The options of a batch run, whenever they can be built. Every
    field other than [thresholds] is the field of the configuration of
    the suite the batch names. The thresholds are the suite's, except
    that [http_req_duration] is always [['p95<1000']] and
    [http_req_failed] is always [['rate<0.05']]: the suite's own limits
    for these two metrics are replaced, whichever suite it is. *)
Theorem options_thresholds testSuites b st o st' :
  objects_wf (st_heap st) ->
  BatchRunner.options testSuites b st = (Ret o, st') ->
  let config := batch_suite_config (st_heap st) testSuites b in
  let result := own_entries (st_heap st') o in
  let thresholds := own_entries (st_heap st') (peek (st_heap st') o "thresholds") in
  (forall k, k <> "thresholds" ->
             assoc k result = assoc k (own_entries (st_heap st) config)) /\
  (forall k, k <> "http_req_duration" -> k <> "http_req_failed" ->
             assoc k thresholds
             = assoc k (own_entries (st_heap st) (peek (st_heap st) config "thresholds"))) /\
  exists d f,
    assoc "http_req_duration" thresholds = Some (VRef d) /\
    st_heap st' !! d = Some (Arr [VStr "p95<1000"]) /\
    assoc "http_req_failed" thresholds = Some (VRef f) /\
    st_heap st' !! f = Some (Arr [VStr "rate<0.05"]).
Proof.
  intros Hwf. unfold BatchRunner.options, BatchRunner.suite_of, bind, get, read, alloc.
  cbn [st_heap st_trace].
  destruct (get_prop (st_heap st) b "testSuite") as [ts|] eqn:Hts; [|discriminate].
  destruct (get_prop (st_heap st) testSuites (String_of (st_heap st) ts))
    as [suite|] eqn:Hsuite; [|discriminate].
  destruct (get_prop (st_heap st) suite "config") as [config|] eqn:Hconfig;
    [|discriminate].
  cbn [st_heap st_trace]. rewrite Hts. cbn [st_heap st_trace].
  rewrite Hsuite, Hconfig.
  destruct (get_prop (st_heap st) config "thresholds") as [sth|] eqn:Hsth;
    [|discriminate].
  cbn [st_heap st_trace]. intros [= <- <-]. cbn [st_heap].
  assert (Hcfg : batch_suite_config (st_heap st) testSuites b = config).
  { unfold batch_suite_config.
    by rewrite (peek_get _ _ _ _ Hts), (peek_get _ _ _ _ Hsuite), (peek_get _ _ _ _ Hconfig). }
  rewrite Hcfg, (peek_get _ _ _ _ Hsth). clear Hcfg.
  rewrite !length_app. cbn [List.length]. rewrite <- !app_assoc. cbn [app].
  set (h := st_heap st) in *. set (n := List.length h).
  set (th := obj_set "http_req_failed" _ _). set (opts := obj_set "thresholds" _ _).
  set (h' := h ++ _).
  assert (Hat : forall i, h' !! (n + i)%nat
                          = [Arr [VStr "p95<1000"]; Arr [VStr "rate<0.05"];
                             Obj th; Obj opts] !! i).
  { intros i. unfold h', n. rewrite lookup_app_r by lia. f_equal. lia. }
  assert (H0 : h' !! n = Some (Arr [VStr "p95<1000"])).
  { rewrite <- (Nat.add_0_r n). apply Hat. }
  assert (H1 : h' !! (n + 1)%nat = Some (Arr [VStr "rate<0.05"])) by apply Hat.
  assert (H2 : h' !! (n + 1 + 1)%nat = Some (Obj th)).
  { rewrite <- Nat.add_assoc. apply Hat. }
  assert (H3 : h' !! (n + 1 + 1 + 1)%nat = Some (Obj opts)).
  { rewrite <- !Nat.add_assoc. apply Hat. }
  assert (Hth : peek h' (VRef (n + 1 + 1 + 1)) "thresholds" = VRef (n + 1 + 1)).
  { unfold peek, get_prop. cbn [nullish]. rewrite H3. unfold obj_get, opts.
    rewrite assoc_obj_set. by destruct (decide _). }
  assert (Hown2 : own_entries h' (VRef (n + 1 + 1)) = th)
    by (unfold own_entries; by rewrite H2).
  assert (Hown3 : own_entries h' (VRef (n + 1 + 1 + 1)) = opts)
    by (unfold own_entries; by rewrite H3).
  rewrite Hth, !Hown2, !Hown3.
  split; [|split].
  - intros k Hk. unfold opts. rewrite assoc_obj_set.
    destruct (decide _) as [|_]; [done|]. by apply assoc_spread.
  - intros k Hd Hf. unfold th. rewrite !assoc_obj_set.
    destruct (decide _) as [|_]; [done|]. destruct (decide _) as [|_]; [done|].
    by apply assoc_spread.
  - exists n, (n + 1)%nat. unfold th. rewrite !assoc_obj_set.
    split; [reflexivity|]. split; [exact H0|]. split; [reflexivity|exact H1].
Qed.

End Options.

Lemma options_thresholds_witness :
  objects_wf (st_heap smoke_data_state) /\
  BatchRunner.options Program.testSuites smoke_data_batch smoke_data_state
    = (Ret smoke_options, smoke_options_state) /\
  let config := batch_suite_config (st_heap smoke_data_state) Program.testSuites
                  smoke_data_batch in
  let result := own_entries (st_heap smoke_options_state) smoke_options in
  let thresholds :=
    own_entries (st_heap smoke_options_state)
      (peek (st_heap smoke_options_state) smoke_options "thresholds") in
  (forall k, k <> "thresholds" ->
             assoc k result = assoc k (own_entries (st_heap smoke_data_state) config)) /\
  (forall k, k <> "http_req_duration" -> k <> "http_req_failed" ->
             assoc k thresholds
             = assoc k (own_entries (st_heap smoke_data_state)
                          (peek (st_heap smoke_data_state) config "thresholds"))) /\
  exists d f,
    assoc "http_req_duration" thresholds = Some (VRef d) /\
    st_heap smoke_options_state !! d = Some (Arr [VStr "p95<1000"]) /\
    assoc "http_req_failed" thresholds = Some (VRef f) /\
    st_heap smoke_options_state !! f = Some (Arr [VStr "rate<0.05"]).
Proof.
  assert (Hwf : objects_wf (st_heap smoke_data_state)) by by_computation.
  assert (Hrun : BatchRunner.options Program.testSuites smoke_data_batch smoke_data_state
                 = (Ret smoke_options, smoke_options_state))
    by (vm_compute; reflexivity).
  split; [exact Hwf|]. split; [exact Hrun|].
  exact (options_thresholds Program.testSuites smoke_data_batch smoke_data_state
           smoke_options smoke_options_state Hwf Hrun).
Defined.

(** The options of the default batch: the limit of the [smoke] suite on
    failed requests, [rate<0.01], is replaced by the batch's, which keeps
    the suite's place; the limit on the duration is added. *)
Example smoke_options_thresholds :
  tree_of (st_heap smoke_options_state)
    (peek (st_heap smoke_options_state) smoke_options "thresholds")
  = TObj [("http_req_failed", strs ["rate<0.05"]);
          ("http_req_duration", strs ["p95<1000"])] /\
  tree_of (st_heap Program.boot)
    (peek (st_heap Program.boot)
       (suite_config (st_heap Program.boot) Program.testSuites "smoke") "thresholds")
  = TObj [("http_req_failed", strs ["rate<0.01"])].
Proof. split; vm_compute; reflexivity. Qed.

(** ** A custom batch with a suite that does not exist *)

Section CustomSuite.

Variable env : environment.

Lemma metadata_object n props st :
  st_heap st !! n = Some (Obj props) ->
  BatchRunner.metadata (VRef n) st =
  (Ret (VRef (List.length (st_heap st))),
   {| st_heap := st_heap st ++
        [Obj [("batchName", obj_get props "name");
              ("batchDescription", obj_get props "description");
              ("endpoints", obj_get props "endpoints");
              ("testSuite", obj_get props "testSuite");
              ("parallel", obj_get props "parallel");
              ("maxConcurrent", or_else (obj_get props "maxConcurrent") (VNum (Int 1)));
              ("delayBetweenEndpoints",
               or_else (obj_get props "delayBetweenEndpoints") (VNum (Int 0)))]];
      st_trace := st_trace st |}).
Proof.
  intros Hn. unfold BatchRunner.metadata.
  assert (Hget : forall k, get (VRef n) k st = (Ret (obj_get props k), st)).
  { intros k. unfold get, get_prop. by rewrite Hn. }
  rewrite !(bind_run _ _ _ _ _ (Hget _)). reflexivity.
Qed.

(** The suite is looked up when the options are built: a name the
    registry does not hold ends in a read on [undefined]. *)
Lemma options_unknown_suite n props suite st :
  st_heap st !! n = Some (Obj props) ->
  obj_get props "testSuite" = VStr suite ->
  loaded (st_heap st) ->
  ~ registered suite ->
  suite ∉ members Object_prototype ->
  BatchRunner.options Program.testSuites (VRef n) st =
  (Throw (TypeError "Cannot read property 'config' of undefined"), st).
Proof.
  intros Hn Hsuite Hl Hreg Hproto.
  destruct (registry_object _ Hl) as (suites & Hsuites & Hkeys).
  assert (Hts : get (VRef n) "testSuite" st = (Ret (VStr suite), st)).
  { unfold get, get_prop. by rewrite Hn, Hsuite. }
  assert (Hlookup : get Program.testSuites suite st = (Ret VUndefined, st)).
  { unfold get, get_prop, Program.testSuites. rewrite Hsuites.
    rewrite obj_get_absent; [done| |done]. rewrite Hkeys. exact Hreg. }
  unfold BatchRunner.options, BatchRunner.suite_of.
  unfold bind at 1 2. rewrite Hts.
  rewrite (bind_run (read _) _ _ _ _ eq_refl). cbn [st_heap].
  rewrite String_of_VStr, Hlookup. reflexivity.
Qed.

(** X10. The custom batch with a suite name that is neither a registered
    suite nor a member of [Object.prototype]: the name is not checked
    when the batch is selected, and the load of the runner ends in a
    [TypeError] on the read of the suite's [config], with nothing
    logged. *)
Theorem custom_unknown_suite :
  ~ registered (override_or env "BATCH_TEST_SUITE" "load") ->
  (override_or env "BATCH_TEST_SUITE" "load" ∉ members Object_prototype) ->
  exists st',
    BatchRunner.module Program.endpoints Program.testSuites (plan_env "custom" env)
      Program.boot
    = (Throw (TypeError "Cannot read property 'config' of undefined"), st') /\
    st_trace st' = [].
Proof.
  intros Hreg Hproto. unfold BatchRunner.module.
  assert (Hbatch : BatchRunner.batch Program.endpoints (plan_env "custom" env)
                     Program.boot
                   = (Ret (VRef (S (List.length (st_heap fixed_state)))),
                      {| st_heap := config_heap env; st_trace := [] |})).
  { rewrite batch_selected by (rewrite plan_key; reflexivity).
    by rewrite plan_key, config_heap_plan_env. }
  rewrite (bind_run _ _ _ _ _ Hbatch).
  rewrite (bind_run _ _ _ _ _
             (metadata_object _ _ {| st_heap := config_heap env; st_trace := [] |}
                (config_custom_object env))).
  cbn [st_heap st_trace].
  match goal with
  | |- context [bind (BatchRunner.options _ _) _ ?s] =>
      assert (Hopt : BatchRunner.options Program.testSuites
                       (VRef (S (List.length (st_heap fixed_state)))) s
                     = (Throw (TypeError "Cannot read property 'config' of undefined"), s))
  end.
  { eapply options_unknown_suite;
      [cbn [st_heap]; apply lookup_app_l_Some; apply config_custom_object
      |reflexivity| |exact Hreg|exact Hproto].
    cbn [st_heap]. unfold config_heap. rewrite <- app_assoc.
    apply loaded_app. by_computation. }
  unfold bind. rewrite Hopt. eexists. split; reflexivity.
Qed.

End CustomSuite.

Lemma custom_unknown_suite_witness :
  ~ registered (override_or (env_of [("BATCH_TEST_SUITE", "peak")])
                  "BATCH_TEST_SUITE" "load") /\
  (override_or (env_of [("BATCH_TEST_SUITE", "peak")]) "BATCH_TEST_SUITE" "load"
     ∉ members Object_prototype) /\
  exists st',
    BatchRunner.module Program.endpoints Program.testSuites
      (plan_env "custom" (env_of [("BATCH_TEST_SUITE", "peak")])) Program.boot
    = (Throw (TypeError "Cannot read property 'config' of undefined"), st') /\
    st_trace st' = [].
Proof.
  assert (Hreg : ~ registered (override_or (env_of [("BATCH_TEST_SUITE", "peak")])
                                 "BATCH_TEST_SUITE" "load")) by by_computation.
  assert (Hproto : override_or (env_of [("BATCH_TEST_SUITE", "peak")])
                     "BATCH_TEST_SUITE" "load" ∉ members Object_prototype)
    by by_computation.
  split; [exact Hreg|]. split; [exact Hproto|].
  exact (custom_unknown_suite (env_of [("BATCH_TEST_SUITE", "peak")]) Hreg Hproto).
Defined.

(** ** The wrapper scripts and the registries *)

Section Wrappers.

(** X11. The names the wrapper of the batch runner accepts are the keys
    of [batchConfig], whatever the environment: [validate_batch_config]
    returns 0 on a name if and only if the runner has a batch of that
    name. *)
Theorem wrapper_batch_names env name :
  exists config st',
    BatchRunner.batchConfig Program.endpoints env Program.boot = (Ret config, st') /\
    ((Shell.validate_batch_config name).2 = Shell.Returns 0
     <-> name ∈ keys (own_entries (st_heap st') config)).
Proof.
  do 2 eexists. split; [apply batchConfig_boot|]. cbn [st_heap].
  unfold own_entries. rewrite config_object.
  change (keys _) with batch_names. unfold Shell.validate_batch_config.
  fold batch_names. case_bool_decide; cbn [snd]; split; try done.
Qed.

(** X12. The wrapper that tests one endpoint and the registries. An
    endpoint name that [validate_endpoint] accepts is a key of the
    endpoint registry, and [check_auth_requirements] announces that no
    authentication is required exactly when the registry says so; the
    suites [validate_test_suite] accepts are exactly the registered ones.
    The registered endpoint [auth/signin] is refused by the wrapper. *)
Theorem wrapper_endpoint_lists name token script suite :
  ((EndpointScript.validate_endpoint name).2 = Shell.Returns 0 ->
   name ∈ endpoint_keys /\
   (EndpointScript.check_auth_requirements name token script suite
      = ["[INFO] No authentication required for this endpoint"]
    <-> truthy (peek (st_heap Program.boot) (endpoint_of name) "requiresAuth") = false)) /\
  ((Shell.validate_test_suite name).2 = Shell.Returns 0 <-> registered name) /\
  "auth/signin" ∈ endpoint_keys /\
  (EndpointScript.validate_endpoint "auth/signin").2 = Shell.Exits 1.
Proof.
  split; [|split; [|split]].
  - unfold EndpointScript.validate_endpoint. case_bool_decide as Hin; [|done].
    intros _.
    repeat (apply elem_of_cons in Hin as [->|Hin]); [..|by apply elem_of_nil in Hin].
    all: split; [by_computation|].
    all: unfold EndpointScript.check_auth_requirements.
    all: rewrite ?bool_decide_eq_true_2 by by_computation.
    all: rewrite ?bool_decide_eq_false_2 by by_computation.
    all: try (split; [reflexivity|reflexivity]).
    all: change (truthy _) with true.
    all: split; [|discriminate].
    all: case_bool_decide; discriminate.
  - rewrite registered_names. unfold Shell.validate_test_suite.
    case_bool_decide; cbn [snd]; split; try done.
  - by_computation.
  - reflexivity.
Qed.

End Wrappers.

(** ** One endpoint of a batch, from the request to the delay *)

Section Endpoint.

Variable env : environment.
Variable respond : list event -> option response.

Lemma try_catch_ret {A} (c : M A) (handler : exn -> M A) st a st1 :
  c st = (Ret a, st1) -> try_catch c handler st = (Ret a, st1).
Proof. intros H. unfold try_catch. by rewrite H. Qed.

Lemma try_catch_throw {A} (c : M A) (handler : exn -> M A) st e st1 :
  c st = (Throw e, st1) -> try_catch c handler st = handler e st1.
Proof. intros H. unfold try_catch. by rewrite H. Qed.

Lemma bind_throw {A B} (c : M A) (k : A -> M B) st e st1 :
  c st = (Throw e, st1) -> bind c k st = (Throw e, st1).
Proof. intros H. unfold bind. by rewrite H. Qed.

Lemma number_lt_sub i n :
  number_lt (Int i) (js_sub (VNum (Int n)) (VNum (Int 1))) = (i <? n - 1).
Proof.
  unfold js_sub. cbn [to_number]. unfold number_of_Z.
  by destruct (Z.abs (n - 1) <=? 2 ^ 53).
Qed.

(** The checks on a response, for a validation record that is complete. *)
Lemma run_checks_records endpointKey e props v validation limit hl names r st :
  st_heap st !! e = Some (Obj props) ->
  obj_get props "validation" = VRef v ->
  st_heap st !! v = Some (Obj validation) ->
  obj_get validation "responseTime" = VNum limit ->
  obj_get validation "requiredHeaders" = VRef hl ->
  st_heap st !! hl = Some (Arr (VStr <$> names)) ->
  BatchRunner.run_checks endpointKey (VRef e) r st =
  (Ret tt,
   {| st_heap := st_heap st;
      st_trace := st_trace st ++ check_events endpointKey validation limit names r |}).
Proof.
  intros He Hv Hval Hlimit Hreq Hhl. unfold BatchRunner.run_checks.
  assert (Hgv : forall tr, get (VRef e) "validation" (Build_state (st_heap st) tr)
                           = (Ret (VRef v), Build_state (st_heap st) tr)).
  { intros tr. unfold get, get_prop. cbn [st_heap]. by rewrite He, Hv. }
  assert (Hg : forall k tr, get (VRef v) k (Build_state (st_heap st) tr)
                            = (Ret (obj_get validation k), Build_state (st_heap st) tr)).
  { intros k tr. unfold get, get_prop. cbn [st_heap]. by rewrite Hval. }
  destruct st as [h t]. cbn [st_heap st_trace] in *.
  rewrite (bind_run _ _ _ _ _ (Hgv _)), (bind_run _ _ _ _ _ (Hg _ _)).
  rewrite (bind_run _ _ _ _ _ (Hgv _)), (bind_run _ _ _ _ _ (Hg _ _)).
  rewrite (bind_run _ _ _ _ _ (Hgv _)), (bind_run _ _ _ _ _ (Hg _ _)).
  rewrite (bind_run (emit _) _ _ _ _ eq_refl). cbn [st_heap st_trace].
  rewrite (bind_run _ _ _ _ _ (Hgv _)), (bind_run _ _ _ _ _ (Hg _ _)).
  rewrite (bind_run (emit _) _ _ _ _ eq_refl). cbn [st_heap st_trace].
  rewrite (bind_run _ _ _ _ _ (Hgv _)), (bind_run _ _ _ _ _ (Hg _ _)).
  rewrite Hlimit, Hreq. cbn [to_number].
  assert (Hall : forall tr, BatchRunner.every_header (VRef hl) r (Build_state h tr)
                 = (Ret (forallb (BatchRunner.has_header r) names), Build_state h tr)).
  { intros tr. unfold BatchRunner.every_header.
    rewrite (bind_run (read _) _ _ _ _ eq_refl). cbn [st_heap]. rewrite Hhl.
    unfold read. cbn [st_heap]. do 2 f_equal. clear.
    induction names as [|n names IH]; [done|]. rewrite fmap_cons. cbn [forallb].
    by rewrite String_of_VStr, IH. }
  rewrite (bind_run _ _ _ _ _ (Hall _)). unfold emit. cbn [st_heap st_trace].
  unfold check_events. by rewrite <- !app_assoc.
Qed.

(** The delay after an endpoint that was tested. *)
Lemma pause_runs bl bprops l elems index st :
  st_heap st !! bl = Some (Obj bprops) ->
  st_heap st !! l = Some (Arr elems) ->
  (let* parallel := get (VRef bl) "parallel" in
   let* len := get (VRef l) "length" in
   if negb (truthy parallel)
      && number_lt (Int (Z.of_nat index)) (js_sub len (VNum (Int 1)))
   then
     let* delay := get (VRef bl) "delayBetweenEndpoints" in
     emit (SleepFor delay)
   else ret tt) st
  = (Ret tt,
     {| st_heap := st_heap st;
        st_trace := st_trace st ++ pause_events bprops (List.length elems) index |}).
Proof.
  intros Hbl Hl. destruct st as [h t]. cbn [st_heap st_trace] in *.
  assert (Hgb : forall k, get (VRef bl) k (Build_state h t)
                          = (Ret (obj_get bprops k), Build_state h t)).
  { intros k. unfold get, get_prop. cbn [st_heap]. by rewrite Hbl. }
  assert (Hlen : get (VRef l) "length" (Build_state h t)
                 = (Ret (VNum (Int (Z.of_nat (List.length elems)))), Build_state h t)).
  { unfold get, get_prop. cbn [st_heap]. by rewrite Hl. }
  rewrite (bind_run _ _ _ _ _ (Hgb _)), (bind_run _ _ _ _ _ Hlen), number_lt_sub.
  unfold pause_events.
  destruct (negb (truthy (obj_get bprops "parallel"))
            && (Z.of_nat index <? Z.of_nat (List.length elems) - 1)).
  - by rewrite (bind_run _ _ _ _ _ (Hgb _)).
  - unfold ret. by rewrite app_nil_r.
Qed.

(** X13. One endpoint of a batch, from the first line to the delay. For an
    endpoint object with one of the five verbs, a base URL and a path that
    are strings, and a complete validation record, the callback returns
    and adds to the trace, in this order: the line that names the
    endpoint; the warning about the missing token, if the endpoint
    requires authentication and no token is set; the request, whose
    headers carry the bearer token if the endpoint requires
    authentication and a token is set; then, when the engine answers, the
    three checks (all three, whatever their outcomes) and the line with
    the status, and when the request fails, the error line instead: a
    failure does not end the batch; last, the delay, in a batch that is
    not parallel and unless the key is the last one. *)
Theorem test_endpoint_trace bl bprops l elems endpointKey index e props verb base path
    v validation limit hl names st :
  st_heap st !! e = Some (Obj props) ->
  obj_get props "method" = VStr verb ->
  verb ∈ supported_verbs ->
  obj_get props "baseUrl" = VStr base ->
  obj_get props "path" = VStr path ->
  obj_get props "validation" = VRef v ->
  st_heap st !! v = Some (Obj validation) ->
  obj_get validation "responseTime" = VNum limit ->
  obj_get validation "requiredHeaders" = VRef hl ->
  st_heap st !! hl = Some (Arr (VStr <$> names)) ->
  st_heap st !! bl = Some (Obj bprops) ->
  st_heap st !! l = Some (Arr elems) ->
  exists body st',
    BatchRunner.test_endpoint env respond (VRef bl) (VRef l) endpointKey index (VRef e) st
      = (Ret tt, st') /\
    let sent :=
      st_trace st ++
      [endpoint_line index (List.length elems) (obj_get props "name")] ++
      auth_lines env endpointKey (obj_get props "requiresAuth") ++
      [HttpRequest verb (VStr (base +:+ path)) body
         (sent_headers env (obj_get props "requiresAuth"))] in
    st_trace st' =
      sent ++ answer_events respond endpointKey validation limit names sent
           ++ pause_events bprops (List.length elems) index.
Proof.
  intros He Hm Hverb Hb Hp Hv Hval Hlimit Hreq Hhl Hbl Hl.
  destruct st as [h t]. cbn [st_heap st_trace] in *.
  assert (Hget : forall k tr,
    get (VRef e) k (Build_state h tr) = (Ret (obj_get props k), Build_state h tr)).
  { intros k tr. unfold get, get_prop. cbn [st_heap]. by rewrite He. }
  assert (Hlen : get (VRef l) "length" (Build_state h t)
                 = (Ret (VNum (Int (Z.of_nat (List.length elems)))), Build_state h t)).
  { unfold get, get_prop. cbn [st_heap]. by rewrite Hl. }
  unfold BatchRunner.test_endpoint.
  rewrite (bind_run _ _ _ _ _ Hlen), (bind_run _ _ _ _ _ (Hget "name" t)).
  rewrite (bind_run (emit _) _ _ _ _ eq_refl). cbn [st_heap st_trace].
  rewrite (bind_run _ _ _ _ _ (Hget "baseUrl" _)).
  rewrite (bind_run _ _ _ _ _ (Hget "path" _)), Hb, Hp.
  rewrite (bind_run (read _) _ _ _ _ eq_refl). cbn [st_heap st_trace].
  change (js_add h (VStr base) (VStr path))
    with (VStr (String_of h (VStr base) +:+ String_of h (VStr path))).
  rewrite !String_of_VStr.
  rewrite (bind_run (alloc _) _ _ _ _ eq_refl). cbn [st_heap st_trace].
  rewrite (bind_run (alloc _) _ _ _ _ eq_refl). cbn [st_heap st_trace].
  rewrite length_app. cbn [List.length].
  fold (endpoint_line index (List.length elems) (obj_get props "name")).
  set (line := endpoint_line _ _ _).
  set (options_at := (List.length h + 1)%nat).
  set (h2 := (h ++ [Obj _]) ++ [Obj _]).
  assert (Hold2 : forall i o, h !! i = Some o -> h2 !! i = Some o).
  { intros i o Hi. subst h2. rewrite <- app_assoc. by apply lookup_app_l_Some. }
  assert (Hoptions : h2 !! options_at = Some (Obj [("headers", VRef (List.length h))])).
  { subst h2 options_at. apply list_lookup_middle. rewrite length_app. reflexivity. }
  assert (Hheaders : h2 !! List.length h = Some (Obj plain_headers)).
  { subst h2. rewrite <- app_assoc. by apply list_lookup_middle. }
  rewrite (bind_run (get (VRef e) "requiresAuth") _ _ (obj_get props "requiresAuth")
             (Build_state h2 _))
    by (unfold get, get_prop; cbn [st_heap]; by rewrite (Hold2 _ _ He)).
  set (requiresAuth := obj_get props "requiresAuth").
  match goal with
  | |- context [bind ?c ?k {| st_heap := h2; st_trace := ?t1 |}] =>
      assert (Hauth : exists h7,
        c {| st_heap := h2; st_trace := t1 |}
        = (Ret tt, {| st_heap := h7;
                      st_trace := t1 ++ auth_lines env endpointKey requiresAuth |}) /\
        (forall i o, h !! i = Some o -> h7 !! i = Some o) /\
        h7 !! options_at = Some (Obj [("headers", VRef (List.length h))]) /\
        h7 !! List.length h = Some (Obj (sent_headers env requiresAuth)))
  end.
  { unfold auth_lines, sent_headers. destruct (truthy requiresAuth).
    - destruct (auth_token env) as [token|] eqn:Htoken.
      + destruct (auth_token_Some _ _ Htoken) as [Henv Htruthy]. rewrite Henv, Htruthy.
        exists (<[List.length h :=
                   Obj (plain_headers ++ [("Authorization", VStr ("Bearer " +:+ token))])]> h2).
        split; [|split; [|split]].
        * rewrite (bind_run (get (VRef options_at) "headers") _ _ (VRef (List.length h))
                     (Build_state h2 _))
            by (unfold get, get_prop; cbn [st_heap]; by rewrite Hoptions).
          rewrite (bind_run (read _) _ _ _ _ eq_refl). cbn [st_heap st_trace].
          rewrite String_of_VStr. unfold set_prop. cbn [st_heap st_trace].
          rewrite Hheaders, app_nil_r. reflexivity.
        * intros i o Hi. rewrite list_lookup_insert_ne; [by apply Hold2|].
          apply lookup_lt_Some in Hi. lia.
        * rewrite list_lookup_insert_ne by (subst options_at; lia). exact Hoptions.
        * apply list_lookup_insert_eq. by eapply lookup_lt_Some.
      + rewrite (auth_token_None _ Htoken). exists h2.
        split; [reflexivity|]. split; [exact Hold2|]. split; assumption.
    - exists h2. split; [by rewrite app_nil_r|]. split; [exact Hold2|]. split; assumption. }
  destruct Hauth as (h7 & Hauth & Hold & Hoptions7 & Hheaders7).
  rewrite (bind_run _ _ _ _ _ Hauth). clear Hauth.
  assert (Hoptions' : get_prop h7 (VRef options_at) "headers" = Ret (VRef (List.length h))).
  { unfold get_prop. by rewrite Hoptions7. }
  destruct (dispatch_sends respond e props verb path (VStr (base +:+ path))
              (VRef options_at) (VRef (List.length h))
              (Build_state h7 ((t ++ [line]) ++ auth_lines env endpointKey requiresAuth))
              (Hold _ _ He) Hm Hverb Hp Hoptions') as [body Hdispatch].
  cbn [st_heap st_trace] in Hdispatch.
  assert (Hsent : own_entries h7 (VRef (List.length h)) = sent_headers env requiresAuth).
  { unfold own_entries. by rewrite Hheaders7. }
  rewrite Hsent in Hdispatch. clear Hsent.
  exists body. cbv zeta.
  rewrite <- !app_assoc in Hdispatch. rewrite <- !app_assoc.
  set (sent := t ++ [line] ++ auth_lines env endpointKey requiresAuth ++ [_]) in *.
  match goal with
  | |- context [bind (try_catch ?c ?hd) ?p ?s] =>
      assert (Htry : try_catch c hd s
                     = (Ret true,
                        {| st_heap := h7;
                           st_trace := sent ++ answer_events respond endpointKey validation
                                                 limit names sent |}))
  end.
  { unfold answer_events. destruct (respond sent) as [r|] eqn:Hr.
    - assert (Hd : BatchRunner.dispatch respond (VRef e) (VStr (base +:+ path))
                     (VRef options_at)
                     {| st_heap := h7;
                        st_trace := t ++ [line] ++ auth_lines env endpointKey requiresAuth |}
                   = (Ret (Some r), {| st_heap := h7; st_trace := sent |})).
      { rewrite Hdispatch. unfold bind, BatchRunner.receive. cbn [st_trace].
        by rewrite Hr. }
      apply try_catch_ret. rewrite (bind_run _ _ _ _ _ Hd).
      rewrite (bind_run _ _ _ _ _
                 (run_checks_records endpointKey e props v validation limit hl names r
                    {| st_heap := h7; st_trace := sent |}
                    (Hold _ _ He) Hv (Hold _ _ Hval) Hlimit Hreq (Hold _ _ Hhl))).
      rewrite (bind_run (emit _) _ _ _ _ eq_refl). cbn [st_heap st_trace].
      unfold ret. by rewrite <- !app_assoc.
    - assert (Hd : BatchRunner.dispatch respond (VRef e) (VStr (base +:+ path))
                     (VRef options_at)
                     {| st_heap := h7;
                        st_trace := t ++ [line] ++ auth_lines env endpointKey requiresAuth |}
                   = (Throw (Error "request failed"),
                      {| st_heap := h7; st_trace := sent |})).
      { rewrite Hdispatch. unfold bind, BatchRunner.receive. cbn [st_trace].
        by rewrite Hr. }
      rewrite (try_catch_throw _ _ _ _ _ (bind_throw _ _ _ _ _ Hd)).
      rewrite (bind_run (emit _) _ _ _ _ eq_refl). reflexivity. }
  rewrite (bind_run _ _ _ _ _ Htry). cbv iota.
  rewrite (pause_runs bl bprops l elems index
             {| st_heap := h7;
                st_trace := sent ++ answer_events respond endpointKey validation limit
                                      names sent |}
             (Hold _ _ Hbl) (Hold _ _ Hl)).
  eexists. split; [reflexivity|]. cbn [st_trace]. subst sent.
  by rewrite <- !app_assoc.
Qed.

End Endpoint.

Lemma test_endpoint_trace_witness :
  st_heap smoke_data_state !! users_me = Some (Obj users_me_props) /\
  obj_get users_me_props "method" = VStr "GET" /\
  "GET" ∈ supported_verbs /\
  obj_get users_me_props "baseUrl" = VStr "https://dev-api.acexr.com" /\
  obj_get users_me_props "path" = VStr "/platform-services/v2/users/me" /\
  obj_get users_me_props "validation" = VRef users_me_validation_at /\
  st_heap smoke_data_state !! users_me_validation_at = Some (Obj users_me_validation) /\
  obj_get users_me_validation "responseTime" = VNum (Int 500) /\
  obj_get users_me_validation "requiredHeaders" = VRef users_me_required_at /\
  st_heap smoke_data_state !! users_me_required_at
    = Some (Arr (VStr <$> ["Content-Type"])) /\
  st_heap smoke_data_state !! smoke_at = Some (Obj smoke_props) /\
  st_heap smoke_data_state !! smoke_data_keys = Some (Arr (VStr <$> endpoint_keys)) /\
  exists body st',
    BatchRunner.test_endpoint (env_of []) ok_response (VRef smoke_at)
      (VRef smoke_data_keys) (VStr "users-me") 0 (VRef users_me) smoke_data_state
      = (Ret tt, st') /\
    let sent :=
      st_trace smoke_data_state ++
      [endpoint_line 0 (List.length (VStr <$> endpoint_keys))
         (obj_get users_me_props "name")] ++
      auth_lines (env_of []) (VStr "users-me") (obj_get users_me_props "requiresAuth") ++
      [HttpRequest "GET"
         (VStr ("https://dev-api.acexr.com" +:+ "/platform-services/v2/users/me")) body
         (sent_headers (env_of []) (obj_get users_me_props "requiresAuth"))] in
    st_trace st' =
      sent ++ answer_events ok_response (VStr "users-me") users_me_validation (Int 500)
                ["Content-Type"] sent
           ++ pause_events smoke_props (List.length (VStr <$> endpoint_keys)) 0.
Proof.
  assert (He : st_heap smoke_data_state !! users_me = Some (Obj users_me_props))
    by (vm_compute; reflexivity).
  assert (Hm : obj_get users_me_props "method" = VStr "GET")
    by (vm_compute; reflexivity).
  assert (Hverb : "GET" ∈ supported_verbs) by by_computation.
  assert (Hb : obj_get users_me_props "baseUrl" = VStr "https://dev-api.acexr.com")
    by (vm_compute; reflexivity).
  assert (Hp : obj_get users_me_props "path" = VStr "/platform-services/v2/users/me")
    by (vm_compute; reflexivity).
  assert (Hv : obj_get users_me_props "validation" = VRef users_me_validation_at)
    by (vm_compute; reflexivity).
  assert (Hval : st_heap smoke_data_state !! users_me_validation_at
                 = Some (Obj users_me_validation)) by (vm_compute; reflexivity).
  assert (Hlimit : obj_get users_me_validation "responseTime" = VNum (Int 500))
    by (vm_compute; reflexivity).
  assert (Hreq : obj_get users_me_validation "requiredHeaders" = VRef users_me_required_at)
    by (vm_compute; reflexivity).
  assert (Hhl : st_heap smoke_data_state !! users_me_required_at
                = Some (Arr (VStr <$> ["Content-Type"]))) by (vm_compute; reflexivity).
  assert (Hbl : st_heap smoke_data_state !! smoke_at = Some (Obj smoke_props))
    by (vm_compute; reflexivity).
  assert (Hl : st_heap smoke_data_state !! smoke_data_keys
               = Some (Arr (VStr <$> endpoint_keys))) by (vm_compute; reflexivity).
  do 12 (split; [assumption|]).
  exact (test_endpoint_trace (env_of []) ok_response smoke_at smoke_props smoke_data_keys
           (VStr <$> endpoint_keys) (VStr "users-me") 0%nat users_me users_me_props "GET"
           "https://dev-api.acexr.com" "/platform-services/v2/users/me"
           users_me_validation_at users_me_validation (Int 500) users_me_required_at
           ["Content-Type"] smoke_data_state
           He Hm Hverb Hb Hp Hv Hval Hlimit Hreq Hhl Hbl Hl).
Defined.

(** The [users-me] endpoint as the first key of the default batch, with
    no token set: against an engine that answers 200 in 12 ms the three
    checks pass and the delay of 5 seconds follows; against an engine that
    does not answer the error is logged and the delay follows as well. *)
Example users_me_step :
  drop (List.length (st_trace smoke_data_state)) (st_trace (users_me_run (env_of [])).2)
  = [endpoint_line 0 6 (VStr "Get Current User");
     missing_token (VStr "users-me");
     HttpRequest "GET" users_me_url None plain_headers;
     CheckResult [Val (VStr "users-me"); Text " - status is "; Val (VNum (Int 200))] true;
     CheckResult [Val (VStr "users-me"); Text " - response time < ";
                  Val (VNum (Int 500)); Text "ms"] true;
     CheckResult [Val (VStr "users-me"); Text " - has required headers"] true;
     ConsoleLog [Val (VStr "users-me"); Text ": "; Val (VNum (Int 200)); Text " (";
                 Millis (12 # 1); Text "ms)"];
     SleepFor (VNum (Int 5))] /\
  drop (List.length (st_trace smoke_data_state))
    (st_trace (BatchRunner.test_endpoint (env_of []) no_response smoke_data_batch
                 (VRef smoke_data_keys) (VStr "users-me") 0 (VRef users_me)
                 smoke_data_state).2)
  = [endpoint_line 0 6 (VStr "Get Current User");
     missing_token (VStr "users-me");
     HttpRequest "GET" users_me_url None plain_headers;
     ConsoleError [Text "Error testing "; Val (VStr "users-me"); Text ": ";
                   Text "request failed"];
     SleepFor (VNum (Int 5))].
Proof. split; vm_compute; reflexivity. Qed.

(** ** An endpoint with a verb the runner has no case for *)

Section Unsupported.

Variable env : environment.
Variable respond : list event -> option response.

Lemma strict_eq_ne a b : a <> b -> strict_eq a b = false.
Proof.
  intros Hne. unfold strict_eq.
  destruct a as [| | |[]| | |], b as [| | |[]| | |];
    try reflexivity; by rewrite bool_decide_eq_false_2.
Qed.

Lemma dispatch_unsupported e props url requestOptions st :
  st_heap st !! e = Some (Obj props) ->
  (obj_get props "method" ∉ VStr <$> supported_verbs) ->
  BatchRunner.dispatch respond (VRef e) url requestOptions st =
  (Ret None,
   {| st_heap := st_heap st;
      st_trace := st_trace st ++
        [ConsoleWarn [Text "Unsupported HTTP method: "; Val (obj_get props "method")]] |}).
Proof.
  intros He Hm. unfold BatchRunner.dispatch.
  assert (Hgm : get (VRef e) "method" st = (Ret (obj_get props "method"), st)).
  { unfold get, get_prop. by rewrite He. }
  rewrite (bind_run _ _ _ _ _ Hgm).
  rewrite !strict_eq_ne;
    [by rewrite (bind_run (emit _) _ _ _ _ eq_refl)|..].
  all: intros Heq; apply Hm; rewrite Heq; by_computation.
Qed.

(** X14. An endpoint object whose method is none of GET, POST, PUT, PATCH
    and DELETE: the callback logs the line that names the endpoint,
    handles authentication as for any endpoint (the warning when a token
    is required and missing), logs [Unsupported HTTP method] and returns.
    No request is sent, no check is recorded, and no delay is taken, also
    in a batch that is not parallel; the batch is not read at all. *)
Theorem test_endpoint_unsupported batch l elems endpointKey index e props st :
  st_heap st !! e = Some (Obj props) ->
  (obj_get props "method" ∉ VStr <$> supported_verbs) ->
  st_heap st !! l = Some (Arr elems) ->
  exists st',
    BatchRunner.test_endpoint env respond batch (VRef l) endpointKey index (VRef e) st
      = (Ret tt, st') /\
    st_trace st' =
      st_trace st ++
      [endpoint_line index (List.length elems) (obj_get props "name")] ++
      auth_lines env endpointKey (obj_get props "requiresAuth") ++
      [ConsoleWarn [Text "Unsupported HTTP method: "; Val (obj_get props "method")]].
Proof.
  intros He Hm Hl. destruct st as [h t]. cbn [st_heap st_trace] in *.
  assert (Hget : forall k tr,
    get (VRef e) k (Build_state h tr) = (Ret (obj_get props k), Build_state h tr)).
  { intros k tr. unfold get, get_prop. cbn [st_heap]. by rewrite He. }
  assert (Hlen : get (VRef l) "length" (Build_state h t)
                 = (Ret (VNum (Int (Z.of_nat (List.length elems)))), Build_state h t)).
  { unfold get, get_prop. cbn [st_heap]. by rewrite Hl. }
  unfold BatchRunner.test_endpoint.
  rewrite (bind_run _ _ _ _ _ Hlen), (bind_run _ _ _ _ _ (Hget "name" t)).
  rewrite (bind_run (emit _) _ _ _ _ eq_refl). cbn [st_heap st_trace].
  rewrite (bind_run _ _ _ _ _ (Hget "baseUrl" _)).
  rewrite (bind_run _ _ _ _ _ (Hget "path" _)).
  rewrite (bind_run (read _) _ _ _ _ eq_refl). cbn [st_heap st_trace].
  rewrite (bind_run (alloc _) _ _ _ _ eq_refl). cbn [st_heap st_trace].
  rewrite (bind_run (alloc _) _ _ _ _ eq_refl). cbn [st_heap st_trace].
  rewrite length_app. cbn [List.length].
  fold (endpoint_line index (List.length elems) (obj_get props "name")).
  set (line := endpoint_line _ _ _).
  set (options_at := (List.length h + 1)%nat).
  set (h2 := (h ++ [Obj _]) ++ [Obj _]).
  assert (Hold2 : forall i o, h !! i = Some o -> h2 !! i = Some o).
  { intros i o Hi. subst h2. rewrite <- app_assoc. by apply lookup_app_l_Some. }
  assert (Hoptions : h2 !! options_at = Some (Obj [("headers", VRef (List.length h))])).
  { subst h2 options_at. apply list_lookup_middle. rewrite length_app. reflexivity. }
  assert (Hheaders : h2 !! List.length h = Some (Obj plain_headers)).
  { subst h2. rewrite <- app_assoc. by apply list_lookup_middle. }
  rewrite (bind_run (get (VRef e) "requiresAuth") _ _ (obj_get props "requiresAuth")
             (Build_state h2 _))
    by (unfold get, get_prop; cbn [st_heap]; by rewrite (Hold2 _ _ He)).
  set (requiresAuth := obj_get props "requiresAuth").
  match goal with
  | |- context [bind ?c ?k {| st_heap := h2; st_trace := ?t1 |}] =>
      assert (Hauth : exists h7,
        c {| st_heap := h2; st_trace := t1 |}
        = (Ret tt, {| st_heap := h7;
                      st_trace := t1 ++ auth_lines env endpointKey requiresAuth |}) /\
        (forall i o, h !! i = Some o -> h7 !! i = Some o))
  end.
  { unfold auth_lines. destruct (truthy requiresAuth).
    - destruct (auth_token env) as [token|] eqn:Htoken.
      + destruct (auth_token_Some _ _ Htoken) as [Henv Htruthy]. rewrite Henv, Htruthy.
        exists (<[List.length h :=
                   Obj (plain_headers ++ [("Authorization", VStr ("Bearer " +:+ token))])]> h2).
        split.
        * rewrite (bind_run (get (VRef options_at) "headers") _ _ (VRef (List.length h))
                     (Build_state h2 _))
            by (unfold get, get_prop; cbn [st_heap]; by rewrite Hoptions).
          rewrite (bind_run (read _) _ _ _ _ eq_refl). cbn [st_heap st_trace].
          rewrite String_of_VStr. unfold set_prop. cbn [st_heap st_trace].
          rewrite Hheaders, app_nil_r. reflexivity.
        * intros i o Hi. rewrite list_lookup_insert_ne; [by apply Hold2|].
          apply lookup_lt_Some in Hi. lia.
      + rewrite (auth_token_None _ Htoken). exists h2. split; [reflexivity|exact Hold2].
    - exists h2. split; [by rewrite app_nil_r|exact Hold2]. }
  destruct Hauth as (h7 & Hauth & Hold).
  rewrite (bind_run _ _ _ _ _ Hauth). clear Hauth.
  match goal with
  | |- context [bind (try_catch (bind (BatchRunner.dispatch _ _ ?url ?ro) ?k) ?hd) ?p ?s] =>
      assert (Htry : try_catch (bind (BatchRunner.dispatch respond (VRef e) url ro) k) hd s
                     = (Ret false,
                        {| st_heap := h7;
                           st_trace := st_trace s ++
                             [ConsoleWarn [Text "Unsupported HTTP method: ";
                                           Val (obj_get props "method")]] |}));
        [apply try_catch_ret;
         rewrite (bind_run _ _ _ _ _
                    (dispatch_unsupported e props url ro s (Hold _ _ He) Hm));
         reflexivity|]
  end.
  rewrite (bind_run _ _ _ _ _ Htry). cbv iota.
  eexists. split; [reflexivity|]. cbn [st_trace]. by rewrite <- !app_assoc.
Qed.

End Unsupported.

Lemma test_endpoint_unsupported_witness :
  st_heap probe_state !! probe_at = Some (Obj probe_props) /\
  (obj_get probe_props "method" ∉ VStr <$> supported_verbs) /\
  st_heap probe_state !! smoke_data_keys = Some (Arr (VStr <$> endpoint_keys)) /\
  exists st',
    BatchRunner.test_endpoint (env_of []) ok_response smoke_data_batch
      (VRef smoke_data_keys) (VStr "probe") 0 (VRef probe_at) probe_state
      = (Ret tt, st') /\
    st_trace st' =
      st_trace probe_state ++
      [endpoint_line 0 (List.length (VStr <$> endpoint_keys))
         (obj_get probe_props "name")] ++
      auth_lines (env_of []) (VStr "probe") (obj_get probe_props "requiresAuth") ++
      [ConsoleWarn [Text "Unsupported HTTP method: ";
                    Val (obj_get probe_props "method")]].
Proof.
  assert (He : st_heap probe_state !! probe_at = Some (Obj probe_props))
    by (vm_compute; reflexivity).
  assert (Hm : obj_get probe_props "method" ∉ VStr <$> supported_verbs)
    by by_computation.
  assert (Hl : st_heap probe_state !! smoke_data_keys
               = Some (Arr (VStr <$> endpoint_keys))) by (vm_compute; reflexivity).
  do 3 (split; [assumption|]).
  exact (test_endpoint_unsupported (env_of []) ok_response smoke_data_batch
           smoke_data_keys (VStr <$> endpoint_keys) (VStr "probe") 0%nat probe_at
           probe_props probe_state He Hm Hl).
Defined.

(** ** The keys of a custom batch *)

Section CustomKeys.

Lemma append_assoc (a b c : string) : (a +:+ b) +:+ c = a +:+ b +:+ c.
Proof.
  induction a as [|x a IH]; [done|].
  change (String x ((a +:+ b) +:+ c) = String x (a +:+ b +:+ c)). by rewrite IH.
Qed.

Lemma append_empty (a : string) : a +:+ EmptyString = a.
Proof.
  induction a as [|x a IH]; [done|].
  change (String x (a +:+ EmptyString) = String x a). by rewrite IH.
Qed.

Lemma fold_join sep x rest :
  fold_left (fun acc q => acc +:+ sep +:+ q) rest x
  = x +:+ fold_left (fun acc q => acc +:+ sep +:+ q) rest EmptyString.
Proof.
  revert x. induction rest as [|z rest IH]; intros x; cbn [fold_left].
  - by rewrite append_empty.
  - rewrite IH, (IH (EmptyString +:+ sep +:+ z)). by rewrite !append_assoc.
Qed.

Lemma join_strings_cons sep x y rest :
  join_strings sep (x :: y :: rest) = x +:+ sep +:+ join_strings sep (y :: rest).
Proof.
  unfold join_strings. cbn [fold_left].
  rewrite fold_join, (fold_join sep y). by rewrite !append_assoc.
Qed.

Lemma split_fuel_cons fuel sep s : exists k rest, split_fuel fuel sep s = k :: rest.
Proof.
  destruct fuel as [|n]; simpl; [eauto|]. destruct (find_first sep s) as [[b a]|]; eauto.
Qed.

(** Joined by the separator, the pieces give back the text. *)
Lemma join_split_fuel fuel sep s : join_strings sep (split_fuel fuel sep s) = s.
Proof.
  revert s. induction fuel as [|n IH]; intros s; [done|]. cbn [split_fuel].
  destruct (find_first sep s) as [[b a]|] eqn:E; [|done].
  destruct (split_fuel_cons n sep a) as (k & rest & Hk).
  specialize (IH a). rewrite Hk in *. rewrite join_strings_cons, IH.
  symmetry. by apply find_first_split.
Qed.

Lemma length_append (a b : string) :
  String.length (a +:+ b) = (String.length a + String.length b)%nat.
Proof.
  induction a as [|x a IH]; [done|].
  change (S (String.length (a +:+ b)) = S (String.length a + String.length b)).
  by rewrite IH.
Qed.

Lemma prefix_append p s t :
  String.prefix p s = true -> String.prefix p (s +:+ t) = true.
Proof.
  revert s. induction p as [|a p IH]; intros s.
  - intros _. by destruct (s +:+ t).
  - destruct s as [|b s]; [done|]. cbn [String.prefix].
    change (String b s +:+ t) with (String b (s +:+ t)). cbn [String.prefix].
    destruct (ascii_dec a b); [apply IH|done].
Qed.

(** The text before the first occurrence of a pattern does not hold the
    pattern. *)
Lemma find_first_before pat s before after :
  pat <> EmptyString ->
  find_first pat s = Some (before, after) -> find_first pat before = None.
Proof.
  intros Hpat. revert before. induction s as [|c s IH]; intros before.
  - rewrite find_first_eq. destruct pat; [done|]. cbn [String.prefix]. discriminate.
  - rewrite find_first_eq.
    destruct (String.prefix pat (String c s)) eqn:Hpre.
    + intros [= <- _]. rewrite find_first_eq. by destruct pat.
    + destruct (find_first pat s) as [[b a]|] eqn:Hrest; [|discriminate].
      intros [= <- <-]. rewrite find_first_eq, (IH b eq_refl).
      destruct (String.prefix pat (String c b)) eqn:Hpre'; [|done].
      apply (prefix_append _ _ (pat +:+ a)) in Hpre'.
      change (String c b +:+ pat +:+ a) with (String c (b +:+ pat +:+ a)) in Hpre'.
      rewrite <- (find_first_split pat s b a Hrest) in Hpre'. congruence.
Qed.

Lemma split_fuel_pieces fuel sep s :
  sep <> EmptyString ->
  (String.length s <= fuel)%nat ->
  Forall (fun k => find_first sep k = None) (split_fuel fuel sep s).
Proof.
  intros Hsep. revert s. induction fuel as [|n IH]; intros s Hlen.
  - destruct s; [|simpl in Hlen; lia]. cbn [split_fuel]. apply Forall_singleton.
    rewrite find_first_eq. by destruct sep.
  - cbn [split_fuel]. destruct (find_first sep s) as [[b a]|] eqn:E.
    + apply Forall_cons. split; [by eapply find_first_before|]. apply IH.
      rewrite (find_first_split sep s b a E), !length_append in Hlen.
      destruct sep; [done|]. simpl in Hlen. lia.
    + by apply Forall_singleton.
Qed.

(** X15. The keys of the custom batch are the pieces of
    [BATCH_ENDPOINTS] between its commas, as they are: put together with
    commas they give back the variable (nothing is trimmed and no empty
    piece is dropped), and no key holds a comma. *)
Theorem custom_keys_round_trip env s :
  env "BATCH_ENDPOINTS" = Some s ->
  s <> EmptyString ->
  exists b st' l (keys : list string),
    BatchRunner.batch Program.endpoints (plan_env "custom" env) Program.boot
      = (Ret b, st') /\
    get_prop (st_heap st') b "endpoints" = Ret (VRef l) /\
    st_heap st' !! l = Some (Arr (VStr <$> keys)) /\
    join_strings "," keys = s /\
    Forall (fun k => includes k "," = false) keys.
Proof.
  intros Hs Hne.
  exists (VRef (S (List.length (st_heap fixed_state)))),
    {| st_heap := config_heap env; st_trace := [] |},
    (List.length (st_heap fixed_state)), (split s ",").
  assert (Hover : override_or env "BATCH_ENDPOINTS" "users-me,health-check" = s)
    by (by apply override_or_set).
  split; [|split; [|split; [|split]]].
  - rewrite batch_selected by (rewrite plan_key; reflexivity).
    by rewrite plan_key, config_heap_plan_env.
  - cbn [st_heap]. unfold get_prop. by rewrite config_custom_object.
  - cbn [st_heap]. by rewrite config_custom_keys, Hover.
  - apply join_split_fuel.
  - eapply Forall_impl; [apply split_fuel_pieces; [discriminate|reflexivity]|].
    intros k Hk. unfold includes. by rewrite Hk.
Qed.

End CustomKeys.

Lemma custom_keys_round_trip_witness :
  env_of [("BATCH_ENDPOINTS", "users-me, health-check,,x")] "BATCH_ENDPOINTS"
    = Some "users-me, health-check,,x" /\
  "users-me, health-check,,x" <> EmptyString /\
  exists b st' l (keys : list string),
    BatchRunner.batch Program.endpoints
      (plan_env "custom" (env_of [("BATCH_ENDPOINTS", "users-me, health-check,,x")]))
      Program.boot = (Ret b, st') /\
    get_prop (st_heap st') b "endpoints" = Ret (VRef l) /\
    st_heap st' !! l = Some (Arr (VStr <$> keys)) /\
    join_strings "," keys = "users-me, health-check,,x" /\
    Forall (fun k => includes k "," = false) keys.
Proof.
  assert (Hs : env_of [("BATCH_ENDPOINTS", "users-me, health-check,,x")] "BATCH_ENDPOINTS"
               = Some "users-me, health-check,,x") by reflexivity.
  assert (Hne : "users-me, health-check,,x" <> EmptyString) by discriminate.
  split; [exact Hs|]. split; [exact Hne|].
  exact (custom_keys_round_trip _ _ Hs Hne).
Defined.

(** Spaces and empty pieces are kept: the second key starts with a space
    and the third is empty. *)
Example custom_keys_untrimmed :
  split "users-me, health-check,,x" "," = ["users-me"; " health-check"; ""; "x"].
Proof. reflexivity. Qed.

(** ** The batches selected by method *)

(** X16. The batches [getEndpointsLoad] and [postEndpointsStress],
    whatever the other variables of the environment: their keys are the
    keys of the registry entries whose method is GET, respectively POST,
    in the order of the registry; the first runs the [load] suite in
    parallel mode with at most 3 at a time and has no delay, the second
    runs the [stress] suite sequentially with a delay of 10 and has no
    concurrency cap. *)
Theorem method_batches env :
  (exists b st',
      BatchRunner.batch Program.endpoints (plan_env "getEndpointsLoad" env) Program.boot
        = (Ret b, st') /\
      tree_of (st_heap st') b =
        TObj [("name", TStr "Load Test All GET Endpoints");
              ("description", TStr "Load test all GET endpoints");
              ("endpoints",
               strs (keys (List.filter (has_method (st_heap Program.boot) "GET")
                             registry_entries)));
              ("testSuite", TStr "load");
              ("parallel", TBool true);
              ("maxConcurrent", num 3)]) /\
  (exists b st',
      BatchRunner.batch Program.endpoints (plan_env "postEndpointsStress" env) Program.boot
        = (Ret b, st') /\
      tree_of (st_heap st') b =
        TObj [("name", TStr "Stress Test All POST Endpoints");
              ("description", TStr "Stress test all POST endpoints");
              ("endpoints",
               strs (keys (List.filter (has_method (st_heap Program.boot) "POST")
                             registry_entries)));
              ("testSuite", TStr "stress");
              ("parallel", TBool false);
              ("delayBetweenEndpoints", num 10)]).
Proof.
  split.
  - do 2 eexists. split.
    + apply batch_selected. rewrite plan_key. reflexivity.
    + rewrite plan_key, config_heap_plan_env. vm_compute. reflexivity.
  - do 2 eexists. split.
    + apply batch_selected. rewrite plan_key. reflexivity.
    + rewrite plan_key, config_heap_plan_env. vm_compute. reflexivity.
Qed.

(** ** [buildUrl] with the name of a member of [Object.prototype] *)

Section InheritedKey.

Lemma inherited_member key :
  key ∈ members Object_prototype ->
  exists p, inherited [Object_prototype] key = VBuiltin p.
Proof.
  intros Hin. unfold inherited. destruct (decide _); [eauto|].
  cbn [List.find]. rewrite bool_decide_eq_true_2 by done.
  unfold member_value. destruct (decide _); eauto.
Qed.

(** X17. [buildUrl] with a key that is not in the registry but is the
    name of a member of [Object.prototype] ([constructor], [toString],
    ...): the guard lets the call through, since the lookup finds the
    inherited member. With no parameters the result is the number [NaN]
    (the sum of two missing properties), not a URL and not an error; with
    a parameter map that is not empty the call ends in a [TypeError],
    [url.replace] not being a function. *)
Theorem buildUrl_inherited_key r regs key p k v rest st :
  st_heap st !! r = Some (Obj regs) ->
  key ∉ keys regs ->
  key ∈ members Object_prototype ->
  st_heap st !! p = Some (Obj ((k, v) :: rest)) ->
  Endpoints.buildUrl (VRef r) key VUndefined st =
    (Ret (VNum NaN),
     {| st_heap := st_heap st ++ [Obj []]; st_trace := st_trace st |}) /\
  Endpoints.buildUrl (VRef r) key (VRef p) st =
    (Throw (TypeError "url.replace is not a function"), st).
Proof.
  intros Hr Hk Hin Hp.
  destruct (inherited_member key Hin) as [path Hpath].
  assert (Hget : forall s, st_heap s !! r = Some (Obj regs) ->
                 get (VRef r) key s = (Ret (VBuiltin path), s)).
  { intros s Hs. unfold get, get_prop, obj_get. rewrite Hs.
    by rewrite (proj2 (assoc_None_keys key regs) Hk), Hpath. }
  assert (Hread : forall name s, name ∉ builtin_names ->
                  get (VBuiltin path) name s = (Ret VUndefined, s)).
  { intros name s Hname. unfold get, get_prop, builtin_get.
    by rewrite bool_decide_eq_false_2. }
  assert (Hbase : "baseUrl" ∉ builtin_names) by by_computation.
  assert (Hpth : "path" ∉ builtin_names) by by_computation.
  unfold Endpoints.buildUrl. split.
  - rewrite (bind_run _ _ _ _ _ (Hget st Hr)). cbn [truthy negb].
    rewrite (bind_run (alloc _) _ _ _ _ eq_refl).
    rewrite (bind_run _ _ _ _ _ (Hread "baseUrl" _ Hbase)).
    rewrite (bind_run _ _ _ _ _ (Hread "path" _ Hpth)).
    rewrite (bind_run (read _) _ _ _ _ eq_refl).
    unfold Endpoints.Object_entries. cbn [nullish].
    rewrite (bind_run (read _) _ _ _ _ eq_refl). cbn [st_heap].
    unfold own_entries. rewrite (list_lookup_middle _ [] _ _ eq_refl).
    reflexivity.
  - rewrite (bind_run _ _ _ _ _ (Hget st Hr)). cbn [truthy negb].
    rewrite (bind_run (ret _) _ _ _ _ eq_refl).
    rewrite (bind_run _ _ _ _ _ (Hread "baseUrl" _ Hbase)).
    rewrite (bind_run _ _ _ _ _ (Hread "path" _ Hpth)).
    rewrite (bind_run (read _) _ _ _ _ eq_refl).
    unfold Endpoints.Object_entries. cbn [nullish].
    rewrite (bind_run (read _) _ _ _ _ eq_refl). cbn [st_heap].
    unfold own_entries. rewrite Hp. reflexivity.
Qed.

End InheritedKey.

Lemma buildUrl_inherited_key_witness :
  st_heap seven_state !! registry = Some (Obj registry_entries) /\
  ("constructor" ∉ keys registry_entries) /\
  "constructor" ∈ members Object_prototype /\
  st_heap seven_state !! seven = Some (Obj [("id", VStr "7")]) /\
  Endpoints.buildUrl (VRef registry) "constructor" VUndefined seven_state =
    (Ret (VNum NaN),
     {| st_heap := st_heap seven_state ++ [Obj []];
        st_trace := st_trace seven_state |}) /\
  Endpoints.buildUrl (VRef registry) "constructor" (VRef seven) seven_state =
    (Throw (TypeError "url.replace is not a function"), seven_state).
Proof.
  assert (Hr : st_heap seven_state !! registry = Some (Obj registry_entries))
    by (vm_compute; reflexivity).
  assert (Hk : "constructor" ∉ keys registry_entries) by by_computation.
  assert (Hin : "constructor" ∈ members Object_prototype) by by_computation.
  assert (Hp : st_heap seven_state !! seven = Some (Obj [("id", VStr "7")]))
    by (vm_compute; reflexivity).
  do 4 (split; [assumption|]).
  exact (buildUrl_inherited_key registry registry_entries "constructor" seven "id"
           (VStr "7") [] seven_state Hr Hk Hin Hp).
Defined.

(** ** The body of a request *)

Section Bodies.

(** X18. [generateTestData] on an endpoint object. Only the methods POST,
    PUT and PATCH, spelled in capitals, get a body made from the path; any
    other method gets the empty object and the path is not read. For POST
    and PUT (which share one generator) and for PATCH, a path that holds
    [users] gets the user record, otherwise a path that holds [orders]
    gets the order record, otherwise the generic one; with a path that is
    missing the call ends in a [TypeError]. The store is never changed. *)
Theorem generateTestData_cases e props st :
  st_heap st !! e = Some (Obj props) ->
  let method := obj_get props "method" in
  let path := obj_get props "path" in
  ((method ∉ [VStr "POST"; VStr "PATCH"; VStr "PUT"]) ->
   TestData.generateTestData (VRef e) st = (Ret EmptyRecord, st)) /\
  (method ∈ [VStr "POST"; VStr "PATCH"; VStr "PUT"] -> path = VUndefined ->
   TestData.generateTestData (VRef e) st
   = (Throw (TypeError "Cannot read property 'includes' of undefined"), st)) /\
  (forall p, method ∈ [VStr "POST"; VStr "PUT"] -> path = VStr p ->
   TestData.generateTestData (VRef e) st
   = (Ret (if includes p "users" then UserRecord
           else if includes p "orders" then OrderRecord else GenericRecord), st)) /\
  (forall p, method = VStr "PATCH" -> path = VStr p ->
   TestData.generateTestData (VRef e) st
   = (Ret (if includes p "users" then UserPatch
           else if includes p "orders" then OrderPatch else GenericPatch), st)).
Proof.
  intros He method path.
  assert (Hgm : get (VRef e) "method" st = (Ret method, st)).
  { unfold get, get_prop. by rewrite He. }
  assert (Hgp : get (VRef e) "path" st = (Ret path, st)).
  { unfold get, get_prop. by rewrite He. }
  unfold TestData.generateTestData. rewrite (bind_run _ _ _ _ _ Hgm).
  split; [|split; [|split]].
  - intros Hm. rewrite !strict_eq_ne; [done|..].
    all: intros Heq; apply Hm; rewrite Heq; by_computation.
  - intros Hm Hpath.
    repeat (apply elem_of_cons in Hm as [->|Hm]); [..|by apply elem_of_nil in Hm].
    all: cbn [strict_eq]; rewrite ?bool_decide_eq_false_2 by discriminate.
    all: rewrite bool_decide_eq_true_2 by reflexivity.
    all: rewrite (bind_run _ _ _ _ _ Hgp).
    all: unfold TestData.generatePutData, TestData.generatePostData,
           TestData.generatePatchData, TestData.path_includes.
    all: by rewrite Hpath.
  - intros p Hm ->.
    repeat (apply elem_of_cons in Hm as [->|Hm]); [..|by apply elem_of_nil in Hm].
    all: cbn [strict_eq]; rewrite ?bool_decide_eq_false_2 by discriminate.
    all: rewrite bool_decide_eq_true_2 by reflexivity.
    all: rewrite (bind_run _ _ _ _ _ Hgp).
    all: unfold TestData.generatePutData, TestData.generatePostData,
           TestData.path_includes, bind, ret.
    all: by repeat destruct (includes _ _).
  - intros p -> ->.
    cbn [strict_eq]. rewrite ?bool_decide_eq_false_2 by discriminate.
    rewrite bool_decide_eq_true_2 by reflexivity.
    rewrite (bind_run _ _ _ _ _ Hgp).
    unfold TestData.generatePatchData, TestData.path_includes, bind, ret.
    by repeat destruct (includes _ _).
Qed.

End Bodies.

Lemma generateTestData_cases_witness :
  st_heap Program.boot !! update_user = Some (Obj update_user_props) /\
  obj_get update_user_props "method" = VStr "PATCH" /\
  obj_get update_user_props "path" = VStr "/platform-services/v2/users/{id}" /\
  TestData.generateTestData (VRef update_user) Program.boot
  = (Ret (if includes "/platform-services/v2/users/{id}" "users" then UserPatch
          else if includes "/platform-services/v2/users/{id}" "orders" then OrderPatch
               else GenericPatch), Program.boot).
Proof.
  assert (He : st_heap Program.boot !! update_user = Some (Obj update_user_props))
    by (vm_compute; reflexivity).
  assert (Hm : obj_get update_user_props "method" = VStr "PATCH")
    by (vm_compute; reflexivity).
  assert (Hp : obj_get update_user_props "path" = VStr "/platform-services/v2/users/{id}")
    by (vm_compute; reflexivity).
  do 3 (split; [assumption|]).
  exact (proj2 (proj2 (proj2 (generateTestData_cases update_user update_user_props
                                Program.boot He)))
           "/platform-services/v2/users/{id}" Hm Hp).
Defined.

(** ** The single-endpoint runner: load *)

Section SingleLoad.

Variable env : environment.

(** The binding of [endpoint] for a key of the shipped registry. *)
Lemma endpoint_bound st :
  st_heap st = st_heap Program.boot ->
  override_or env "ENDPOINT" "users-me" ∈ endpoint_keys ->
  EndpointRunner.endpoint Program.endpoints env st
  = (Ret (endpoint_of (override_or env "ENDPOINT" "users-me")), st).
Proof.
  intros Hh Hkey. unfold EndpointRunner.endpoint, EndpointRunner.endpointKey.
  rewrite or_else_env.
  rewrite (bind_run (read _) _ _ _ _ eq_refl), String_of_VStr.
  unfold Endpoints.getEndpoint.
  rewrite (bind_run _ _ _ _ _
             (get_peek (st_heap Program.boot) Program.endpoints _ st Hh eq_refl)).
  fold (endpoint_of (override_or env "ENDPOINT" "users-me")).
  set (key := override_or env "ENDPOINT" "users-me") in *. clearbody key.
  assert (Hkeys : key ∈ ["users-me"; "client-configs"; "health-check";
                         "create-user"; "update-user"; "auth/signin"]) by exact Hkey.
  repeat (apply elem_of_cons in Hkeys as [->|Hkeys]);
    [..|by apply elem_of_nil in Hkeys]; reflexivity.
Qed.

(** X19. The failures of the single-endpoint runner at load, on the
    shipped configuration. The endpoint is the value of [ENDPOINT],
    [users-me] if it is unset or empty, and the suite the value of
    [TEST_SUITE], [load] if it is unset or empty. A key that is neither in
    the registry nor a member of [Object.prototype] reaches the guard,
    whose message reads [endpoints], a name the script does not import:
    the load ends in [endpoints is not defined], not in the error the
    guard spells out. With a key of the registry, a suite name that is
    neither registered nor a member of [Object.prototype] is refused with
    [Test suite '<name>' not found]. Either way nothing is logged and the
    store is left as it was. *)
Theorem single_load_failures :
  let key := override_or env "ENDPOINT" "users-me" in
  let suite := override_or env "TEST_SUITE" "load" in
  (key ∉ endpoint_keys -> key ∉ members Object_prototype ->
   EndpointRunner.module Program.endpoints Program.testSuites env Program.boot
     = (Throw (EndpointRunner.NotDefined "endpoints"), Program.boot)) /\
  (key ∈ endpoint_keys -> ~ registered suite -> suite ∉ members Object_prototype ->
   EndpointRunner.module Program.endpoints Program.testSuites env Program.boot
     = (Throw (Error ("Test suite '" +:+ suite +:+ "' not found")), Program.boot)).
Proof.
  cbv zeta. split.
  - intros Hkey Hproto. unfold EndpointRunner.module.
    apply bind_throw. unfold EndpointRunner.endpoint, EndpointRunner.endpointKey.
    rewrite or_else_env.
    rewrite (bind_run (read _) _ _ _ _ eq_refl), String_of_VStr.
    unfold Endpoints.getEndpoint.
    assert (Hget : get Program.endpoints (override_or env "ENDPOINT" "users-me")
                     Program.boot = (Ret VUndefined, Program.boot)).
    { unfold get, get_prop.
      cbn [nullish Program.endpoints]. cbv iota.
      change (st_heap Program.boot !! _) with (Some (Obj registry_entries)).
      cbv iota.
      by rewrite (obj_get_absent registry_entries _ Hkey Hproto). }
    by rewrite (bind_run _ _ _ _ _ Hget).
  - intros Hkey Hreg Hproto. unfold EndpointRunner.module.
    rewrite (bind_run _ _ _ _ _ (endpoint_bound Program.boot eq_refl Hkey)).
    apply bind_throw. unfold EndpointRunner.options, EndpointRunner.testSuite.
    rewrite or_else_env.
    rewrite (bind_run (read _) _ _ _ _ eq_refl), String_of_VStr.
    apply mergeConfigs_unknown; [by_computation|exact Hreg|exact Hproto].
Qed.

(** X20. The load of the single-endpoint runner on the shipped
    configuration, for a key of the registry and a registered suite (the
    values of [ENDPOINT] and [TEST_SUITE], or [users-me] and [load] where
    a variable is unset or empty). The load succeeds and logs nothing; the
    endpoint under test is the registry's entry; the exported options are
    deep-equal to the configuration of the suite, as no shipped endpoint
    overrides a suite; and the metadata name the key, the suite, and the
    name, method, path, base URL and authentication flag of the entry. *)
Theorem single_load :
  let key := override_or env "ENDPOINT" "users-me" in
  let suite := override_or env "TEST_SUITE" "load" in
  let field k :=
    tree_of (st_heap Program.boot) (peek (st_heap Program.boot) (endpoint_of key) k) in
  key ∈ endpoint_keys ->
  registered suite ->
  exists m st',
    EndpointRunner.module Program.endpoints Program.testSuites env Program.boot
      = (Ret m, st') /\
    st_trace st' = [] /\
    EndpointRunner.the_endpoint m = endpoint_of key /\
    tree_of (st_heap st') (EndpointRunner.the_options m)
      = tree_of (st_heap Program.boot)
          (suite_config (st_heap Program.boot) Program.testSuites suite) /\
    tree_of (st_heap st') (EndpointRunner.the_metadata m)
      = TObj [("endpoint", TStr key);
              ("endpointName", field "name");
              ("method", field "method");
              ("path", field "path");
              ("baseUrl", field "baseUrl");
              ("testSuite", TStr suite);
              ("requiresAuth", field "requiresAuth")].
Proof.
  cbv zeta. intros Hkey Hname.
  unfold EndpointRunner.module, EndpointRunner.endpoint, EndpointRunner.options,
    EndpointRunner.metadata, EndpointRunner.endpointKey, EndpointRunner.testSuite.
  rewrite !or_else_env.
  set (key := override_or env "ENDPOINT" "users-me") in *.
  set (suite := override_or env "TEST_SUITE" "load") in *.
  clearbody key suite.
  assert (Hkeys : key ∈ ["users-me"; "client-configs"; "health-check";
                         "create-user"; "update-user"; "auth/signin"]) by exact Hkey.
  apply registered_names in Hname.
  repeat (apply elem_of_cons in Hkeys as [->|Hkeys]);
    [..|by apply elem_of_nil in Hkeys].
  all: repeat (apply elem_of_cons in Hname as [->|Hname]);
    [..|by apply elem_of_nil in Hname].
  all: do 2 eexists; split; [vm_compute; reflexivity|].
  all: do 3 (split; [vm_compute; reflexivity|]).
  all: vm_compute; reflexivity.
Qed.

End SingleLoad.

Lemma single_load_failures_witness :
  ("orders" ∉ endpoint_keys) /\
  ("orders" ∉ members Object_prototype) /\
  "health-check" ∈ endpoint_keys /\
  ~ registered "peak" /\
  ("peak" ∉ members Object_prototype) /\
  EndpointRunner.module Program.endpoints Program.testSuites
    (env_of [("ENDPOINT", "orders")]) Program.boot
    = (Throw (EndpointRunner.NotDefined "endpoints"), Program.boot) /\
  EndpointRunner.module Program.endpoints Program.testSuites
    (env_of [("ENDPOINT", "health-check"); ("TEST_SUITE", "peak")]) Program.boot
    = (Throw (Error ("Test suite '" +:+ "peak" +:+ "' not found")), Program.boot).
Proof.
  assert (Horders : "orders" ∉ endpoint_keys) by by_computation.
  assert (Hproto : "orders" ∉ members Object_prototype) by by_computation.
  assert (Hkey : "health-check" ∈ endpoint_keys) by by_computation.
  assert (Hpeak : ~ registered "peak") by by_computation.
  assert (Hproto' : "peak" ∉ members Object_prototype) by by_computation.
  do 5 (split; [assumption|]).
  split.
  - exact (proj1 (single_load_failures (env_of [("ENDPOINT", "orders")])) Horders Hproto).
  - exact (proj2 (single_load_failures
                    (env_of [("ENDPOINT", "health-check"); ("TEST_SUITE", "peak")]))
             Hkey Hpeak Hproto').
Defined.

Lemma single_load_witness :
  "users-me" ∈ endpoint_keys /\
  registered "load" /\
  exists m st',
    EndpointRunner.module Program.endpoints Program.testSuites (env_of []) Program.boot
      = (Ret m, st') /\
    st_trace st' = [] /\
    EndpointRunner.the_endpoint m = endpoint_of "users-me" /\
    tree_of (st_heap st') (EndpointRunner.the_options m)
      = tree_of (st_heap Program.boot)
          (suite_config (st_heap Program.boot) Program.testSuites "load") /\
    tree_of (st_heap st') (EndpointRunner.the_metadata m)
      = TObj [("endpoint", TStr "users-me");
              ("endpointName",
               tree_of (st_heap Program.boot)
                 (peek (st_heap Program.boot) (endpoint_of "users-me") "name"));
              ("method",
               tree_of (st_heap Program.boot)
                 (peek (st_heap Program.boot) (endpoint_of "users-me") "method"));
              ("path",
               tree_of (st_heap Program.boot)
                 (peek (st_heap Program.boot) (endpoint_of "users-me") "path"));
              ("baseUrl",
               tree_of (st_heap Program.boot)
                 (peek (st_heap Program.boot) (endpoint_of "users-me") "baseUrl"));
              ("testSuite", TStr "load");
              ("requiresAuth",
               tree_of (st_heap Program.boot)
                 (peek (st_heap Program.boot) (endpoint_of "users-me") "requiresAuth"))].
Proof.
  assert (Hkey : "users-me" ∈ endpoint_keys) by by_computation.
  assert (Hname : registered "load") by by_computation.
  do 2 (split; [assumption|]).
  exact (single_load (env_of []) Hkey Hname).
Defined.

(** ** The single-endpoint runner: one iteration *)

Section SingleIteration.

Variable env : environment.
Variable respond : list event -> option response.

(** The [switch] on a verb it has a case for. *)
Lemma send_sends e props verb path url requestOptions headers st :
  st_heap st !! e = Some (Obj props) ->
  obj_get props "method" = VStr verb ->
  verb ∈ supported_verbs ->
  obj_get props "path" = VStr path ->
  get_prop (st_heap st) requestOptions "headers" = Ret headers ->
  exists body,
    EndpointRunner.send respond (VRef e) url requestOptions st =
    BatchRunner.receive respond
      {| st_heap := st_heap st;
         st_trace := st_trace st ++
           [HttpRequest verb url body (own_entries (st_heap st) headers)] |}.
Proof.
  intros He Hm Hverb Hp Hh.
  destruct (generateTestData_string e props verb path st He Hm Hp) as [data Hdata].
  assert (Hgm : get (VRef e) "method" st = (Ret (VStr verb), st)).
  { unfold get, get_prop. by rewrite He, Hm. }
  assert (Hcall : forall body,
    BatchRunner.http_call respond verb url body requestOptions st =
    BatchRunner.receive respond
      {| st_heap := st_heap st;
         st_trace := st_trace st ++
           [HttpRequest verb url body (own_entries (st_heap st) headers)] |}).
  { intros body. unfold BatchRunner.http_call.
    assert (Hgh : get requestOptions "headers" st = (Ret headers, st)).
    { unfold get. by rewrite Hh. }
    rewrite (bind_run _ _ _ _ _ Hgh). reflexivity. }
  unfold EndpointRunner.send. rewrite (bind_run _ _ _ _ _ Hgm), !strict_eq_VStr.
  unfold supported_verbs in Hverb.
  repeat (apply elem_of_cons in Hverb as [->|Hverb]);
    [| | | | |by apply elem_of_nil in Hverb].
  all: repeat (rewrite bool_decide_eq_false_2 by discriminate).
  all: rewrite bool_decide_eq_true_2 by reflexivity.
  all: try rewrite (bind_run _ _ _ _ _ Hdata).
  all: eexists; apply Hcall.
Qed.

(** The [default] case of the [switch]. *)
Lemma send_unsupported e props verb url requestOptions st :
  st_heap st !! e = Some (Obj props) ->
  obj_get props "method" = VStr verb ->
  verb ∉ supported_verbs ->
  EndpointRunner.send respond (VRef e) url requestOptions st =
  (Throw (Error ("Unsupported HTTP method: " +:+ verb)), st).
Proof.
  intros He Hm Hverb.
  assert (Hgm : get (VRef e) "method" st = (Ret (VStr verb), st)).
  { unfold get, get_prop. by rewrite He, Hm. }
  unfold EndpointRunner.send. rewrite (bind_run _ _ _ _ _ Hgm), !strict_eq_VStr.
  rewrite !bool_decide_eq_false_2 by (intros ->; apply Hverb; by_computation).
  rewrite (bind_run _ _ _ _ _ Hgm).
  rewrite (bind_run (read _) _ _ _ _ eq_refl). by rewrite String_of_VStr.
Qed.

(** The checks on a response, for a validation record that is complete. *)
Lemma single_checks_records e props v validation limit hl names r st :
  st_heap st !! e = Some (Obj props) ->
  obj_get props "validation" = VRef v ->
  st_heap st !! v = Some (Obj validation) ->
  obj_get validation "responseTime" = VNum limit ->
  obj_get validation "requiredHeaders" = VRef hl ->
  st_heap st !! hl = Some (Arr (VStr <$> names)) ->
  EndpointRunner.run_checks (VRef e) r st =
  (Ret tt,
   {| st_heap := st_heap st;
      st_trace := st_trace st ++ single_checks props validation limit names r |}).
Proof.
  intros He Hv Hval Hlimit Hreq Hhl. unfold EndpointRunner.run_checks.
  destruct st as [h t]. cbn [st_heap st_trace] in *.
  assert (Hget : forall k tr, get (VRef e) k (Build_state h tr)
                              = (Ret (obj_get props k), Build_state h tr)).
  { intros k tr. unfold get, get_prop. cbn [st_heap]. by rewrite He. }
  assert (Hgv : forall tr, get (VRef e) "validation" (Build_state h tr)
                           = (Ret (VRef v), Build_state h tr)).
  { intros tr. by rewrite Hget, Hv. }
  assert (Hg : forall k tr, get (VRef v) k (Build_state h tr)
                            = (Ret (obj_get validation k), Build_state h tr)).
  { intros k tr. unfold get, get_prop. cbn [st_heap]. by rewrite Hval. }
  set (method := obj_get props "method").
  set (path := obj_get props "path").
  set (expected := obj_get validation "expectedStatus").
  rewrite (bind_run _ _ _ _ _ (Hget "method" _)), (bind_run _ _ _ _ _ (Hget "path" _)).
  rewrite (bind_run _ _ _ _ _ (Hgv _)), (bind_run _ _ _ _ _ (Hg _ _)).
  rewrite (bind_run _ _ _ _ _ (Hget "method" _)), (bind_run _ _ _ _ _ (Hget "path" _)).
  rewrite (bind_run _ _ _ _ _ (Hgv _)), (bind_run _ _ _ _ _ (Hg _ _)).
  rewrite (bind_run _ _ _ _ _ (Hget "method" _)), (bind_run _ _ _ _ _ (Hget "path" _)).
  rewrite (bind_run _ _ _ _ _ (Hget "method" _)).
  fold method path expected.
  set (created := strict_eq method (VStr "POST")
                  && strict_eq expected (VNum (Int 201))).
  match goal with
  | |- bind ?c ?k ?s = _ =>
      assert (Hcreated : c s = (Ret created, s))
  end.
  { subst created. destruct (strict_eq method (VStr "POST")); [|reflexivity].
    by rewrite (bind_run _ _ _ _ _ (Hgv _)), (bind_run _ _ _ _ _ (Hg _ _)). }
  rewrite (bind_run _ _ _ _ _ Hcreated). clear Hcreated.
  match goal with
  | |- bind ?c ?k ?s = _ =>
      assert (Hlocation :
        c s = (Ret (if created
                    then Some (check_name props [Text " - has Location header"])
                    else None), s))
  end.
  { destruct created; [|reflexivity].
    by rewrite (bind_run _ _ _ _ _ (Hget "method" _)),
         (bind_run _ _ _ _ _ (Hget "path" _)). }
  rewrite (bind_run _ _ _ _ _ Hlocation). clear Hlocation.
  rewrite (bind_run _ _ _ _ _ (Hgv _)), (bind_run _ _ _ _ _ (Hg _ _)).
  rewrite (bind_run (emit _) _ _ _ _ eq_refl). cbn [st_heap st_trace].
  rewrite (bind_run _ _ _ _ _ (Hgv _)), (bind_run _ _ _ _ _ (Hg _ _)).
  rewrite (bind_run (emit _) _ _ _ _ eq_refl). cbn [st_heap st_trace].
  rewrite (bind_run _ _ _ _ _ (Hgv _)), (bind_run _ _ _ _ _ (Hg _ _)).
  rewrite Hlimit, Hreq. cbn [to_number].
  assert (Hall : forall tr, BatchRunner.every_header (VRef hl) r (Build_state h tr)
                 = (Ret (forallb (BatchRunner.has_header r) names), Build_state h tr)).
  { intros tr. unfold BatchRunner.every_header.
    rewrite (bind_run (read _) _ _ _ _ eq_refl). cbn [st_heap]. rewrite Hhl.
    unfold read. cbn [st_heap]. do 2 f_equal. clear.
    induction names as [|n names IH]; [done|]. rewrite fmap_cons. cbn [forallb].
    by rewrite String_of_VStr, IH. }
  rewrite (bind_run _ _ _ _ _ (Hall _)).
  rewrite (bind_run (emit _) _ _ _ _ eq_refl). cbn [st_heap st_trace].
  unfold single_checks. fold method path expected created.
  destruct created; unfold emit, ret, check_name; cbn [st_heap st_trace];
    fold method path; rewrite <- ?app_assoc, ?app_nil_r; reflexivity.
Qed.

(** The main function up to the [switch]: the URL is the base URL and
    the path of the registry's entry, as they are; the request options
    hold the headers, with the token when it is required and set. *)
Lemma default_prelude r regs d dprops e0 props0 base route e props h t :
  h !! d = Some (Obj dprops) ->
  obj_get dprops "endpoint" = VRef e ->
  h !! r = Some (Obj regs) ->
  obj_get regs (override_or env "ENDPOINT" "users-me") = VRef e0 ->
  h !! e0 = Some (Obj props0) ->
  obj_get props0 "baseUrl" = VStr base ->
  obj_get props0 "path" = VStr route ->
  h !! e = Some (Obj props) ->
  exists h7 options_at headers_at,
    EndpointRunner.default (VRef r) env respond (VRef d) (Build_state h t)
    = (let* response := EndpointRunner.send respond (VRef e) (VStr (base +:+ route))
                          (VRef options_at) in
       let* _ := EndpointRunner.run_checks (VRef e) response in
       emit (SleepFor (VNum (Int 1))))
        {| st_heap := h7;
           st_trace := t ++ single_auth_lines env (obj_get props "requiresAuth") |} /\
    (forall i o, h !! i = Some o -> h7 !! i = Some o) /\
    h7 !! options_at = Some (Obj [("headers", VRef headers_at)]) /\
    h7 !! headers_at = Some (Obj (single_sent_headers env (obj_get props "requiresAuth"))).
Proof.
  intros Hd Hde Hr Hkey He0 Hb Hroute He.
  unfold EndpointRunner.default, EndpointRunner.endpointKey. rewrite or_else_env.
  rewrite (bind_run (get (VRef d) "endpoint") _ _ (VRef e) (Build_state h t))
    by (unfold get, get_prop; cbn [st_heap]; by rewrite Hd, Hde).
  rewrite (bind_run (read _) _ _ _ _ eq_refl), String_of_VStr.
  rewrite (bind_run (alloc _) _ _ _ _ eq_refl). cbn [st_heap st_trace].
  set (h1 := h ++ [Obj []]).
  assert (Hold1 : forall i o, h !! i = Some o -> h1 !! i = Some o).
  { intros i o Hi. subst h1. by apply lookup_app_l_Some. }
  assert (Hparams : h1 !! List.length h = Some (Obj [])).
  { subst h1. by apply list_lookup_middle. }
  assert (Hurl : Endpoints.buildUrl (VRef r) (override_or env "ENDPOINT" "users-me")
                   (VRef (List.length h)) (Build_state h1 t)
                 = (Ret (VStr (base +:+ route)), Build_state h1 t)).
  { by rewrite (buildUrl_reads r regs _ e0 props0 base route (List.length h) []
                  (Build_state h1 t) (Hold1 _ _ Hr) Hkey (Hold1 _ _ He0) Hb Hroute
                  Hparams). }
  rewrite (bind_run _ _ _ _ _ Hurl). clear Hurl.
  rewrite (bind_run (alloc _) _ _ _ _ eq_refl). cbn [st_heap st_trace].
  rewrite (bind_run (alloc _) _ _ _ _ eq_refl). cbn [st_heap st_trace].
  subst h1. rewrite !length_app. cbn [List.length].
  set (headers_at := (List.length h + 1)%nat).
  set (options_at := (List.length h + 1 + 1)%nat).
  fold single_headers.
  set (h2 := ((h ++ [Obj []]) ++ [Obj single_headers]) ++ [Obj _]).
  assert (Hold2 : forall i o, h !! i = Some o -> h2 !! i = Some o).
  { intros i o Hi. subst h2. rewrite <- !app_assoc. by apply lookup_app_l_Some. }
  assert (Hoptions : h2 !! options_at = Some (Obj [("headers", VRef headers_at)])).
  { subst h2 options_at. apply list_lookup_middle. rewrite !length_app. reflexivity. }
  assert (Hheaders : h2 !! headers_at = Some (Obj single_headers)).
  { subst h2 headers_at. rewrite <- app_assoc. apply list_lookup_middle.
    rewrite length_app. reflexivity. }
  rewrite (bind_run (get (VRef e) "requiresAuth") _ _ (obj_get props "requiresAuth")
             (Build_state h2 _))
    by (unfold get, get_prop; cbn [st_heap]; by rewrite (Hold2 _ _ He)).
  set (requiresAuth := obj_get props "requiresAuth").
  match goal with
  | |- context [bind ?c ?k {| st_heap := h2; st_trace := ?t1 |}] =>
      assert (Hauth : exists h7,
        c {| st_heap := h2; st_trace := t1 |}
        = (Ret tt, {| st_heap := h7;
                      st_trace := t1 ++ single_auth_lines env requiresAuth |}) /\
        (forall i o, h !! i = Some o -> h7 !! i = Some o) /\
        h7 !! options_at = Some (Obj [("headers", VRef headers_at)]) /\
        h7 !! headers_at = Some (Obj (single_sent_headers env requiresAuth)))
  end.
  { unfold single_auth_lines, single_sent_headers. destruct (truthy requiresAuth).
    - destruct (auth_token env) as [token|] eqn:Htoken.
      + destruct (auth_token_Some _ _ Htoken) as [Henv Htruthy]. rewrite Henv, Htruthy.
        exists (<[headers_at :=
                   Obj (single_headers ++ [("Authorization", VStr ("Bearer " +:+ token))])]>
                  h2).
        split; [|split; [|split]].
        * rewrite (bind_run (get (VRef options_at) "headers") _ _ (VRef headers_at)
                     (Build_state h2 _))
            by (unfold get, get_prop; cbn [st_heap]; by rewrite Hoptions).
          rewrite (bind_run (read _) _ _ _ _ eq_refl). cbn [st_heap st_trace].
          rewrite String_of_VStr. unfold set_prop. cbn [st_heap st_trace].
          rewrite Hheaders, app_nil_r. reflexivity.
        * intros i o Hi. rewrite list_lookup_insert_ne; [by apply Hold2|].
          apply lookup_lt_Some in Hi. subst headers_at. lia.
        * rewrite list_lookup_insert_ne by (subst options_at headers_at; lia).
          exact Hoptions.
        * apply list_lookup_insert_eq. by eapply lookup_lt_Some.
      + rewrite (auth_token_None _ Htoken). exists h2.
        split; [reflexivity|]. split; [exact Hold2|]. split; assumption.
    - exists h2. split; [by rewrite app_nil_r|]. split; [exact Hold2|]. split; assumption. }
  destruct Hauth as (h7 & Hauth & Hold & Hoptions7 & Hheaders7).
  rewrite (bind_run _ _ _ _ _ Hauth). clear Hauth.
  exists h7, options_at, headers_at. split; [reflexivity|]. split; [exact Hold|].
  split; assumption.
Qed.

(** X21. One iteration of the single-endpoint runner. The data hold an
    endpoint object with one of the five verbs, a path that is a string
    and a complete validation record; the key of the module is in the
    registry, with a base URL and a path that are strings. The iteration
    adds to the trace, in this order: the warning about the missing
    token, if the endpoint requires authentication and no token is set;
    one request, to the base URL followed by the path of the registry's
    entry as it is written (no placeholder of the path is filled in),
    with the headers of the runner and the bearer token if the endpoint
    requires authentication and a token is set; then, when the engine
    answers, the three checks named after the method and the path, a
    fourth one on the [Location] header exactly for a POST that expects
    the status 201, and a sleep of one second. When the request fails,
    the failure ends the iteration: no check is recorded and there is no
    sleep. *)
Theorem iteration_trace r regs d dprops e0 props0 base route e props verb path
    v validation limit hl names st :
  st_heap st !! d = Some (Obj dprops) ->
  obj_get dprops "endpoint" = VRef e ->
  st_heap st !! r = Some (Obj regs) ->
  obj_get regs (override_or env "ENDPOINT" "users-me") = VRef e0 ->
  st_heap st !! e0 = Some (Obj props0) ->
  obj_get props0 "baseUrl" = VStr base ->
  obj_get props0 "path" = VStr route ->
  st_heap st !! e = Some (Obj props) ->
  obj_get props "method" = VStr verb ->
  verb ∈ supported_verbs ->
  obj_get props "path" = VStr path ->
  obj_get props "validation" = VRef v ->
  st_heap st !! v = Some (Obj validation) ->
  obj_get validation "responseTime" = VNum limit ->
  obj_get validation "requiredHeaders" = VRef hl ->
  st_heap st !! hl = Some (Arr (VStr <$> names)) ->
  exists body st',
    let requiresAuth := obj_get props "requiresAuth" in
    let sent :=
      st_trace st ++ single_auth_lines env requiresAuth ++
      [HttpRequest verb (VStr (base +:+ route)) body
         (single_sent_headers env requiresAuth)] in
    EndpointRunner.default (VRef r) env respond (VRef d) st
      = (match respond sent with
         | Some _ => Ret tt
         | None => Throw (Error "request failed")
         end, st') /\
    st_trace st' =
      sent ++ match respond sent with
              | Some answer =>
                  single_checks props validation limit names answer ++
                  [SleepFor (VNum (Int 1))]
              | None => []
              end.
Proof.
  intros Hd Hde Hr Hkey He0 Hb Hroute He Hm Hverb Hp Hv Hval Hlimit Hreq Hhl.
  destruct st as [h t]. cbn [st_heap st_trace] in *.
  destruct (default_prelude r regs d dprops e0 props0 base route e props h t
              Hd Hde Hr Hkey He0 Hb Hroute He)
    as (h7 & options_at & headers_at & Hrun & Hold & Hoptions & Hheaders).
  rewrite Hrun. clear Hrun.
  set (requiresAuth := obj_get props "requiresAuth") in *.
  assert (Hoptions' : get_prop h7 (VRef options_at) "headers" = Ret (VRef headers_at)).
  { unfold get_prop. by rewrite Hoptions. }
  destruct (send_sends e props verb path (VStr (base +:+ route)) (VRef options_at)
              (VRef headers_at)
              (Build_state h7 (t ++ single_auth_lines env requiresAuth))
              (Hold _ _ He) Hm Hverb Hp Hoptions') as [body Hsend].
  cbn [st_heap st_trace] in Hsend.
  assert (Hsent : own_entries h7 (VRef headers_at) = single_sent_headers env requiresAuth).
  { unfold own_entries. by rewrite Hheaders. }
  rewrite Hsent in Hsend. clear Hsent.
  rewrite <- !app_assoc in Hsend.
  exists body. cbv zeta.
  set (sent := t ++ single_auth_lines env requiresAuth ++ [_]) in *.
  unfold BatchRunner.receive in Hsend. cbn [st_trace] in Hsend.
  destruct (respond sent) as [answer|].
  - rewrite (bind_run _ _ _ _ _ Hsend).
    rewrite (bind_run _ _ _ _ _
               (single_checks_records e props v validation limit hl names answer
                  {| st_heap := h7; st_trace := sent |}
                  (Hold _ _ He) Hv (Hold _ _ Hval) Hlimit Hreq (Hold _ _ Hhl))).
    eexists. split; [reflexivity|]. cbn [st_heap st_trace]. by rewrite <- !app_assoc.
  - rewrite (bind_throw _ _ _ _ _ Hsend).
    eexists. split; [reflexivity|]. cbn [st_trace]. by rewrite app_nil_r.
Qed.

(** X22. An iteration on an endpoint whose method is a string other than
    GET, POST, PUT, PATCH and DELETE: the URL is built and authentication
    is handled as for any endpoint, then the iteration ends in the error
    [Unsupported HTTP method: <method>]. No request is sent, no check is
    recorded and there is no sleep. *)
Theorem iteration_unsupported r regs d dprops e0 props0 base route e props verb st :
  st_heap st !! d = Some (Obj dprops) ->
  obj_get dprops "endpoint" = VRef e ->
  st_heap st !! r = Some (Obj regs) ->
  obj_get regs (override_or env "ENDPOINT" "users-me") = VRef e0 ->
  st_heap st !! e0 = Some (Obj props0) ->
  obj_get props0 "baseUrl" = VStr base ->
  obj_get props0 "path" = VStr route ->
  st_heap st !! e = Some (Obj props) ->
  obj_get props "method" = VStr verb ->
  verb ∉ supported_verbs ->
  exists st',
    EndpointRunner.default (VRef r) env respond (VRef d) st
      = (Throw (Error ("Unsupported HTTP method: " +:+ verb)), st') /\
    st_trace st' = st_trace st ++ single_auth_lines env (obj_get props "requiresAuth").
Proof.
  intros Hd Hde Hr Hkey He0 Hb Hroute He Hm Hverb.
  destruct st as [h t]. cbn [st_heap st_trace] in *.
  destruct (default_prelude r regs d dprops e0 props0 base route e props h t
              Hd Hde Hr Hkey He0 Hb Hroute He)
    as (h7 & options_at & headers_at & Hrun & Hold & _ & _).
  rewrite Hrun. clear Hrun.
  rewrite (bind_throw _ _ _ _ _
             (send_unsupported e props verb (VStr (base +:+ route)) (VRef options_at)
                {| st_heap := h7;
                   st_trace := t ++ single_auth_lines env (obj_get props "requiresAuth") |}
                (Hold _ _ He) Hm Hverb)).
  eexists. split; reflexivity.
Qed.

End SingleIteration.

Lemma iteration_trace_witness :
  st_heap single_data_state !! single_data = Some (Obj single_data_props) /\
  obj_get single_data_props "endpoint" = VRef users_me /\
  st_heap single_data_state !! registry = Some (Obj registry_entries) /\
  obj_get registry_entries (override_or (env_of []) "ENDPOINT" "users-me")
    = VRef users_me /\
  st_heap single_data_state !! users_me = Some (Obj users_me_props) /\
  obj_get users_me_props "baseUrl" = VStr "https://dev-api.acexr.com" /\
  obj_get users_me_props "path" = VStr "/platform-services/v2/users/me" /\
  obj_get users_me_props "method" = VStr "GET" /\
  "GET" ∈ supported_verbs /\
  obj_get users_me_props "validation" = VRef users_me_validation_at /\
  st_heap single_data_state !! users_me_validation_at = Some (Obj users_me_validation) /\
  obj_get users_me_validation "responseTime" = VNum (Int 500) /\
  obj_get users_me_validation "requiredHeaders" = VRef users_me_required_at /\
  st_heap single_data_state !! users_me_required_at
    = Some (Arr (VStr <$> ["Content-Type"])) /\
  exists body st',
    let requiresAuth := obj_get users_me_props "requiresAuth" in
    let sent :=
      st_trace single_data_state ++ single_auth_lines (env_of []) requiresAuth ++
      [HttpRequest "GET"
         (VStr ("https://dev-api.acexr.com" +:+ "/platform-services/v2/users/me")) body
         (single_sent_headers (env_of []) requiresAuth)] in
    EndpointRunner.default (VRef registry) (env_of []) ok_response (VRef single_data)
      single_data_state
      = (match ok_response sent with
         | Some _ => Ret tt
         | None => Throw (Error "request failed")
         end, st') /\
    st_trace st' =
      sent ++ match ok_response sent with
              | Some answer =>
                  single_checks users_me_props users_me_validation (Int 500)
                    ["Content-Type"] answer ++
                  [SleepFor (VNum (Int 1))]
              | None => []
              end.
Proof.
  assert (Hd : st_heap single_data_state !! single_data = Some (Obj single_data_props))
    by (vm_compute; reflexivity).
  assert (Hde : obj_get single_data_props "endpoint" = VRef users_me)
    by (vm_compute; reflexivity).
  assert (Hr : st_heap single_data_state !! registry = Some (Obj registry_entries))
    by (vm_compute; reflexivity).
  assert (Hkey : obj_get registry_entries (override_or (env_of []) "ENDPOINT" "users-me")
                 = VRef users_me) by (vm_compute; reflexivity).
  assert (He : st_heap single_data_state !! users_me = Some (Obj users_me_props))
    by (vm_compute; reflexivity).
  assert (Hb : obj_get users_me_props "baseUrl" = VStr "https://dev-api.acexr.com")
    by (vm_compute; reflexivity).
  assert (Hp : obj_get users_me_props "path" = VStr "/platform-services/v2/users/me")
    by (vm_compute; reflexivity).
  assert (Hm : obj_get users_me_props "method" = VStr "GET")
    by (vm_compute; reflexivity).
  assert (Hverb : "GET" ∈ supported_verbs) by by_computation.
  assert (Hv : obj_get users_me_props "validation" = VRef users_me_validation_at)
    by (vm_compute; reflexivity).
  assert (Hval : st_heap single_data_state !! users_me_validation_at
                 = Some (Obj users_me_validation)) by (vm_compute; reflexivity).
  assert (Hlimit : obj_get users_me_validation "responseTime" = VNum (Int 500))
    by (vm_compute; reflexivity).
  assert (Hreq : obj_get users_me_validation "requiredHeaders"
                 = VRef users_me_required_at) by (vm_compute; reflexivity).
  assert (Hhl : st_heap single_data_state !! users_me_required_at
                = Some (Arr (VStr <$> ["Content-Type"]))) by (vm_compute; reflexivity).
  do 14 (split; [assumption|]).
  exact (iteration_trace (env_of []) ok_response registry registry_entries single_data
           single_data_props users_me users_me_props "https://dev-api.acexr.com"
           "/platform-services/v2/users/me" users_me users_me_props "GET"
           "/platform-services/v2/users/me" users_me_validation_at users_me_validation
           (Int 500) users_me_required_at ["Content-Type"] single_data_state
           Hd Hde Hr Hkey He Hb Hp He Hm Hverb Hp Hv Hval Hlimit Hreq Hhl).
Defined.

Lemma iteration_unsupported_witness :
  st_heap probe_data_state !! probe_data = Some (Obj probe_data_props) /\
  obj_get probe_data_props "endpoint" = VRef probe_at /\
  st_heap probe_data_state !! registry = Some (Obj registry_entries) /\
  obj_get registry_entries (override_or (env_of []) "ENDPOINT" "users-me")
    = VRef users_me /\
  st_heap probe_data_state !! users_me = Some (Obj users_me_props) /\
  obj_get users_me_props "baseUrl" = VStr "https://dev-api.acexr.com" /\
  obj_get users_me_props "path" = VStr "/platform-services/v2/users/me" /\
  st_heap probe_data_state !! probe_at = Some (Obj probe_props) /\
  obj_get probe_props "method" = VStr "HEAD" /\
  ("HEAD" ∉ supported_verbs) /\
  exists st',
    EndpointRunner.default (VRef registry) (env_of []) ok_response (VRef probe_data)
      probe_data_state
      = (Throw (Error ("Unsupported HTTP method: " +:+ "HEAD")), st') /\
    st_trace st' =
      st_trace probe_data_state ++
      single_auth_lines (env_of []) (obj_get probe_props "requiresAuth").
Proof.
  assert (Hd : st_heap probe_data_state !! probe_data = Some (Obj probe_data_props))
    by (vm_compute; reflexivity).
  assert (Hde : obj_get probe_data_props "endpoint" = VRef probe_at)
    by (vm_compute; reflexivity).
  assert (Hr : st_heap probe_data_state !! registry = Some (Obj registry_entries))
    by (vm_compute; reflexivity).
  assert (Hkey : obj_get registry_entries (override_or (env_of []) "ENDPOINT" "users-me")
                 = VRef users_me) by (vm_compute; reflexivity).
  assert (He0 : st_heap probe_data_state !! users_me = Some (Obj users_me_props))
    by (vm_compute; reflexivity).
  assert (Hb : obj_get users_me_props "baseUrl" = VStr "https://dev-api.acexr.com")
    by (vm_compute; reflexivity).
  assert (Hp : obj_get users_me_props "path" = VStr "/platform-services/v2/users/me")
    by (vm_compute; reflexivity).
  assert (He : st_heap probe_data_state !! probe_at = Some (Obj probe_props))
    by (vm_compute; reflexivity).
  assert (Hm : obj_get probe_props "method" = VStr "HEAD") by (vm_compute; reflexivity).
  assert (Hverb : "HEAD" ∉ supported_verbs) by by_computation.
  do 10 (split; [assumption|]).
  exact (iteration_unsupported (env_of []) ok_response registry registry_entries
           probe_data probe_data_props users_me users_me_props
           "https://dev-api.acexr.com" "/platform-services/v2/users/me" probe_at
           probe_props "HEAD" probe_data_state Hd Hde Hr Hkey He0 Hb Hp He Hm Hverb).
Defined.

(** A run on [update-user] and on [create-user] with a token set: the
    request of the first goes to the path with its placeholder as it is
    written; the second records the check on the [Location] header, which
    fails on an answer without one, and the iteration goes on to the
    sleep. *)
Example shipped_iterations :
  let run key :=
    let env := env_of [("ENDPOINT", key); ("AUTH_TOKEN", "t")] in
    (let* m := EndpointRunner.module Program.endpoints Program.testSuites env in
     let* data := EndpointRunner.setup env (EndpointRunner.the_endpoint m) in
     EndpointRunner.default Program.endpoints env ok_response data) Program.boot in
  (run "update-user").1 = Ret tt /\
  HttpRequest "PATCH" (VStr "https://dev-api.acexr.com/platform-services/v2/users/{id}")
    (Some UserPatch)
    (single_headers ++ [("Authorization", VStr "Bearer t")])
    ∈ st_trace (run "update-user").2 /\
  (run "create-user").1 = Ret tt /\
  CheckResult [Val (VStr "POST"); Text " "; Val (VStr "/platform-services/v2/users");
               Text " - has Location header"] false
    ∈ st_trace (run "create-user").2 /\
  last (st_trace (run "create-user").2) = Some (SleepFor (VNum (Int 1))).
Proof.
  cbv zeta. split; [vm_compute; reflexivity|]. split; [by_computation|].
  split; [vm_compute; reflexivity|]. split; [by_computation|].
  vm_compute. reflexivity.
Qed.
